(* ===== verification/_CoqProject ===== *)
-Q . S2P
Prelude.v
Tensor.v
Loss.v
LossReal.v
Machine.v
Float32Spec.v
PyData.v
Checkpoint.v
Json.v
Trainer.v
Toy.v
Conversion.v
Console.v
Training.v
Saving.v
Batch.v
Evaluation.v
EvalPass.v
Types.v
Construction.v
Invariants.v
Session.v
Descent.v
Loop.v
