(* ===== verification/Prelude.v ===== *)
(** * Verification of the seq2seq language-model trainer

    The program is [src/language_models/trainer.py]: a class [Trainer] that
    wraps an external network ([language_models.model.LM]), an SGD optimiser
    and a data loader, together with the module-level helpers
    [_set_random_seeds], [_batch_loss], [_ensure_path],
    [_perplexity_from_loss], [_print_info] and [_var]. The methods are
    [__init__], [train_batch], [train], [eval], [save_model], [_save_dir]
    and [_set_optimizer]. [train] calls [_set_optimizer], then for every
    epoch and batch the variant chain and [train_batch], which calls [_var],
    the network, [_batch_loss] and the optimiser; at the end of an epoch it
    calls [save_model] (which calls [_save_dir] and [_ensure_path]) and, at
    the decay epoch, [_set_optimizer] again. [eval] runs the same chain and
    [_batch_loss] without the optimiser and ends with [_print_info].

    Every definition keeps the name of the function it models and follows it
    statement by statement, defects included: the theorems state what the
    code does, which in several places is not what it was meant to do.

    ** Files

    - [Prelude] (this file): the part of Python the trainer relies on.
      Exceptions are values ([PyError], [Res]); a method is a computation in
      the state-and-exception monad [Exn], in which a raised exception keeps
      the state reached so far (nothing in the source catches one); [for]
      loops are [exn_for] and [exn_fold]; [range], [enumerate] and [%] are
      [py_range], [py_enumerate] and [py_mod]. It also holds the
      postcondition calculus [wp] with one rule per monad operation, the hint
      databases [py] and the tactics [wp_step] and [wp_run] that the other
      files use to walk through a method.
    - [Tensor]: tensors as lists of rows and the three indexing forms of
      [_batch_loss]: [outputs[idx]] ([py_index]), [x[idxes]] ([mask_select])
      and [targets[idxes, idx]] ([mask_column]), with [IndexError] where the
      library raises it.
    - [Loss]: [_batch_loss] ([batch_loss_loop] is its loop, [positive] and
      [decrement] the two array operations, [Loss] the running sum, which
      starts as the plain number [0]) and [_perplexity_from_loss], generic in the
      criterion and in the scalar arithmetic (class [LossNum]). Theorems:
      the loop equals the closed form [masked_loss]; the result does not
      depend on inactive positions; it is total on well-shaped batches; it
      raises [IndexError] when the batch has more examples than there are
      output steps; output steps beyond the batch size are ignored; the
      empty batch.
    - [LossReal]: the arithmetic [LossNum] on the real numbers
      ([Real_LossNum]: sum, division by a count, two to a power, mean).
      Theorems: with a criterion whose values lie in [[0, M]] the loss of a
      batch lies in [[0, M * len(target_lengths) / len(outputs)]]; the
      perplexity of a loss that is not negative is at least one and grows
      with the loss; two to the power of a positive loss is below its
      exponential; a printed mean lies within the values it averages.
    - [Machine]: the two number formats of [_var]. [in_int64] is the
      range of the entries of a [torch.LongTensor]; [float32_of_int] is the
      cast of an integer to a [FloatTensor], which keeps 24 significant
      bits ([excess] counts the bits that do not fit, [round_even] rounds
      them away, to nearest with ties to even). Theorems: the cast is exact
      below [2 ^ 24], its relative error is at most [2 ^ -24], it is
      idempotent.
    - [Float32Spec]: [float32_of_int] equals the rounding of the standard
      library's specification of IEEE 754 arithmetic ([SpecFloat], format
      binary32) on every integer below [2 ^ 100] in magnitude, so on every
      entry of a 64-bit tensor. The proof follows the specification: the
      invariant [shifted] of its bit-by-bit shift, the rounding read off
      the shifted record, the second pass after a carry.
    - [PyData]: the values the trainer handles. Loader items ([PyVal]) and
      their unpacking, the conversion of [_var] ([as_matrix], then
      [long_tensor], which refuses entries outside 64 bits, and
      [tensor_type], which casts every entry with [cast_entry]), the
      hyper-parameter store ([Key], [PVal], [Params], [params_get]) with the
      arithmetic applied to its values, the objects [self.model] can hold
      ([PyObj]: compared with the variant constants, asked for parameters,
      called), and console lines ([LogLine]).
    - [Checkpoint]: the constants of the environment (class [Env]),
      [_save_dir] with the timestamp format of [strftime], and a file system
      ([FS]) with [_ensure_path] and the writes of [save_model]. Theorems:
      the timestamp reads back ([strptime] is its decoder), so distinct
      times give distinct directories; [_ensure_path] establishes the path,
      keeps files and is idempotent; the directory of a file [d/f] is [d]
      ([dirname_fmt_path]), and when a file can be written ([writable]).
    - [Json]: the text of the hyper-parameter file. [json_dumps] is
      [json.dump(self.params, fp, indent=4, sort_keys=True)] of line 161 on
      [None] or a mapping of integers, floats and strings ([json_item] is a
      line, [sorted_items] the order of [sort_keys], [escape_char] the
      escaping of [ensure_ascii]); [json_loads] reads such a text: the
      lexer [lex_run] is a machine that takes one character at a time
      ([lex_step], states [Lex]), the parser [parse_document] folds its
      tokens into a mapping, and [json_number] is the grammar of numbers.
      Theorems: what was written is read back
      ([json_loads_dumps]), the text is plain ASCII, the names appear in
      ascending order, an integer reads back from its decimal text.
    - [Trainer]: the class. The torch library is the class [Backend]
      (constructor and forward pass of the network, criterion, which is
      given the type of the tensor its targets come from, gradient of a
      batch, SGD update, value of a random draw). The object is the record
      [Trainer]; what it acts on is the record [World] (the store [nets] of
      networks, shared by [self.model] and the optimiser built from its
      parameters, the two generators, the clock, the file system, the
      console and the record [calls] of forward calls); [State] pairs them.
      [__init__], [_set_optimizer], [train_batch], [save_model] (its three
      writes are [write_checkpoint]), [train]
      (with [dispatch] for the variant chain, [train_step] and [train_epoch]
      for the loop bodies, [Locals] for the local variables, which are
      unbound until assigned) and [eval] ([eval_step]) are computations in
      [Exn State]. The file ends with the rules of the postcondition
      calculus for the accessors and the tactics [tr_step] and [tr_run].
    - [Toy]: a small instance of [Env] and [Backend] on which the theorems
      with hypotheses are applied.
    - [Training]: [train] never reaches a batch and changes nothing but the
      optimiser, the console and directories ([untrained]), and it leaves
      the trainer as [_set_optimizer] does; [save_model] always raises
      before writing; the exception a first epoch ends with
      ([train_error]: [TypeError] at the first batch, [ZeroDivisionError]
      when [save_model_every] is zero, that of [save_model] otherwise); the
      learning rate [_set_optimizer] installs, and the decay branch that
      discards it; the variant chain, and the batches it accepts
      ([batch_shaped], the contract of the loader).
    - [Saving]: the three writes [write_checkpoint], which [save_model]
      never reaches. Where the three paths can be written they store the
      weights, the hyper-parameters and the vocabulary, which read back;
      when the last write fails the first two files stay (no atomicity);
      the directory [_ensure_path] made is enough for them; the text of the
      hyper-parameter file ([file_text]) is read back as [self.params].
    - [Conversion]: [_var] on a rectangular list of lists: [RuntimeError]
      when an entry does not fit in 64 bits, otherwise the tensor of the
      roundings to single precision, exact below [2 ^ 24].
    - [Console]: logging is write-only. [Blind] says that a computation
      does not read the console: from states that differ only there it
      ends the same way, in states that differ only there, having printed
      the same lines. It is closed under the operations of the monad, so
      every method is [Blind] by the instances of what it calls, and
      replacing the console before a call changes nothing else
      ([console_irrelevant]).
    - [Batch]: [train_batch] called directly on a working trainer performs
      exactly one SGD step on the gradient of the batch; the shape and the
      tensor types of every forward call ([calls_since], [call_shape],
      [args_float]); its footprint ([batch_frame]: at most one call and one
      draw, trainer, files and console untouched) and that an exception
      leaves the parameters of every network as they were; [_var] makes
      float tensors only.
    - [Evaluation]: [eval] is read-only ([read_only]), every call of the
      network it makes is an [eval_call] (no teacher forcing, float
      tensors), and it raises at its first batch for every object the
      trainer itself puts in [self.model]; for an object that equals [LM_ANSWERS] and can be
      called, what [eval] computes and prints on a loader of one batch,
      that such a batch raises [ZeroDivisionError] when [print_every] is
      zero, and that a batch the variant chain refuses ends [eval] with
      nothing changed.
    - [EvalPass]: the evaluation pass of the design as a function of the
      loader. [dev_batch] is the computation of one batch (conversion,
      forward call without teacher forcing, loss), [dev_pass] runs the
      batches in order, each from the generator the one before left,
      [dev_lines] and [dev_summary] are the lines logged and [after_pass]
      the state a pass leaves; the pass is with questions or without
      ([dev_inputs], [dev_questions]). Theorem: for a model that can be
      called and equals [LM_ANSWERS] or [LM_QUESTION_ANSWERS] ([can_eval]),
      [eval] computes the pass on a loader of any length, by induction on
      the loader with the batch index generalised ([enum_from]), and raises
      what the pass raises ([eval_step_dev] is one iteration).
    - [Types]: the two places where types matter. Tensors: the targets
      come from [_var], which makes float tensors only ([Batch]), so with a
      criterion that takes its targets from a [LongTensor] only
      ([strict_criterion], what [nn.NLLLoss] does) [train_batch] and [eval]
      raise on every batch.
      Hyper-parameters: each key has the type its use asks for
      ([key_type]); the well-typed stores ([well_typed], [typed_state]) are
      an invariant of every method, and on them [_set_optimizer] cannot
      fail on a type.
    - [Construction]: [__init__] allocates one network, is reproducible, and
      returns a trainer on which [train], [train_batch] and [save_model]
      raise.
    - [Invariants]: the two histories stay aligned ([history_ok]) and the
      networks the trainer refers to stay in the store ([wf_state]), under
      every method.
    - [Session]: programs that hold a trainer. [Call] is a call of [train],
      [eval], [save_model], [train_batch] or [_set_optimizer] with its
      arguments, [call] runs it, [after] is the state it leaves whether it
      returned or raised, [run] executes a list of calls, [call_step] is
      the relation of one call and [reachable] its reflexive transitive
      closure; the two agree ([run_reachable], [reachable_run]). By
      induction on the relation, what holds of one call holds of every
      program: the frame [session_frame] (only the optimiser attribute
      changes, no file is written, the recorded forward calls only grow),
      the invariants [wf_state], [history_ok] and [typed_state], and, from
      the state [__init__] leaves, that nothing but the console ever
      changes and every call raises. The last uses the equivalence of
      [Console]: states that differ only in the console are left so by a
      call.
    - [Descent]: the loop [train] was meant to run, as a program of
      [Session] that calls [train_batch] on each batch in turn
      ([batch_call]). [sgd_batch] is one step of the design, [sgd_pass] the
      steps on a list of batches, each from the network and the generators
      the one before left, [descended] the state they leave. Theorem: on a
      trainer whose model is the network of its optimiser ([ready]) the
      program computes [sgd_pass], and when a step fails the call on that
      batch raises its exception.
    - [Loop]: the run of [train] as the state machine of the design,
      [Idle], [Training], [Done] or [Failed]: [start] is what [train] does
      before its loop, a transition of [loop_step] is [start] or one
      [train_epoch]. Theorems: [train] computes a run of the machine, the
      machine is deterministic so that run is its only complete one, and by
      induction on runs no reachable configuration has completed an epoch;
      every run ends (the measure [fuel] decreases at each transition and a
      configuration that is not final has a transition), and a run from
      [Idle] has at most two transitions.

    ** Assumptions

    - Python 3: [/] is true division, [map] is lazy, [raise] of a [str] is a
      [TypeError], reading an unassigned local is an [UnboundLocalError].
    - Python integers are [Z]; hyper-parameter floats are exact rationals
      ([Qc]); loss values are elements of an arbitrary [LossNum], and in
      [LossReal] real numbers. The entries of tensors are integers: those
      of a [LongTensor] lie in the 64-bit range, those of a float tensor
      are the integers a single-precision number can hold. No other
      rounding is modelled.
    - The strings of hyper-parameters and of their names are sequences of
      characters below 256. The text of a float ([float_repr]), its
      reading ([float_of_string]) and the names of the hyper-parameters
      ([key_name]) are fields of [Env]; the round trip of the
      hyper-parameter file assumes that the names are distinct and that
      the floats in the store read back from their text ([float_ok]).
    - What the criterion does with targets of a given tensor type is a
      field of [Backend]; only the theorems that say so assume that it
      refuses targets that are not of type [LongTensor].
    - Tensors have two dimensions. The three variant constants are distinct.
      [optim.SGD] accepts any learning rate when it is built; a rate it
      cannot use makes [sgd_step] raise.
    - Timestamps satisfy [valid_datetime] (years 1000 to 9999), where
      [strftime] prints fields of fixed width.
    - [tqdm] is the identity on the iterable it wraps.

    ** Bounds

    No definition takes fuel: the loops of the source iterate over finite
    lists ([range], the loader), so [exn_fold] and [batch_loss_loop] are
    structurally recursive and every method is a total function. The
    measure [fuel] of [Loop] bounds the transitions of the machine by two
    more than the number of epochs. The lexer of [Json] recurses on the
    text and its parser on the tokens. [Float32Spec] covers the integers
    below [2 ^ 100] in magnitude: beyond [2 ^ 128] single precision
    overflows to infinity, and a 64-bit entry is below [2 ^ 63].

    ** Not modelled

    The network, the autograd engine and the optimiser's arithmetic: they
    are library code, the fields of [Backend]. The bytes written by
    [torch.save] and [pickle.dump]: they are formats of the libraries, of
    which the trainer fixes nothing, so these two files hold the value
    written to them. Of JSON, what is not the text of a store of
    hyper-parameters: arrays, nested objects, [true] and [false], and the
    digits of a float, which [float_repr] stands for; [json_loads] refuses
    such texts. The data loader beyond the list of its batches: batching
    and shuffling happen outside the source. The rounding of
    floating-point arithmetic other than the cast of [_var]: the bounds of
    [LossReal] are on real numbers. The text a format string would
    produce: console lines keep format and argument apart, as [print]
    receives them. *)

From Stdlib Require Import ZArith QArith Qcanon.
From stdpp Require Import prelude strings gmap.

Declare Scope py_scope.
Delimit Scope py_scope with py.
Open Scope py_scope.

(** ** Exceptions and results *)

(** The exception classes the trainer can raise. *)
Inductive PyError : Type :=
| AttributeError
| IndexError
| KeyError
| TypeError
| ValueError
| ZeroDivisionError
| UnboundLocalError
| OSError
| RuntimeError.

#[export] Instance PyError_eq_dec : EqDecision PyError.
Proof. solve_decision. Defined.

(** The outcome of evaluating an expression. *)
Inductive Res (A : Type) : Type :=
| Ok (a : A)
| Raise (e : PyError).
Arguments Ok {A} a.
Arguments Raise {A} e.

#[export] Instance Res_eq_dec `{EqDecision A} : EqDecision (Res A).
Proof. solve_decision. Defined.

Definition res_bind {A B} (m : Res A) (k : A -> Res B) : Res B :=
  match m with
  | Ok a => k a
  | Raise e => Raise e
  end.

Definition res_map {A B} (f : A -> B) (m : Res A) : Res B :=
  match m with
  | Ok a => Ok (f a)
  | Raise e => Raise e
  end.

Definition is_ok {A} (m : Res A) : bool :=
  match m with Ok _ => true | Raise _ => false end.

Definition of_option {A} (e : PyError) (o : option A) : Res A :=
  match o with Some a => Ok a | None => Raise e end.

Notation "x <- e ;; k" := (res_bind e (fun x => k))
  (at level 100, e at next level, right associativity) : py_scope.

(** [res_mapM f l] evaluates [f] on the elements left to right and stops at
    the first exception. *)
Fixpoint res_mapM {A B} (f : A -> Res B) (l : list A) : Res (list B) :=
  match l with
  | [] => Ok []
  | x :: l' => y <- f x ;; ys <- res_mapM f l' ;; Ok (y :: ys)
  end.

(** ** State and exceptions

    A statement runs in a state [S] and returns a result together with the
    state it reached: an exception does not roll the state back. *)

Definition Exn (S A : Type) : Type := S -> Res A * S.

Definition exn_ret {S A} (a : A) : Exn S A := fun s => (Ok a, s).

Definition exn_raise {S A} (e : PyError) : Exn S A := fun s => (Raise e, s).

Definition exn_bind {S A B} (m : Exn S A) (k : A -> Exn S B) : Exn S B :=
  fun s =>
    match m s with
    | (Ok a, s') => k a s'
    | (Raise e, s') => (Raise e, s')
    end.

Definition exn_get {S} : Exn S S := fun s => (Ok s, s).

Definition exn_gets {S A} (f : S -> A) : Exn S A := fun s => (Ok (f s), s).

Definition exn_modify {S} (f : S -> S) : Exn S unit := fun s => (Ok tt, f s).

Definition exn_lift {S A} (r : Res A) : Exn S A := fun s => (r, s).

Notation "x <~ e ;; k" := (exn_bind e (fun x => k))
  (at level 100, e at next level, right associativity) : py_scope.
Notation "e ;;; k" := (exn_bind e (fun _ => k))
  (at level 100, right associativity) : py_scope.

(** [for x in l: body x], with the loop left at the first exception. *)
Fixpoint exn_for {S X} (l : list X) (body : X -> Exn S unit) : Exn S unit :=
  match l with
  | [] => exn_ret tt
  | x :: l' => body x ;;; exn_for l' body
  end.

(** A loop that carries a value [a] (the local variables of the enclosing
    function) from one iteration to the next. *)
Fixpoint exn_fold {S A X} (l : list X) (body : A -> X -> Exn S A) (a : A)
  : Exn S A :=
  match l with
  | [] => exn_ret a
  | x :: l' => a' <~ body a x ;; exn_fold l' body a'
  end.

(** ** Python built-ins *)

(** [range(n)]: [0, 1, ..., n-1], empty when [n <= 0]. *)
Definition py_range (n : Z) : list Z := Z.of_nat <$> seq 0 (Z.to_nat n).

(** [enumerate(l)]. *)
Definition py_enumerate {A} (l : list A) : list (Z * A) :=
  imap (fun i x => (Z.of_nat i, x)) l.

(** [a % b] on integers: the sign follows the divisor, as [Z.modulo] does. *)
Definition py_mod (a b : Z) : Res Z :=
  if decide (b = 0%Z) then Raise ZeroDivisionError else Ok (a mod b)%Z.

(** ** Shared lemmas *)

Lemma res_bind_ok {A B} (m : Res A) (k : A -> Res B) b :
  res_bind m k = Ok b <-> exists a, m = Ok a /\ k a = Ok b.
Proof.
  destruct m as [a|e]; simpl; split.
  - eauto.
  - by intros (a' & [= <-] & H).
  - done.
  - by intros (? & ? & ?).
Qed.

Lemma res_bind_raise {A B} (m : Res A) (k : A -> Res B) e :
  res_bind m k = Raise e <-> m = Raise e \/ exists a, m = Ok a /\ k a = Raise e.
Proof.
  destruct m as [a|e']; simpl; split.
  - intros H; right; eauto.
  - intros [?|(a' & ? & ?)]; congruence.
  - intros [= ->]; by left.
  - intros [?|(? & ? & ?)]; congruence.
Qed.

Lemma is_ok_bind {A B} (m : Res A) (k : A -> Res B) a :
  m = Ok a -> is_ok (res_bind m k) = is_ok (k a).
Proof. by intros ->. Qed.

Lemma is_ok_true {A} (m : Res A) : is_ok m = true <-> exists a, m = Ok a.
Proof. destruct m; simpl; split; eauto; [done|by intros [? ?]]. Qed.

Lemma is_ok_false {A} (m : Res A) : is_ok m = false <-> exists e, m = Raise e.
Proof. destruct m; simpl; split; eauto; [done|by intros [? ?]]. Qed.

Lemma res_mapM_length {A B} (f : A -> Res B) l ys :
  res_mapM f l = Ok ys -> length ys = length l.
Proof.
  revert ys; induction l as [|x l IH]; intros ys; simpl.
  - by intros [= <-].
  - destruct (f x); [|done]; simpl.
    destruct (res_mapM f l); [|done]; simpl.
    intros [= <-]; simpl; f_equal; auto.
Qed.

Lemma forallb_Forall {A} (f : A -> bool) (l : list A) :
  forallb f l = true <-> Forall (fun x => f x = true) l.
Proof.
  induction l as [|x l IH]; simpl; [by split|].
  rewrite andb_true_iff, IH. split; [intros []; by constructor|by inversion 1].
Qed.

Lemma res_mapM_Forall2 {A B} (f : A -> Res B) l ys :
  res_mapM f l = Ok ys -> Forall2 (fun x y => f x = Ok y) l ys.
Proof.
  revert ys. induction l as [|x l IH]; intros ys; simpl.
  - intros [= <-]. constructor.
  - destruct (f x) as [y|] eqn:E; [|done]; simpl.
    destruct (res_mapM f l) as [ys'|]; [|done]; simpl.
    intros [= <-]. constructor; auto.
Qed.

Lemma res_mapM_ext {A B} (f g : A -> Res B) l :
  Forall (fun x => f x = g x) l -> res_mapM f l = res_mapM g l.
Proof. induction 1 as [|x l Hx _ IH]; simpl; [done|]. by rewrite Hx, IH. Qed.

Lemma res_mapM_total {A B} (f : A -> Res B) (g : A -> B) l :
  Forall (fun x => f x = Ok (g x)) l -> res_mapM f l = Ok (g <$> l).
Proof. induction 1 as [|x l Hx _ IH]; simpl; [done|]. by rewrite Hx, IH. Qed.

Lemma exn_for_app {S X} (l1 l2 : list X) (body : X -> Exn S unit) s :
  exn_for (l1 ++ l2) body s =
  match exn_for l1 body s with
  | (Ok _, s') => exn_for l2 body s'
  | (Raise e, s') => (Raise e, s')
  end.
Proof.
  revert s; induction l1 as [|x l1 IH]; intros s; simpl; [done|].
  unfold exn_bind. destruct (body x s) as [[[]|e] s']; [apply IH|done].
Qed.

(** A loop whose first iteration raises raises, in the state that iteration
    reached. *)
Lemma exn_for_first_raise {S X} (x : X) l (body : X -> Exn S unit) s e s' :
  body x s = (Raise e, s') -> exn_for (x :: l) body s = (Raise e, s').
Proof. intros H; simpl; unfold exn_bind; by rewrite H. Qed.

Lemma exn_fold_first_raise {S A X} (x : X) l (body : A -> X -> Exn S A) a s e s' :
  body a x s = (Raise e, s') -> exn_fold (x :: l) body a s = (Raise e, s').
Proof. intros H; simpl; unfold exn_bind; by rewrite H. Qed.

Lemma exn_fold_app {S A X} (l1 l2 : list X) (body : A -> X -> Exn S A) a s :
  exn_fold (l1 ++ l2) body a s =
  match exn_fold l1 body a s with
  | (Ok a', s') => exn_fold l2 body a' s'
  | (Raise e, s') => (Raise e, s')
  end.
Proof.
  revert a s; induction l1 as [|x l1 IH]; intros a s; simpl; [done|].
  unfold exn_bind. destruct (body a x s) as [[a'|e] s']; [apply IH|done].
Qed.

(** An invariant of the state that every iteration keeps, whether it
    returns or raises, holds when the loop is left. *)
Lemma exn_fold_invariant {S A X} (I : S -> Prop) (l : list X)
    (body : A -> X -> Exn S A) a s :
  (forall a x s, I s -> I (snd (body a x s))) ->
  I s -> I (snd (exn_fold l body a s)).
Proof.
  intros Hbody. revert a s; induction l as [|x l IH]; intros a s Hs; simpl; [done|].
  unfold exn_bind. specialize (Hbody a x s Hs).
  destruct (body a x s) as [[a'|e] s']; simpl in *; auto.
Qed.

Lemma exn_bind_invariant {S A B} (I : S -> Prop) (m : Exn S A) (k : A -> Exn S B) s :
  I (snd (m s)) -> (forall a s', I s' -> I (snd (k a s'))) ->
  I (snd (exn_bind m k s)).
Proof.
  intros Hm Hk. unfold exn_bind. destruct (m s) as [[a|e] s']; simpl in *; auto.
Qed.

Lemma py_range_length n : length (py_range n) = Z.to_nat n.
Proof. unfold py_range. by rewrite length_fmap, length_seq. Qed.

Lemma py_range_nonpos n : (n <= 0)%Z -> py_range n = [].
Proof. intros H. unfold py_range. by replace (Z.to_nat n) with 0%nat by lia. Qed.

Lemma py_range_succ n :
  (0 <= n)%Z -> py_range (n + 1) = py_range n ++ [n].
Proof.
  intros H. unfold py_range.
  replace (Z.to_nat (n + 1)) with (S (Z.to_nat n)) by lia.
  rewrite seq_S, fmap_app; simpl. by rewrite Z2Nat.id.
Qed.

Lemma py_range_pos n : (0 < n)%Z -> exists l, py_range n = 0%Z :: l.
Proof.
  intros Hn. unfold py_range.
  destruct (Z.to_nat n) as [|k] eqn:E; [lia|]. by eexists.
Qed.

Lemma py_range_lookup n (i : nat) :
  (i < Z.to_nat n)%nat -> py_range n !! i = Some (Z.of_nat i).
Proof.
  intros H. unfold py_range. rewrite list_lookup_fmap, lookup_seq_lt; done.
Qed.

Lemma Forall_py_range (P : Z -> Prop) n :
  (forall k : nat, (k < Z.to_nat n)%nat -> P (Z.of_nat k)) -> Forall P (py_range n).
Proof.
  intros H. unfold py_range. apply Forall_fmap, Forall_seq. intros k Hk.
  apply H. lia.
Qed.

Lemma elem_of_py_range n x :
  x ∈ py_range n <-> (0 <= x < n)%Z.
Proof.
  unfold py_range. rewrite list_elem_of_fmap. split.
  - intros (k & -> & Hk%elem_of_seq). lia.
  - intros Hx. exists (Z.to_nat x). rewrite elem_of_seq. lia.
Qed.

(** A traversal raises the exception of its first failing element. *)
Lemma res_mapM_raise {A B} (f : A -> Res B) l1 x l2 e :
  Forall (fun y => is_ok (f y) = true) l1 -> f x = Raise e ->
  res_mapM f (l1 ++ x :: l2) = Raise e.
Proof.
  induction 1 as [|y l1 Hy _ IH]; intros Hx; simpl.
  - by rewrite Hx.
  - apply is_ok_true in Hy as [b ->]; simpl. by rewrite IH.
Qed.

(** A traversal whose elements can only raise [e] can only raise [e]. *)
Lemma res_mapM_only_raises {A B} (f : A -> Res B) l e e' :
  Forall (fun y => forall e0, f y = Raise e0 -> e0 = e) l ->
  res_mapM f l = Raise e' -> e' = e.
Proof.
  induction 1 as [|y l Hy _ IH]; simpl; [done|].
  destruct (f y) as [b|e0] eqn:E; simpl.
  - destruct (res_mapM f l); simpl; [done|]. intros [= <-]. by apply IH.
  - intros [= <-]. by apply Hy.
Qed.

Lemma res_mapM_is_ok {A B} (f : A -> Res B) l :
  Forall (fun y => is_ok (f y) = true) l <-> is_ok (res_mapM f l) = true.
Proof.
  induction l as [|y l IH]; simpl; [done|]. rewrite Forall_cons, IH.
  destruct (f y); simpl; [|intuition discriminate].
  destruct (res_mapM f l); simpl; intuition discriminate.
Qed.

Lemma py_mod_ok a b : b <> 0%Z -> py_mod a b = Ok (a mod b)%Z.
Proof. intros H. unfold py_mod. by rewrite decide_False. Qed.

Lemma py_mod_0 b r : py_mod 0 b = Ok r -> r = 0%Z.
Proof.
  unfold py_mod. case_decide; [done|]. rewrite Z.mod_0_l by done. by intros [= <-].
Qed.

Lemma py_mod_zero a : py_mod a 0 = Raise ZeroDivisionError.
Proof. done. Qed.

(** Updating an entry that is present is inserting its new value. *)
Lemma alter_Some `{Countable K} {A} (f : A -> A) (m : gmap K A) k x :
  m !! k = Some x -> alter f k m = <[k := f x]> m.
Proof.
  intros Hk. apply map_eq. intros j. destruct (decide (k = j)) as [->|Hne].
  - by rewrite lookup_alter_eq, lookup_insert_eq, Hk.
  - by rewrite lookup_alter_ne, lookup_insert_ne.
Qed.

(** ** Postconditions of stateful computations

    [wp m Q s]: running [m] in [s] ends, with a value or an exception, in a
    result and a state that satisfy [Q]. *)

Definition wp {S A} (m : Exn S A) (Q : Res A -> S -> Prop) (s : S) : Prop :=
  Q (fst (m s)) (snd (m s)).

Section Wp.
Context {S : Type}.
Implicit Types (s : S).

Lemma wp_bind {A B} (m : Exn S A) (k : A -> Exn S B) Q s :
  wp m (fun r s' => match r with
                    | Ok a => wp (k a) Q s'
                    | Raise e => Q (Raise e) s'
                    end) s ->
  wp (exn_bind m k) Q s.
Proof. unfold wp, exn_bind. by destruct (m s) as [[a|e] s']. Qed.

Lemma wp_ret {A} (a : A) (Q : Res A -> S -> Prop) s : Q (Ok a) s -> wp (exn_ret a) Q s.
Proof. done. Qed.

Lemma wp_raise {A} e (Q : Res A -> S -> Prop) s : Q (Raise e) s -> wp (exn_raise e) Q s.
Proof. done. Qed.

Lemma wp_lift {A} (r : Res A) (Q : Res A -> S -> Prop) s : Q r s -> wp (exn_lift r) Q s.
Proof. done. Qed.

Lemma wp_gets {A} (f : S -> A) (Q : Res A -> S -> Prop) s :
  Q (Ok (f s)) s -> wp (exn_gets f) Q s.
Proof. done. Qed.

Lemma wp_modify (f : S -> S) (Q : Res unit -> S -> Prop) s :
  Q (Ok tt) (f s) -> wp (exn_modify f) Q s.
Proof. done. Qed.

Lemma wp_mono {A} (m : Exn S A) (Q Q' : Res A -> S -> Prop) s :
  wp m Q s -> (forall r s', Q r s' -> Q' r s') -> wp m Q' s.
Proof. unfold wp. auto. Qed.

Lemma wp_and {A} (m : Exn S A) (Q Q' : Res A -> S -> Prop) s :
  wp m Q s -> wp m Q' s -> wp m (fun r s' => Q r s' /\ Q' r s') s.
Proof. unfold wp. auto. Qed.

Lemma wp_if {A} (b : bool) (m1 m2 : Exn S A) Q s :
  (b = true -> wp m1 Q s) -> (b = false -> wp m2 Q s) ->
  wp (if b then m1 else m2) Q s.
Proof. destruct b; auto. Qed.

Lemma wp_decide {A} (P : Prop) `{Decision P} (m1 m2 : Exn S A) Q s :
  (P -> wp m1 Q s) -> (~ P -> wp m2 Q s) ->
  wp (if decide P then m1 else m2) Q s.
Proof. destruct (decide P); auto. Qed.

(** A loop whose iterations keep [I], and raise only into [Q], ends in [I]
    with its last value or in [Q] with an exception. *)
Lemma wp_fold {A X} (I : A -> S -> Prop) (E : PyError -> S -> Prop)
    (l : list X) (body : A -> X -> Exn S A) a s :
  (forall a x s, x ∈ l -> I a s ->
     wp (body a x) (fun r s' => match r with
                                | Ok a' => I a' s'
                                | Raise e => E e s'
                                end) s) ->
  I a s ->
  wp (exn_fold l body a) (fun r s' => match r with
                                      | Ok a' => I a' s'
                                      | Raise e => E e s'
                                      end) s.
Proof.
  revert a s. induction l as [|x l IH]; intros a s Hbody Ha; [done|].
  simpl. apply wp_bind. eapply wp_mono; [apply Hbody; [by left|done]|].
  intros [a'|e] s' Hr; [|done].
  apply IH; [|done]. intros; apply Hbody; [by right|done].
Qed.

End Wp.

(** ** Automation *)

Create HintDb py discriminated.
Create Rewrite HintDb py.
#[export] Hint Rewrite @length_fmap @length_seq py_range_length : py.
#[export] Hint Resolve py_range_nonpos py_mod_ok : py.

(** Case analysis on the result a monadic bind scrutinises. *)
Ltac res_case :=
  match goal with
  | |- context [res_bind ?m _] => destruct m eqn:?; simpl
  | H : context [res_bind ?m _] |- _ => destruct m eqn:?; simpl in H
  end.

(** Unfolds one layer of the state monad in the goal. *)
Ltac exn_unfold :=
  unfold exn_bind, exn_ret, exn_raise, exn_get, exn_gets, exn_modify, exn_lift.

(** One step of a postcondition proof: through a bind, then through the
    primitive it starts with; a lifted result is case-split. *)
Ltac wp_prim :=
  first
    [ apply wp_ret | apply wp_raise | apply wp_gets | apply wp_modify
    | apply wp_lift ].

Ltac wp_step :=
  lazymatch goal with
  | |- wp (exn_bind _ _) _ _ => apply wp_bind
  | |- wp (if decide _ then _ else _) _ _ => apply wp_decide; intros ?
  | |- wp (if _ then _ else _) _ _ => apply wp_if; intros ?
  | |- wp _ _ _ => wp_prim
  | |- match ?r with Ok _ => _ | Raise _ => _ end =>
      first
        [ match goal with H : r = _ |- _ => rewrite H end
        | let E := fresh "E" in destruct r eqn:E ]
  end.

Ltac wp_run := repeat (wp_step; cbn beta).
