(* ===== verification/Tensor.v ===== *)
(** * Sequences and tensors as lists

    The trainer only indexes its tensors: [outputs[idx]], a boolean mask
    [x[idxes]], and a masked column [targets[idxes, idx]]. A tensor of shape
    [B x T] is a list of [B] rows; an index past the end, or a mask whose
    length is not the indexed dimension, raises [IndexError], as numpy and
    torch do. *)

From S2P Require Import Prelude.
From stdpp Require Import prelude.

(** [l[i]], with Python's negative indices counting from the end. *)
Definition py_index {A} (l : list A) (i : Z) : Res A :=
  let n := Z.of_nat (length l) in
  if decide (0 <= i < n)%Z then of_option IndexError (l !! Z.to_nat i)
  else if decide (- n <= i < 0)%Z then of_option IndexError (l !! Z.to_nat (n + i))
  else Raise IndexError.

(** The elements of [xs] at the positions where [mask] holds. *)
Fixpoint mask_filter {A} (mask : list bool) (xs : list A) : list A :=
  match mask, xs with
  | b :: mask', x :: xs' =>
      if b then x :: mask_filter mask' xs' else mask_filter mask' xs'
  | _, _ => []
  end.

(** [xs[mask]] for a boolean array [mask]. *)
Definition mask_select {A} (mask : list bool) (xs : list A) : Res (list A) :=
  if decide (length mask = length xs) then Ok (mask_filter mask xs)
  else Raise IndexError.

(** [t[:, j]]: the column [j] of a tensor given by its rows. *)
Definition column {A} (t : list (list A)) (j : Z) : Res (list A) :=
  res_mapM (fun row => py_index row j) t.

(** [t[mask, j]]. *)
Definition mask_column {A} (t : list (list A)) (mask : list bool) (j : Z)
  : Res (list A) :=
  col <- column t j ;; mask_select mask col.

(** ** Lemmas *)

Section Indexing.
Context {A : Type}.
Implicit Types (l xs ys : list A) (mask : list bool) (t : list (list A)).

Lemma py_index_nat l (i : nat) :
  py_index l (Z.of_nat i) = of_option IndexError (l !! i).
Proof.
  unfold py_index; cbv zeta. case_decide as H.
  - by rewrite Nat2Z.id.
  - rewrite decide_False by lia.
    rewrite lookup_ge_None_2; [done|lia].
Qed.

Lemma py_index_lt l (i : nat) x :
  l !! i = Some x -> py_index l (Z.of_nat i) = Ok x.
Proof. intros H. by rewrite py_index_nat, H. Qed.

Lemma py_index_ge l (i : Z) :
  (Z.of_nat (length l) <= i)%Z -> py_index l i = Raise IndexError.
Proof. intros H. unfold py_index; cbv zeta. do 2 (rewrite decide_False by lia). done. Qed.

Lemma py_index_raise l (i : Z) e : py_index l i = Raise e -> e = IndexError.
Proof.
  unfold py_index; cbv zeta. repeat case_decide; [| |congruence];
    destruct (l !! _); simpl; congruence.
Qed.

Lemma py_index_last l x : py_index (l ++ [x]) (-1) = Ok x.
Proof.
  unfold py_index; cbv zeta. rewrite length_app; simpl.
  rewrite decide_True by lia.
  replace (Z.to_nat _) with (length l + 0)%nat by lia.
  by rewrite lookup_app_r, Nat.add_comm, Nat.add_sub by lia.
Qed.

Lemma py_index_app_l l l' (i : Z) :
  (0 <= i < Z.of_nat (length l))%Z -> py_index (l ++ l') i = py_index l i.
Proof.
  intros H. unfold py_index; cbv zeta. rewrite length_app.
  rewrite !decide_True by lia. by rewrite lookup_app_l by lia.
Qed.

Lemma mask_filter_length mask xs :
  (length (mask_filter mask xs) <= length xs)%nat.
Proof.
  revert xs; induction mask as [|b mask IH]; intros [|x xs]; simpl; try lia.
  specialize (IH xs). destruct b; simpl; lia.
Qed.

Lemma mask_filter_all_false mask xs :
  Forall (fun b => b = false) mask -> mask_filter mask xs = [].
Proof.
  intros H; revert xs; induction H as [|b mask -> _ IH]; intros [|x xs]; simpl; auto.
Qed.

Lemma mask_filter_all_true mask xs :
  length mask = length xs -> Forall (fun b => b = true) mask ->
  mask_filter mask xs = xs.
Proof.
  intros Hl H; revert xs Hl.
  induction H as [|b mask -> _ IH]; intros [|x xs] Hl; simplify_eq/=; f_equal; auto.
Qed.

(** Two lists that agree wherever the mask holds have the same selection. *)
Lemma mask_filter_agree mask xs ys :
  length xs = length ys ->
  (forall i, mask !! i = Some true -> xs !! i = ys !! i) ->
  mask_filter mask xs = mask_filter mask ys.
Proof.
  revert xs ys; induction mask as [|b mask IH]; intros [|x xs] [|y ys] Hl H;
    simplify_eq/=; auto.
  assert (mask_filter mask xs = mask_filter mask ys) as ->.
  { apply IH; [done|]. intros i Hi. apply (H (S i) Hi). }
  destruct b; [|done]. f_equal. by specialize (H 0%nat eq_refl); simplify_eq/=.
Qed.

Lemma mask_select_ok mask xs :
  length mask = length xs -> mask_select mask xs = Ok (mask_filter mask xs).
Proof. intros H. unfold mask_select. by rewrite decide_True. Qed.

Lemma mask_select_mismatch mask xs :
  length mask <> length xs -> mask_select mask xs = Raise IndexError.
Proof. intros H. unfold mask_select. by rewrite decide_False. Qed.

Lemma mask_select_agree mask xs ys :
  length xs = length ys ->
  (forall i, mask !! i = Some true -> xs !! i = ys !! i) ->
  mask_select mask xs = mask_select mask ys.
Proof.
  intros Hl H. unfold mask_select. rewrite <- Hl.
  case_decide; [|done]. f_equal. by apply mask_filter_agree.
Qed.

Lemma column_length t j col : column t j = Ok col -> length col = length t.
Proof. apply res_mapM_length. Qed.

Lemma column_nat_ok t (j : nat) :
  Forall (fun row => (j < length row)%nat) t ->
  exists col, column t (Z.of_nat j) = Ok col /\
    forall i, col !! i = (t !! i) ≫= (.!! j).
Proof.
  induction 1 as [|row t Hrow _ (col & Hcol & IH)]; simpl.
  - exists []. split; [done|]. by intros i.
  - apply lookup_lt_is_Some_2 in Hrow as [x Hx].
    exists (x :: col). unfold column in *; simpl.
    rewrite (py_index_lt _ _ _ Hx); simpl. rewrite Hcol; simpl.
    split; [done|]. intros [|i]; simpl; [done|apply IH].
Qed.

Lemma column_short t (j : Z) row :
  row ∈ t -> (Z.of_nat (length row) <= j)%Z -> column t j = Raise IndexError.
Proof.
  intros Hin Hj. unfold column.
  induction t as [|r t IH]; [by apply elem_of_nil in Hin|].
  simpl. apply elem_of_cons in Hin as [<-|Hin].
  - by rewrite py_index_ge.
  - destruct (py_index r j) eqn:E; simpl; [|].
    + by rewrite IH.
    + by apply py_index_raise in E as ->.
Qed.

(** A column exists exactly when every row is long enough. *)
Lemma column_nat_short t (j : nat) :
  ~ Forall (fun row => (j < length row)%nat) t ->
  column t (Z.of_nat j) = Raise IndexError.
Proof.
  intros (row & Hin & Hj)%not_Forall_Exists%Exists_exists; [|solve_decision].
  apply (column_short _ _ row Hin). simpl in Hj. lia.
Qed.

(** Two tensors of the same shape whose rows agree at column [j] wherever
    the mask holds have the same masked column. *)
Lemma mask_column_agree mask t t' (j : nat) :
  Forall2 (fun r r' => length r = length r') t t' ->
  (forall i, mask !! i = Some true -> t !! i ≫= (.!! j) = t' !! i ≫= (.!! j)) ->
  mask_column t mask (Z.of_nat j) = mask_column t' mask (Z.of_nat j).
Proof.
  intros Hshape Hagree. unfold mask_column.
  destruct (decide (Forall (fun row => (j < length row)%nat) t)) as [Ht|Ht].
  - assert (Forall (fun row => (j < length row)%nat) t') as Ht'.
    { clear Hagree. induction Hshape as [|r r' t t' Hr _ IH]; [done|].
      apply Forall_cons in Ht as [? ?]. constructor; [lia|auto]. }
    destruct (column_nat_ok _ _ Ht) as (col & Hc & Hcol).
    destruct (column_nat_ok _ _ Ht') as (col' & Hc' & Hcol').
    rewrite Hc, Hc'; simpl. apply mask_select_agree.
    + apply column_length in Hc, Hc'.
      by rewrite Hc, Hc', (Forall2_length _ _ _ Hshape).
    + intros i Hi. rewrite Hcol, Hcol'. auto.
  - rewrite (column_nat_short _ _ Ht), column_nat_short; [done|].
    intros Ht'; apply Ht. clear Hagree Ht.
    induction Hshape as [|r r' t t' Hr _ IH]; [done|].
    apply Forall_cons in Ht' as [? ?]. constructor; [lia|auto].
Qed.

Lemma mask_select_raise mask xs e : mask_select mask xs = Raise e -> e = IndexError.
Proof. unfold mask_select. case_decide; congruence. Qed.

Lemma column_raise t (j : Z) e : column t j = Raise e -> e = IndexError.
Proof.
  apply res_mapM_only_raises, Forall_forall. intros row _ e0. apply py_index_raise.
Qed.

Lemma mask_column_raise mask t (j : Z) e :
  mask_column t mask j = Raise e -> e = IndexError.
Proof.
  unfold mask_column. intros [?|(col & _ & ?)]%res_bind_raise;
    eauto using column_raise, mask_select_raise.
Qed.

End Indexing.

#[export] Hint Resolve mask_select_ok mask_select_mismatch py_index_ge : py.
