(* ===== verification/Loss.v ===== *)
(** * Loss and perplexity

    Models [_batch_loss], [_perplexity_from_loss] and the means printed by
    [_print_info] of [src/language_models/trainer.py].

    Loss values live in an abstract numeric type [T] with the operations the
    source applies to them ([LossNum]); the criterion is the argument it is in
    the source. The running sum starts as the Python number [0] and becomes a
    tensor at the first addition, which [Loss] keeps apart because the callers
    of [_batch_loss] call tensor methods on the result. *)

From S2P Require Import Prelude Tensor.
From stdpp Require Import prelude.

(** The arithmetic the trainer performs on loss values. *)
Class LossNum (T : Type) : Type := {
  ladd : T -> T -> T;        (* [a + b] on tensors *)
  ldiv : T -> nat -> T;      (* [a / n] for a Python integer [n] *)
  lpow2 : T -> T;            (* [np.power(2.0, a)] *)
  lmean : list T -> T;       (* [np.mean(np.array(l))] *)
}.

(** The value of the variable [loss] of [_batch_loss]: a plain Python number
    zero ([PyZero]: the [0] it is initialised with, or the [0.0] that
    dividing it gives), or a tensor. *)
Inductive Loss (T : Type) : Type :=
| PyZero
| Var (t : T).
Arguments PyZero {T}.
Arguments Var {T} t.

Section BatchLoss.
Context {T : Type} `{LossNum T} {Row Tok : Type}.
Implicit Types (criterion : list Row -> list Tok -> Res T)
  (outputs : list (list Row)) (targets : list (list Tok))
  (target_lengths l : list Z) (loss : Loss T).

(** [loss += c]: [0 + c] is [c]. *)
Definition loss_add loss (c : T) : Loss T :=
  match loss with
  | PyZero => Var c
  | Var t => Var (ladd t c)
  end.

(** [loss / n]: only the number [0] divided by [0] raises; a tensor divided
    by [0] is a tensor. *)
Definition loss_div loss (n : nat) : Res (Loss T) :=
  match loss with
  | PyZero => if decide (n = 0%nat) then Raise ZeroDivisionError else Ok PyZero
  | Var t => Ok (Var (ldiv t n))
  end.

(** [l > 0], elementwise. *)
Definition positive l : list bool := (fun x => bool_decide (0 < x)%Z) <$> l.

(** [l -= 1], elementwise. *)
Definition decrement l : list Z := (fun x => x - 1)%Z <$> l.

(** The loop of [_batch_loss] over the indices [idxs] still to visit, with
    the current counters [l] and running sum [loss]. *)
Fixpoint batch_loss_loop criterion outputs targets (idxs : list Z) l loss
  : Res (Loss T) :=
  match idxs with
  | [] => Ok loss
  | idx :: idxs' =>
      let idxes := positive l in
      o <- py_index outputs idx ;;
      sel <- mask_select idxes o ;;
      tg <- mask_column targets idxes idx ;;
      c <- criterion sel tg ;;
      batch_loss_loop criterion outputs targets idxs' (decrement l) (loss_add loss c)
  end.

Definition _batch_loss criterion outputs target_lengths targets : Res (Loss T) :=
  loss <- batch_loss_loop criterion outputs targets
            (py_range (Z.of_nat (length target_lengths))) target_lengths PyZero ;;
  loss_div loss (length outputs).

Definition _perplexity_from_loss (loss : T) : T := lpow2 loss.

(** ** The masked loss in closed form

    At step [t] the active examples are those whose length exceeds [t]. *)

Definition active target_lengths (t : Z) : list bool :=
  (fun n => bool_decide (t < n)%Z) <$> target_lengths.

Definition step_loss criterion outputs targets target_lengths (t : Z) : Res T :=
  o <- py_index outputs t ;;
  sel <- mask_select (active target_lengths t) o ;;
  tg <- mask_column targets (active target_lengths t) t ;;
  criterion sel tg.

Definition loss_sum (acc : Loss T) (terms : list T) : Loss T :=
  fold_left loss_add terms acc.

Definition masked_loss criterion outputs target_lengths targets : Res (Loss T) :=
  terms <- res_mapM (step_loss criterion outputs targets target_lengths)
             (py_range (Z.of_nat (length target_lengths))) ;;
  loss_div (loss_sum PyZero terms) (length outputs).

(** ** Lemmas on the counters *)

Definition shift (k : Z) l : list Z := (fun x => x - k)%Z <$> l.

Lemma shift_0 l : shift 0 l = l.
Proof.
  unfold shift. rewrite <- (list_fmap_id l) at 2.
  apply list_fmap_ext; intros; simpl; lia.
Qed.

Lemma decrement_shift k l : decrement (shift k l) = shift (k + 1) l.
Proof.
  unfold decrement, shift. rewrite <- list_fmap_compose.
  apply list_fmap_ext; intros; simpl; lia.
Qed.

Lemma positive_shift k l : positive (shift k l) = active l k.
Proof.
  unfold positive, shift, active. rewrite <- list_fmap_compose.
  apply list_fmap_ext; intros i x _; simpl. apply bool_decide_ext; lia.
Qed.

Lemma active_length l t : length (active l t) = length l.
Proof. unfold active. by rewrite length_fmap. Qed.

Lemma active_lookup l t (i : nat) :
  active l t !! i = (fun n => bool_decide (t < n)%Z) <$> l !! i.
Proof. unfold active. by rewrite list_lookup_fmap. Qed.

Lemma loss_sum_app acc ts ts' :
  loss_sum acc (ts ++ ts') = loss_sum (loss_sum acc ts) ts'.
Proof. apply fold_left_app. Qed.

(** The loop from step [k] on computes the step losses of the closed form. *)
Lemma batch_loss_loop_spec criterion outputs targets l (n k : nat) loss :
  batch_loss_loop criterion outputs targets
    (Z.of_nat <$> seq k n) (shift (Z.of_nat k) l) loss
  = (terms <- res_mapM (step_loss criterion outputs targets l) (Z.of_nat <$> seq k n) ;;
     Ok (loss_sum loss terms)).
Proof.
  revert k loss; induction n as [|n IH]; intros k loss; [done|].
  cbn [seq fmap list_fmap batch_loss_loop res_mapM]. unfold step_loss at 1.
  rewrite positive_shift, decrement_shift.
  destruct (py_index outputs _); [|done]; cbn [res_bind].
  destruct (mask_select _ _); [|done]; cbn [res_bind].
  destruct (mask_column _ _ _); [|done]; cbn [res_bind].
  destruct (criterion _ _) as [c|]; [|done]; cbn [res_bind].
  replace (Z.of_nat k + 1)%Z with (Z.of_nat (S k)) by lia.
  rewrite IH. by destruct (res_mapM _ _).
Qed.

Lemma batch_loss_masked criterion outputs target_lengths targets :
  _batch_loss criterion outputs target_lengths targets
  = masked_loss criterion outputs target_lengths targets.
Proof.
  unfold _batch_loss, masked_loss, py_range. rewrite Nat2Z.id.
  rewrite <- (shift_0 target_lengths) at 2.
  rewrite (batch_loss_loop_spec criterion outputs targets target_lengths _ 0).
  by destruct (res_mapM _ _).
Qed.

(** A step loss is a value of the criterion. *)
Lemma step_loss_criterion criterion outputs targets l (t : Z) c :
  step_loss criterion outputs targets l t = Ok c ->
  exists sel tg, criterion sel tg = Ok c.
Proof.
  unfold step_loss.
  intros (o & _ & (sel & _ & (tg & _ & Hc)%res_bind_ok)%res_bind_ok)%res_bind_ok.
  eauto.
Qed.

(** The terms the closed form sums: one value of the criterion for each
    length of the batch. *)
Lemma masked_loss_terms criterion outputs target_lengths targets loss :
  masked_loss criterion outputs target_lengths targets = Ok loss ->
  exists terms, length terms = length target_lengths /\
    Forall (fun c => exists sel tg, criterion sel tg = Ok c) terms /\
    loss_div (loss_sum PyZero terms) (length outputs) = Ok loss.
Proof.
  unfold masked_loss. intros (terms & Ht & Hl)%res_bind_ok. exists terms.
  split; [by rewrite (res_mapM_length _ _ _ Ht), py_range_length, Nat2Z.id|].
  split; [|done]. apply res_mapM_Forall2 in Ht. clear Hl.
  induction Ht; constructor; eauto using step_loss_criterion.
Qed.

(** A criterion that always raises stops the loop at its first step. *)
Lemma batch_loss_loop_raises criterion outputs targets idx idxs l loss :
  (forall rows toks, is_ok (criterion rows toks) = false) ->
  is_ok (batch_loss_loop criterion outputs targets (idx :: idxs) l loss) = false.
Proof.
  intros Hc. cbn [batch_loss_loop].
  destruct (py_index outputs idx); [|done]; cbn [res_bind].
  destruct (mask_select _ _) as [sel|]; [|done]; cbn [res_bind].
  destruct (mask_column _ _ _) as [tg|]; [|done]; cbn [res_bind].
  specialize (Hc sel tg). by destruct (criterion sel tg).
Qed.

(** With such a criterion [_batch_loss] never returns a tensor: it raises,
    or on an empty batch returns the number zero. *)
Lemma batch_loss_no_tensor criterion outputs target_lengths targets v :
  (forall rows toks, is_ok (criterion rows toks) = false) ->
  _batch_loss criterion outputs target_lengths targets <> Ok (Var v).
Proof.
  intros Hc. unfold _batch_loss.
  destruct (py_range _) as [|idx idxs].
  - cbn. by case_decide.
  - pose proof (batch_loss_loop_raises criterion outputs targets idx idxs
                  target_lengths PyZero Hc) as Hr.
    by destruct (batch_loss_loop _ _ _ _ _ _).
Qed.
End BatchLoss.

(** C2: [_batch_loss] computes the masked loss in closed form: the sum over
    the steps [t < len(target_lengths)] of the criterion on the examples whose
    length exceeds [t], divided by [len(outputs)]; it raises exactly when the
    closed form does. *)
Theorem batch_loss_closed_form {T} `{LossNum T} {Row Tok : Type}
    (criterion : list Row -> list Tok -> Res T) outputs target_lengths targets :
  _batch_loss criterion outputs target_lengths targets
  = masked_loss criterion outputs target_lengths targets.
Proof. apply batch_loss_masked. Qed.

(** ** Concrete loss values

    A free term algebra over integer constants, on which every definition can
    be run. *)
#[local] Unset Elimination Schemes.
Inductive Sym : Type :=
| SNum (z : Z)
| SAdd (a b : Sym)
| SDiv (a : Sym) (n : nat)
| SPow2 (a : Sym)
| SMean (l : list Sym).
#[local] Set Elimination Schemes.

#[export] Instance Sym_LossNum : LossNum Sym :=
  {| ladd := SAdd; ldiv := SDiv; lpow2 := SPow2; lmean := SMean |}.

(** A summed negative log-likelihood on integer scores: the sum of
    [- row[tok]] over the selected examples. It stands in for the criterion
    object on concrete inputs. *)
Definition nll_sum (rows : list (list Z)) (toks : list Z) : Res Sym :=
  if decide (length rows = length toks) then
    vs <- res_mapM (fun '(row, tok) => py_index row tok) (zip rows toks) ;;
    Ok (SNum (- foldr Z.add 0%Z vs))
  else Raise ValueError.

(** ** Inactive positions do not matter *)

Section ActiveOnly.
Context {T : Type} `{LossNum T} {Row Tok : Type}.
Implicit Types (criterion : list Row -> list Tok -> Res T)
  (o : list (list Row)) (tg : list (list Tok)) (l : list Z).

(** Two output sequences of the same shape that agree on the rows of the
    examples active at each step. *)
Definition agree_outputs l o o' : Prop :=
  Forall2 (fun s s' => length s = length s') o o' /\
  forall t i : nat, active l (Z.of_nat t) !! i = Some true ->
    o !! t ≫= (.!! i) = o' !! t ≫= (.!! i).

(** Two target tensors of the same shape that agree at the steps at which
    each example is active. *)
Definition agree_targets l tg tg' : Prop :=
  Forall2 (fun r r' => length r = length r') tg tg' /\
  forall t i : nat, active l (Z.of_nat t) !! i = Some true ->
    tg !! i ≫= (.!! t) = tg' !! i ≫= (.!! t).

Lemma step_loss_agree criterion l o o' tg tg' (t : nat) :
  agree_outputs l o o' -> agree_targets l tg tg' ->
  step_loss criterion o tg l (Z.of_nat t) = step_loss criterion o' tg' l (Z.of_nat t).
Proof.
  intros [Ho Hoa] [Ht Hta]. unfold step_loss. rewrite !py_index_nat.
  rewrite (mask_column_agree _ tg tg' t Ht (Hta t)).
  pose proof (proj1 (Forall2_lookup _ _ _) Ho t) as Hst.
  inversion Hst as [s s' Hl Hs Hs'|]; [|done]; simpl.
  rewrite (mask_select_agree _ s s' Hl); [done|].
  intros i Hi. specialize (Hoa t i Hi). by rewrite <- Hs, <- Hs' in Hoa.
Qed.

End ActiveOnly.

(** C5: the loss depends on the outputs and targets only at active positions:
    changing [outputs[t][i]] or [targets[i][t]] for an example [i] whose length
    is at most [t] changes neither the value nor the exception. *)
Theorem batch_loss_active_only {T} `{LossNum T} {Row Tok : Type}
    (criterion : list Row -> list Tok -> Res T) l o o' tg tg' :
  agree_outputs l o o' -> agree_targets l tg tg' ->
  _batch_loss criterion o l tg = _batch_loss criterion o' l tg'.
Proof.
  intros Ho Ht. rewrite !batch_loss_masked. unfold masked_loss.
  rewrite (Forall2_length _ _ _ (proj1 Ho)).
  rewrite (res_mapM_ext (step_loss criterion o tg l) (step_loss criterion o' tg' l));
    [done|].
  apply Forall_py_range. intros k _. by apply step_loss_agree.
Qed.

#[local] Open Scope Z_scope.

Lemma batch_loss_active_only_witness :
  _batch_loss nll_sum [[[0; -1]; [-2; 0]]; [[-3; 0]; [9; 9]]] [2; 1] [[1; 0]; [0; 1]]
  = _batch_loss nll_sum [[[0; -1]; [-2; 0]]; [[-3; 0]; [7; 7]]] [2; 1] [[1; 0]; [0; 5]].
Proof.
  apply batch_loss_active_only; (split; [repeat constructor|]).
  - intros [|[|t]] [|[|i]]; vm_compute; congruence.
  - intros [|[|t]] [|[|i]]; vm_compute; congruence.
Defined.

#[local] Close Scope Z_scope.

(** ** Totality and the exceptions *)

Section Shapes.
Context {T : Type} `{LossNum T} {Row Tok : Type}.
Implicit Types (criterion : list Row -> list Tok -> Res T)
  (o : list (list Row)) (tg : list (list Tok)) (l : list Z).

(** A batch of [B] examples: at least [B] output steps, each of the first
    [B] with one row per example, and [B] target rows of at least [B]
    columns. *)
Definition well_shaped (B : nat) o tg : Prop :=
  B <= length o /\
  (forall t s, t < B -> o !! t = Some s -> length s = B) /\
  length tg = B /\
  Forall (fun row => B <= length row) tg.

Definition total criterion : Prop :=
  forall sel toks, is_ok (criterion sel toks) = true.

Lemma step_loss_ok criterion o tg l (t : nat) :
  well_shaped (length l) o tg -> total criterion -> t < length l ->
  is_ok (step_loss criterion o tg l (Z.of_nat t)) = true.
Proof.
  intros (Ho & Hrows & Htg & Hcols) Hc Ht. unfold step_loss.
  destruct (lookup_lt_is_Some_2 o t) as [s Hs]; [lia|].
  rewrite (py_index_lt _ _ _ Hs); simpl.
  rewrite mask_select_ok by (rewrite active_length; symmetry; eauto); simpl.
  destruct (column_nat_ok tg t) as (col & Hcol & _).
  { eapply Forall_impl; [done|]. simpl; lia. }
  unfold mask_column. rewrite Hcol; simpl.
  rewrite mask_select_ok; [apply Hc|].
  rewrite active_length. apply column_length in Hcol. lia.
Qed.

Lemma step_loss_raise criterion o tg l (t : Z) e :
  total criterion -> step_loss criterion o tg l t = Raise e -> e = IndexError.
Proof.
  intros Hc. unfold step_loss.
  intros [?|(s & _ & [?|(sel & _ & [?|(col & _ & Hr)]%res_bind_raise)]%res_bind_raise)]%res_bind_raise;
    eauto using py_index_raise, mask_select_raise, mask_column_raise.
  specialize (Hc sel col). by rewrite Hr in Hc.
Qed.

Lemma step_loss_app criterion o extra tg l (t : nat) :
  t < length o ->
  step_loss criterion (o ++ extra) tg l (Z.of_nat t) = step_loss criterion o tg l (Z.of_nat t).
Proof. intros Ht. unfold step_loss. by rewrite py_index_app_l by lia. Qed.

End Shapes.

(** C38: on a well-shaped batch, with a criterion that does not raise,
    [_batch_loss] returns a value. *)
Theorem batch_loss_total {T} `{LossNum T} {Row Tok : Type}
    (criterion : list Row -> list Tok -> Res T) o l tg :
  well_shaped (length l) o tg -> total criterion -> 0 < length o ->
  is_ok (_batch_loss criterion o l tg) = true.
Proof.
  intros Hs Hc Ho. rewrite batch_loss_masked. unfold masked_loss.
  assert (is_ok (res_mapM (step_loss criterion o tg l)
            (py_range (Z.of_nat (length l)))) = true) as [terms ->]%is_ok_true.
  { apply res_mapM_is_ok, Forall_py_range. intros k Hk.
    apply step_loss_ok; [done..|lia]. }
  simpl. unfold loss_div. destruct (loss_sum _ _); [|done].
  by rewrite decide_False by lia.
Qed.

(** C6: when the batch holds more examples than there are output steps,
    [_batch_loss] raises [IndexError]: the loop index runs over the examples
    and is used as a step. *)
Theorem batch_loss_index_error {T} `{LossNum T} {Row Tok : Type}
    (criterion : list Row -> list Tok -> Res T) o l tg :
  length o < length l -> total criterion ->
  _batch_loss criterion o l tg = Raise IndexError.
Proof.
  intros Ho Hc. rewrite batch_loss_masked. unfold masked_loss.
  destruct (res_mapM _ _) as [terms|e] eqn:E; simpl.
  - assert (is_ok (step_loss criterion o tg l (Z.of_nat (length o))) = true) as Hok.
    { assert (is_ok (res_mapM (step_loss criterion o tg l)
                (py_range (Z.of_nat (length l)))) = true) as Hall by by rewrite E.
      apply res_mapM_is_ok in Hall. rewrite Forall_forall in Hall.
      apply Hall, elem_of_py_range. lia. }
    unfold step_loss in Hok. by rewrite py_index_ge in Hok by lia.
  - f_equal. eapply res_mapM_only_raises; [|done].
    apply Forall_forall. intros t _ e0. by apply step_loss_raise.
Qed.


(** C12: output steps at or beyond the number of examples never enter the
    sum, whatever the lengths say: replacing them changes nothing. *)
Theorem batch_loss_beyond_batch {T} `{LossNum T} {Row Tok : Type}
    (criterion : list Row -> list Tok -> Res T) o extra extra' l tg :
  length l <= length o -> length extra = length extra' ->
  _batch_loss criterion (o ++ extra) l tg = _batch_loss criterion (o ++ extra') l tg.
Proof.
  intros Hl He. rewrite !batch_loss_masked. unfold masked_loss.
  rewrite !length_app, He.
  rewrite (res_mapM_ext (step_loss criterion (o ++ extra) tg l)
             (step_loss criterion (o ++ extra') tg l)); [done|].
  apply Forall_py_range. intros k Hk. rewrite !step_loss_app by lia. done.
Qed.

(** ** The loss of the design

    The design sums over the time steps, that is over [range(len(outputs))];
    the code sums over [range(len(target_lengths))]. *)

Definition design_loss {T} `{LossNum T} {Row Tok : Type}
    (criterion : list Row -> list Tok -> Res T) (outputs : list (list Row))
    (target_lengths : list Z) (targets : list (list Tok)) : Res (Loss T) :=
  terms <- res_mapM (step_loss criterion outputs targets target_lengths)
             (py_range (Z.of_nat (length outputs))) ;;
  loss_div (loss_sum PyZero terms) (length outputs).

(** C13: the code computes the loss of the design when the batch has as many
    examples as there are output steps. *)
Theorem batch_loss_meets_design {T} `{LossNum T} {Row Tok : Type}
    (criterion : list Row -> list Tok -> Res T) outputs target_lengths targets :
  length target_lengths = length outputs ->
  _batch_loss criterion outputs target_lengths targets
  = design_loss criterion outputs target_lengths targets.
Proof. intros Hl. rewrite batch_loss_masked. unfold masked_loss, design_loss. by rewrite Hl. Qed.

#[local] Open Scope Z_scope.

(** A criterion that never raises, on integer scores: the sum of the
    selected scores minus the sum of the selected targets. *)
Definition score_sum (rows : list Z) (toks : list Z) : Res Sym :=
  Ok (SNum (foldr Z.add 0 rows - foldr Z.add 0 toks)).

Lemma score_sum_total : total score_sum.
Proof. done. Qed.

(** The scenario of lengths [3; 1] with two output steps: both steps are
    within the outputs, and the value is returned. *)
Lemma batch_loss_total_witness :
  is_ok (_batch_loss score_sum [[1; 2]; [3; 4]] [3; 1] [[0; 1; 0]; [1; 0; 0]]) = true.
Proof.
  apply batch_loss_total; [|apply score_sum_total|simpl; lia].
  split; [simpl; lia|]. split; [|split; [done|repeat constructor]].
  intros [|[|t]] s Ht; simpl; intros [= <-]; (done || lia).
Defined.

Lemma batch_loss_index_error_witness :
  _batch_loss score_sum [[1; 2; 3]; [4; 5; 6]] [1; 1; 1] [[0; 0; 0]; [0; 0; 0]; [0; 0; 0]]
  = Raise IndexError.
Proof. apply batch_loss_index_error; [simpl; lia|apply score_sum_total]. Defined.

(** Both examples have length 3, so the third step is active for both, and
    still its outputs do not reach the loss. *)
Lemma batch_loss_beyond_batch_witness :
  _batch_loss score_sum ([[1; 2]; [3; 4]] ++ [[5; 6]]) [3; 3] [[0; 1; 0]; [1; 0; 0]]
  = _batch_loss score_sum ([[1; 2]; [3; 4]] ++ [[70; 80]]) [3; 3] [[0; 1; 0]; [1; 0; 0]].
Proof. apply batch_loss_beyond_batch; simpl; lia. Defined.

Lemma batch_loss_meets_design_witness :
  _batch_loss score_sum [[1; 2]; [3; 4]] [3; 1] [[0; 1; 0]; [1; 0; 0]]
  = design_loss score_sum [[1; 2]; [3; 4]] [3; 1] [[0; 1; 0]; [1; 0; 0]].
Proof. by apply batch_loss_meets_design. Defined.
