(* ===== verification/LossReal.v ===== *)
(** * Loss values as real numbers

    The arithmetic of [_batch_loss], [_perplexity_from_loss] and the means of
    [_print_info] of [src/language_models/trainer.py] on the real numbers,
    which floating-point tensors approximate: the bounds of the loss of a
    batch, of the perplexity and of the printed means. *)

From Stdlib Require Import Reals Lra.
From stdpp Require Import prelude.
From S2P Require Import Prelude Tensor Loss.

#[local] Open Scope R_scope.

(** The sum of a list, from the left. *)
Definition Rsum (l : list R) : R := fold_left Rplus l 0.

#[export] Instance Real_LossNum : LossNum R := {|
  ladd := Rplus;
  ldiv := fun a n => a / INR n;
  lpow2 := fun a => Rpower 2 a;
  lmean := fun l => Rsum l / INR (length l);
|}.

(** The number a loss stands for. *)
Definition loss_value (l : Loss R) : R :=
  match l with
  | PyZero => 0
  | Var t => t
  end.

Section Bounds.
Implicit Types (l terms : list R) (a b M x : R).

Lemma fold_left_Rplus l x : fold_left Rplus l x = x + Rsum l.
Proof.
  unfold Rsum. revert x. induction l as [|y l IH]; intros x; cbn; [lra|].
  rewrite (IH (x + y)), (IH (0 + y)). lra.
Qed.

Lemma Rsum_cons x l : Rsum (x :: l) = x + Rsum l.
Proof. unfold Rsum at 1. cbn. rewrite fold_left_Rplus. lra. Qed.

Lemma Rsum_bounds a b l :
  Forall (fun x => a <= x <= b) l ->
  a * INR (length l) <= Rsum l <= b * INR (length l).
Proof.
  induction 1 as [|x l Hx _ IH]; [cbn; unfold Rsum; cbn; lra|].
  rewrite Rsum_cons. cbn [length]. rewrite S_INR. lra.
Qed.

Lemma loss_sum_value acc terms :
  loss_value (loss_sum acc terms) = loss_value acc + Rsum terms.
Proof.
  unfold loss_sum. revert acc. induction terms as [|c terms IH]; intros acc.
  - unfold Rsum. cbn. lra.
  - cbn [fold_left]. rewrite IH, Rsum_cons. destruct acc; cbn; lra.
Qed.

Lemma loss_div_value (loss loss' : Loss R) (n : nat) :
  loss_div loss n = Ok loss' -> loss_value loss' = loss_value loss / INR n.
Proof.
  destruct loss as [|t]; cbn.
  - case_decide; [done|]. intros [= <-]. cbn. lra.
  - by intros [= <-].
Qed.

End Bounds.

Section BatchBound.
Context {Row Tok : Type}.
Implicit Types (criterion : list Row -> list Tok -> Res R) (M : R).

(** A criterion whose values lie between [0] and [M], as a negative
    log-likelihood over probabilities that are at least [exp (- M)]. *)
Definition bounded_criterion criterion M : Prop :=
  forall sel toks c, criterion sel toks = Ok c -> 0 <= c <= M.

Lemma batch_loss_value criterion M outputs lens targets loss :
  bounded_criterion criterion M -> outputs <> [] ->
  _batch_loss criterion outputs lens targets = Ok loss ->
  0 <= loss_value loss <= M * INR (length lens) / INR (length outputs).
Proof.
  intros Hc Ho. rewrite batch_loss_masked.
  intros (terms & Hlen & Hterms & Hdiv%loss_div_value)%masked_loss_terms.
  rewrite Hdiv, loss_sum_value, <- Hlen. cbn [loss_value].
  assert (0 < INR (length outputs)) as Hn.
  { apply lt_0_INR. destruct outputs; [done|cbn; lia]. }
  destruct (Rsum_bounds 0 M terms) as [Hlo Hhi].
  { eapply Forall_impl; [exact Hterms|]. intros c (sel & tg & E). by eapply Hc. }
  split.
  - apply Rmult_le_pos; [lra|]. left. by apply Rinv_0_lt_compat.
  - apply Rmult_le_compat_r; [left; by apply Rinv_0_lt_compat|lra].
Qed.

End BatchBound.

Section Perplexity.
Implicit Types (x y M : R) (l : list R).

Lemma perplexity_mono x y : x <= y -> _perplexity_from_loss x <= _perplexity_from_loss y.
Proof. intros Hxy. apply Rle_Rpower; lra. Qed.

Lemma perplexity_0 : _perplexity_from_loss 0 = 1.
Proof. apply Rpower_O. lra. Qed.

Lemma ln_2_lt_1 : ln 2 < 1.
Proof.
  rewrite <- (ln_exp 1). apply ln_increasing; [lra|].
  pose proof (exp_ineq1 1). lra.
Qed.

Lemma perplexity_lt_exp x : 0 < x -> _perplexity_from_loss x < exp x.
Proof.
  intros Hx. unfold _perplexity_from_loss. cbn. unfold Rpower.
  apply exp_increasing. pose proof ln_2_lt_1. nra.
Qed.

Lemma mean_bounds a b l :
  l <> [] -> Forall (fun x => a <= x <= b) l -> a <= lmean l <= b.
Proof.
  intros Hl [Hlo Hhi]%Rsum_bounds. cbn.
  assert (0 < INR (length l)) as Hn.
  { apply lt_0_INR. destruct l; [done|cbn; lia]. }
  split.
  - apply (Rmult_le_reg_r (INR (length l))); [done|]. field_simplify; lra.
  - apply (Rmult_le_reg_r (INR (length l))); [done|]. field_simplify; lra.
Qed.

End Perplexity.

(** C28: the loss of a batch is bounded: with a criterion whose values lie
    between [0] and [M] and at least one output step, the number
    [_batch_loss] returns lies between [0] and [M] times the number of
    lengths of the batch divided by the number of output steps. *)
Theorem batch_loss_bounds {Row Tok : Type} (criterion : list Row -> list Tok -> Res R)
    (M : R) outputs lens targets loss :
  bounded_criterion criterion M -> outputs <> [] ->
  _batch_loss criterion outputs lens targets = Ok loss ->
  0 <= loss_value loss <= M * INR (length lens) / INR (length outputs).
Proof. apply batch_loss_value. Qed.

(** The perplexity of a loss that is not negative is at least one, it
    grows with the loss, and a loss of at most [M] has a perplexity of at
    most two to the power [M]. *)
Theorem perplexity_bounds (x M : R) :
  0 <= x <= M -> 1 <= _perplexity_from_loss x <= Rpower 2 M.
Proof.
  intros [H0 HM]. rewrite <- perplexity_0. split; by apply perplexity_mono.
Qed.


(** The means [_print_info] prints lie within the values they average:
    the mean of a history that is not empty, all of whose values lie between
    [a] and [b], lies between [a] and [b]. *)
Theorem printed_mean_bounds (a b : R) (l : list R) :
  l <> [] -> Forall (fun x => a <= x <= b) l -> a <= lmean l <= b.
Proof. apply mean_bounds. Qed.

(** ** On concrete values *)

Lemma batch_loss_bounds_witness :
  0 <= loss_value (Var ((1 + 1) / INR 2)) <= 1 * INR 2 / INR 2.
Proof.
  apply (batch_loss_bounds (fun (_ : list Z) (_ : list Z) => Ok 1) 1
           [[0; 0]; [0; 0]]%Z [2; 1]%Z [[0; 0]; [0; 0]]%Z).
  - intros sel toks c [= <-]. lra.
  - done.
  - reflexivity.
Defined.

Lemma perplexity_bounds_witness : 1 <= _perplexity_from_loss 1 <= Rpower 2 2.
Proof. apply (perplexity_bounds 1 2). lra. Defined.


Lemma printed_mean_bounds_witness : 1 <= lmean [1; 2] <= 2.
Proof.
  apply printed_mean_bounds; [done|]. repeat constructor; lra.
Defined.
