(* ===== verification/Machine.v ===== *)
(** * Machine numbers

    The two number formats behind [_var] of
    [src/language_models/trainer.py]: [torch.LongTensor] holds 64-bit
    signed integers, and [.type(torch.FloatTensor)] converts them to IEEE
    754 single precision, which has 24 significant bits. An integer is
    converted by rounding to the nearest representable value, ties to even
    ([float32_of_int]); the values are integers again, so float tensors
    keep integer entries. *)

From Stdlib Require Import ZArith Lia.
From stdpp Require Import prelude.
From S2P Require Import Prelude.

#[local] Open Scope Z_scope.

(** ** 64-bit integers *)

Definition int64_min : Z := - 2 ^ 63.
Definition int64_max : Z := 2 ^ 63 - 1.

Definition in_int64 (z : Z) : bool := bool_decide (int64_min <= z <= int64_max).

(** ** Single precision *)

(** The significant bits of a single-precision number. *)
Definition float32_prec : Z := 24.

(** The number of binary digits of [a] beyond the precision: the exponent
    of the last place of its single-precision neighbours. *)
Definition excess (a : Z) : Z := Z.log2 a + 1 - float32_prec.

(** The multiple of [2 ^ k] nearest to [a >= 0], ties to the even
    multiple. *)
Definition round_even (a k : Z) : Z :=
  let q := a / 2 ^ k in
  let r := a mod 2 ^ k in
  let up := if decide (2 * r < 2 ^ k) then false
            else if decide (2 ^ k < 2 * r) then true
            else Z.odd q in
  (if up then q + 1 else q) * 2 ^ k.

(** The value of the single-precision number an integer converts to. *)
Definition float32_of_int (z : Z) : Z :=
  let a := Z.abs z in
  if decide (excess a <= 0) then z else Z.sgn z * round_even a (excess a).

Section Rounding.
Implicit Types (a k z : Z).

Lemma round_even_exact a k : 0 <= k -> a mod 2 ^ k = 0 -> round_even a k = a.
Proof.
  intros Hk Hr. unfold round_even. rewrite Hr.
  assert (0 < 2 ^ k) by (apply Z.pow_pos_nonneg; lia).
  pose proof (Z.div_mod a (2 ^ k) ltac:(lia)) as Hd.
  rewrite decide_True by lia. lia.
Qed.

(** Rounding moves a number by at most half a unit in the last place. *)
Lemma round_even_error a k :
  0 <= k -> 2 * Z.abs (round_even a k - a) <= 2 ^ k.
Proof.
  intros Hk. unfold round_even.
  assert (0 < 2 ^ k) as Hp by (apply Z.pow_pos_nonneg; lia).
  pose proof (Z.div_mod a (2 ^ k) ltac:(lia)) as Hd.
  pose proof (Z.mod_pos_bound a (2 ^ k) Hp) as Hb.
  repeat case_decide; try destruct (Z.odd _); lia.
Qed.

Lemma float32_small z : Z.abs z < 2 ^ 24 -> float32_of_int z = z.
Proof.
  intros Hz. unfold float32_of_int, excess, float32_prec.
  rewrite decide_True; [done|].
  destruct (decide (Z.abs z = 0)) as [->|Hn]; [done|].
  assert (Z.log2 (Z.abs z) < 24) by (apply Z.log2_lt_pow2; lia). lia.
Qed.

Lemma excess_pow2 a : 0 < excess a -> 2 ^ 23 * 2 ^ excess a <= a < 2 ^ 24 * 2 ^ excess a.
Proof.
  unfold excess, float32_prec. intros Hk.
  assert (0 < a) as Ha by (destruct a; cbn in *; lia).
  pose proof (Z.log2_spec a Ha) as [Hlo Hhi].
  rewrite <- !Z.pow_add_r by lia.
  replace (23 + (Z.log2 a + 1 - 24)) with (Z.log2 a) by lia.
  by replace (24 + (Z.log2 a + 1 - 24)) with (Z.succ (Z.log2 a)) by lia.
Qed.

(** The quotient rounding keeps has exactly 24 bits. *)
Lemma excess_quotient a :
  0 < excess a -> 2 ^ 23 <= a / 2 ^ excess a < 2 ^ 24.
Proof.
  intros Hk. pose proof (excess_pow2 a Hk) as [Hlo Hhi].
  assert (0 < 2 ^ excess a) by (apply Z.pow_pos_nonneg; lia).
  split; [apply Z.div_le_lower_bound; lia|apply Z.div_lt_upper_bound; lia].
Qed.

Lemma float32_abs z :
  0 < excess (Z.abs z) ->
  float32_of_int z = Z.sgn z * round_even (Z.abs z) (excess (Z.abs z)).
Proof. intros Hk. unfold float32_of_int. by rewrite decide_False by lia. Qed.

(** The conversion is off by at most [2 ^ -24] of the value. *)
Lemma float32_relative_error z : 2 ^ 24 * Z.abs (float32_of_int z - z) <= Z.abs z.
Proof.
  destruct (decide (excess (Z.abs z) <= 0)) as [Hk|Hk].
  - unfold float32_of_int. rewrite decide_True by done. lia.
  - rewrite float32_abs by lia.
    pose proof (round_even_error (Z.abs z) (excess (Z.abs z)) ltac:(lia)) as He.
    pose proof (excess_pow2 (Z.abs z) ltac:(lia)) as [Hlo _].
    destruct z; cbn [Z.sgn Z.abs] in *; lia.
Qed.

(** The value rounding gives is a single-precision number: converting it
    again changes nothing. *)
Lemma round_even_fixed a :
  0 < excess a ->
  let b := round_even a (excess a) in
  0 < excess b /\ b mod 2 ^ excess b = 0.
Proof.
  intros Hk b. pose proof (excess_quotient a Hk) as [Hlo Hhi].
  assert (exists q, b = q * 2 ^ excess a /\ 2 ^ 23 <= q <= 2 ^ 24) as (q & Hb & Hq).
  { unfold b, round_even. repeat case_decide; try destruct (Z.odd _); eexists; split;
      try reflexivity; lia. }
  assert (excess b = excess a \/ excess b = excess a + 1 /\ q = 2 ^ 24) as Hex.
  { unfold excess at 1 3. rewrite Hb, Z.log2_mul_pow2 by lia.
    destruct (decide (q = 2 ^ 24)) as [->|Hne]; [right; split; [|done]|left].
    - rewrite Z.log2_pow2 by lia. unfold float32_prec. lia.
    - assert (Z.log2 q = 23); [|unfold float32_prec; lia].
      apply Z.log2_unique; lia. }
  destruct Hex as [->|[-> ->]]; (split; [lia|]); rewrite Hb.
  - apply Z.mod_mul. lia.
  - rewrite <- Z.pow_add_r by lia. replace (24 + excess a) with (23 + (excess a + 1)) by lia.
    rewrite Z.pow_add_r by lia. apply Z.mod_mul. lia.
Qed.

Lemma float32_idempotent z : float32_of_int (float32_of_int z) = float32_of_int z.
Proof.
  destruct (decide (excess (Z.abs z) <= 0)) as [Hk|Hk].
  - unfold float32_of_int at 2. rewrite decide_True by done.
    unfold float32_of_int. by rewrite decide_True.
  - rewrite (float32_abs z) by lia.
    destruct (round_even_fixed (Z.abs z) ltac:(lia)) as [Hpos Hmod].
    set (b := round_even (Z.abs z) (excess (Z.abs z))) in *.
    assert (0 < b) by (destruct b; cbn in *; unfold excess, float32_prec in *; cbn in *; lia).
    assert (z <> 0) as Hz by (intros ->; apply Hk; by vm_compute).
    assert (Z.abs (Z.sgn z * b) = b) as Habs by (destruct z; cbn [Z.sgn]; lia).
    rewrite float32_abs; rewrite Habs; [|done].
    rewrite round_even_exact by (done || lia). f_equal.
    destruct z; cbn [Z.sgn]; [done|apply Z.sgn_pos|apply Z.sgn_neg]; lia.
Qed.

End Rounding.
