(* ===== verification/Float32Spec.v ===== *)
(** * The cast to single precision against the IEEE 754 specification

    [Machine.float32_of_int] is the executable model of the cast
    [.type(torch.FloatTensor)] of [_var] (trainer.py, line 199).  This file
    proves that it computes what the standard library's specification of
    IEEE 754 arithmetic ([Floats.SpecFloat], format binary32: precision 24,
    maximal exponent 128) gives for the same integer: [binary_normalize]
    shifts the mantissa to the right bit by bit, remembers the last bit
    shifted out and whether anything was below it, and rounds to nearest,
    ties to even.  The proof follows that pipeline: [shifted] is the
    invariant of the shifts, [shifted_round] reads the rounded quotient off
    the record, [renormalize] is the second pass that halves a mantissa
    whose rounding carried into the 25th bit. *)

From Stdlib Require Import ZArith Lia.
From Stdlib Require Import Floats.SpecFloat.
From stdpp Require Import prelude.
From S2P Require Import Prelude Machine.

#[local] Open Scope Z_scope.

(** ** The specification *)

(** The value of a finite number of the specification, when it is an
    integer. *)
Definition SF2Z (f : spec_float) : option Z :=
  match f with
  | S754_zero _ => Some 0
  | S754_finite s m e =>
      let v := if decide (0 <= e) then Z.pos m * 2 ^ e else Z.pos m / 2 ^ (- e) in
      Some (if s then - v else v)
  | _ => None
  end.

Definition float32_spec (z : Z) : option Z := SF2Z (binary_normalize 24 128 z 0 false).

(** At and around the points where the precision runs out, and at the ends
    of the 64-bit range, the conversion is the rounding of the standard
    library's IEEE 754 specification. *)
Lemma float32_of_int_spec_samples :
  Forall (fun z => float32_spec z = Some (float32_of_int z))
    [0; 1; -1; 7; 2 ^ 24 - 1; 2 ^ 24; 2 ^ 24 + 1; 2 ^ 24 + 2; 2 ^ 24 + 3; - (2 ^ 24 + 1);
     2 ^ 25 + 2; 2 ^ 25 + 6; 2 ^ 31 - 1; 2 ^ 53 + 1; 2 ^ 63 - 1; - 2 ^ 63; 123456789012345].
Proof. repeat constructor. Qed.

(** ** The proof *)

Section Spec.

(** The value of a signed number. *)
Definition signed (sx : bool) (v : Z) : Z := if sx then - v else v.

Lemma digits2_pos_size p : digits2_pos p = Pos.size p.
Proof. induction p as [p IH|p IH|]; cbn; by rewrite ?IH. Qed.

Lemma Zdigits2_log2 p : Zdigits2 (Z.pos p) = Z.log2 (Z.pos p) + 1.
Proof.
  cbn [Zdigits2]. rewrite digits2_pos_size.
  destruct p as [p|p|]; cbn [Pos.size Z.log2]; rewrite ?Pos2Z.inj_succ; lia.
Qed.

Lemma iter_xO m d : Z.pos (Pos.iter xO m d) = Z.pos m * 2 ^ Z.pos d.
Proof.
  induction d as [|d IH] using Pos.peano_ind; [cbn; lia|].
  rewrite Pos.iter_succ, Pos2Z.inj_succ, Z.pow_succ_r by lia.
  rewrite Pos2Z.inj_xO, IH. lia.
Qed.

Lemma iter_pos_iter {A} (f : A -> A) p x : SpecFloat.iter_pos f p x = Pos.iter f x p.
Proof.
  revert x. induction p as [p IH|p IH|]; intros x; cbn; [|by rewrite !IH|done].
  by rewrite !IH, !Pos.iter_swap.
Qed.

(** One shift to the right. *)
Lemma shr_1_spec m r s :
  0 <= m ->
  shr_1 (Build_shr_record m r s) = Build_shr_record (m / 2) (Z.odd m) (r || s).
Proof.
  intros Hm. rewrite <- Z.div2_div. by destruct m as [|[p|p|]|p].
Qed.

(** What [n] shifts to the right keep of [m]: the quotient by [2 ^ n], the
    bit below it, and whether anything lies below that bit. *)
Definition shifted (m n : Z) (mrs : shr_record) : Prop :=
  exists low, 0 <= low < 2 ^ (n - 1) /\
    m = shr_m mrs * 2 ^ n + Z.b2z (shr_r mrs) * 2 ^ (n - 1) + low /\
    (shr_s mrs = true <-> low <> 0) /\ 0 <= shr_m mrs.

Lemma shifted_1 m : 0 <= m -> shifted m 1 (shr_1 (Build_shr_record m false false)).
Proof.
  intros Hm. rewrite shr_1_spec by done. exists 0. cbn [shr_m shr_r shr_s orb].
  pose proof (Z.div_mod m 2 ltac:(lia)) as Hd. rewrite Zmod_odd in Hd.
  split; [done|]. split; [destruct (Z.odd m); cbn; lia|]. split; [done|].
  apply Z.div_pos; lia.
Qed.

Lemma shifted_succ m n mrs : 1 <= n -> shifted m n mrs -> shifted m (n + 1) (shr_1 mrs).
Proof.
  intros Hn (low & Hlow & Hm & Hs & Hq). destruct mrs as [q r s].
  cbn [shr_m shr_r shr_s] in *. rewrite shr_1_spec by done. cbn [shr_m shr_r shr_s].
  assert (2 ^ n = 2 * 2 ^ (n - 1)) as Hp.
  { rewrite <- Z.pow_succ_r by lia. f_equal. lia. }
  assert (0 < 2 ^ (n - 1)) by (apply Z.pow_pos_nonneg; lia).
  exists (Z.b2z r * 2 ^ (n - 1) + low).
  replace (n + 1 - 1) with n by lia. rewrite Z.pow_add_r, Z.pow_1_r by lia.
  pose proof (Z.div_mod q 2 ltac:(lia)) as Hd. rewrite Zmod_odd in Hd.
  assert (0 <= q / 2) by (apply Z.div_pos; lia).
  set (h := q / 2) in *. set (P := 2 ^ (n - 1)) in *. rewrite Hp in *.
  assert (q = 2 * h + Z.b2z (Z.odd q)) as Hq2 by (destruct (Z.odd q); cbn; lia).
  rewrite Hq2 in Hm at 1. cbn [shr_m shr_r shr_s].
  split; [destruct r; cbn; lia|]. split; [lia|]. split; [|done].
  rewrite orb_true_iff, Hs. destruct r; cbn [Z.b2z]; split; intros; try lia.
Qed.

Lemma shifted_iter m p :
  0 <= m -> shifted m (Z.pos p) (SpecFloat.iter_pos shr_1 p (Build_shr_record m false false)).
Proof.
  intros Hm. rewrite iter_pos_iter.
  induction p as [|p IH] using Pos.peano_ind; [by apply shifted_1|].
  rewrite Pos.iter_succ, Pos2Z.inj_succ. apply shifted_succ; [lia|done].
Qed.

(** From the record of the shifts to the rounded quotient. *)
Lemma shifted_round a k mrs :
  0 < k -> shifted a k mrs ->
  round_nearest_even (shr_m mrs) (loc_of_shr_record mrs) * 2 ^ k = round_even a k /\
  shr_m mrs = a / 2 ^ k.
Proof.
  intros Hk (low & Hlow & Ha & Hs & Hq). destruct mrs as [q r s].
  cbn [shr_m shr_r shr_s] in *.
  assert (2 ^ k = 2 * 2 ^ (k - 1)) as Hp.
  { rewrite <- Z.pow_succ_r by lia. f_equal. lia. }
  assert (0 < 2 ^ (k - 1)) by (apply Z.pow_pos_nonneg; lia).
  set (P := 2 ^ (k - 1)) in *.
  rewrite Hp in *. clearbody P.
  assert (a / (2 * P) = q /\ a mod (2 * P) = Z.b2z r * P + low) as [Hdiv Hmod].
  { split; [symmetry; apply (Z.div_unique _ _ _ (Z.b2z r * P + low))
           |symmetry; apply (Z.mod_unique _ _ q)]; destruct r; cbn [Z.b2z] in *; lia. }
  split; [|done]. unfold round_even. rewrite Hp, Hdiv, Hmod. f_equal.
  destruct r, s; cbn [loc_of_shr_record round_nearest_even Z.b2z];
    rewrite <- ?Z.negb_odd; repeat case_decide; try destruct (Z.odd q); cbn [negb]; try lia.
  all: exfalso; destruct Hs as [Hs1 Hs2]; try (specialize (Hs1 eq_refl)); try lia.
  all: assert (low <> 0) as Hl%Hs2 by lia; done.
Qed.

Lemma fexp32 e : -125 <= e -> fexp 24 128 e = e - 24.
Proof. intros He. unfold fexp, emin. lia. Qed.

(** The shift that brings a positive mantissa to 24 bits. *)
Lemma shr_fexp_exact m e :
  0 < m -> -125 <= Z.log2 m + 1 + e ->
  shr_fexp 24 128 m e loc_Exact
  = match excess m with
    | Z.pos p => (SpecFloat.iter_pos shr_1 p (Build_shr_record m false false), e + Z.pos p)
    | _ => (Build_shr_record m false false, e)
    end.
Proof.
  intros Hm He. destruct m as [|p|p]; try lia.
  unfold shr_fexp, shr. rewrite Zdigits2_log2, fexp32 by lia.
  unfold excess, float32_prec. cbn [shr_record_of_loc].
  replace (Z.log2 (Z.pos p) + 1 + e - 24 - e) with (Z.log2 (Z.pos p) + 1 - 24) by lia.
  by destruct (Z.log2 (Z.pos p) + 1 - 24).
Qed.

Lemma round_nearest_even_bounds q l :
  q <= round_nearest_even q l <= q + 1.
Proof. destruct l as [|[]]; cbn; try destruct (Z.even q); lia. Qed.

Lemma SF2Z_finite sx m e :
  0 <= e -> SF2Z (S754_finite sx m e) = Some (signed sx (Z.pos m * 2 ^ e)).
Proof. intros He. unfold SF2Z, signed. by rewrite decide_True. Qed.

(** A mantissa of 24 or 25 bits after rounding: it is kept, or halved when
    rounding carried into the 25th bit. *)
Lemma renormalize sx q k :
  2 ^ 23 <= q <= 2 ^ 24 -> 0 < k <= 100 ->
  (let '(mrs, e) := shr_fexp 24 128 q k loc_Exact in
   match shr_m mrs with
   | Z0 => Some 0
   | Z.pos m => SF2Z (if e <=? 128 - 24 then S754_finite sx m e else S754_infinity sx)
   | Z.neg _ => None
   end) = Some (signed sx (q * 2 ^ k)).
Proof.
  intros Hq Hk. assert (0 <= Z.log2 q) by apply Z.log2_nonneg.
  rewrite shr_fexp_exact by lia.
  destruct (decide (q = 2 ^ 24)) as [->|Hne].
  - change (excess (2 ^ 24)) with 1. cbn [SpecFloat.iter_pos].
    rewrite shr_1_spec by lia. cbn [shr_m]. change (2 ^ 24 / 2) with (Z.pos 8388608).
    rewrite (proj2 (Z.leb_le _ _)), SF2Z_finite by lia.
    rewrite Z.pow_add_r by lia. do 2 f_equal. change (2 ^ 24) with (Z.pos 8388608 * 2). lia.
  - assert (Z.log2 q = 23) as Hl by (apply Z.log2_unique; lia).
    unfold excess, float32_prec. rewrite Hl. change (23 + 1 - 24) with 0. cbn [shr_m].
    destruct q as [|m|m]; try lia.
    by rewrite (proj2 (Z.leb_le _ _)), SF2Z_finite by lia.
Qed.

(** A mantissa of exactly 24 bits is kept as it is. *)
Lemma binary_round_aux_24 sx m e :
  excess (Z.pos m) = 0 -> -149 <= e <= 104 ->
  binary_round_aux 24 128 sx (Z.pos m) e loc_Exact = S754_finite sx m e.
Proof.
  intros Hm He. assert (Z.log2 (Z.pos m) = 23) by (unfold excess, float32_prec in Hm; lia).
  unfold binary_round_aux. rewrite shr_fexp_exact, Hm by lia.
  cbn [shr_m loc_of_shr_record round_nearest_even].
  rewrite shr_fexp_exact, Hm by lia. cbn [shr_m].
  by rewrite (proj2 (Z.leb_le _ _)) by lia.
Qed.

(** More than 24 bits: the mantissa is shifted, rounded and renormalised. *)
Lemma binary_round_aux_long sx m :
  0 < excess (Z.pos m) <= 100 ->
  SF2Z (binary_round_aux 24 128 sx (Z.pos m) 0 loc_Exact)
  = Some (signed sx (round_even (Z.pos m) (excess (Z.pos m)))).
Proof.
  intros Hk. assert (0 <= Z.log2 (Z.pos m)) by apply Z.log2_nonneg.
  unfold binary_round_aux. rewrite shr_fexp_exact by lia.
  destruct (excess (Z.pos m)) as [|p|p] eqn:Ek; try lia.
  pose proof (shifted_iter (Z.pos m) p ltac:(lia)) as Hsh.
  destruct (shifted_round (Z.pos m) (Z.pos p) _ ltac:(lia) Hsh) as [Hround Hq].
  pose proof (excess_quotient (Z.pos m) ltac:(lia)) as Hb. rewrite Ek, <- Hq in Hb.
  set (mrs := SpecFloat.iter_pos _ _ _) in *.
  pose proof (round_nearest_even_bounds (shr_m mrs) (loc_of_shr_record mrs)) as Hrne.
  pose proof (renormalize sx (round_nearest_even (shr_m mrs) (loc_of_shr_record mrs))
                (0 + Z.pos p) ltac:(lia) ltac:(lia)) as Hre.
  destruct (shr_fexp 24 128 _ _ _) as [mrs' e'].
  rewrite <- Hround. by destruct (shr_m mrs') as [|m'|m'].
Qed.

Lemma float32_of_pos m :
  float32_of_int (Z.pos m)
  = if decide (excess (Z.pos m) <= 0) then Z.pos m
    else round_even (Z.pos m) (excess (Z.pos m)).
Proof.
  unfold float32_of_int. cbn [Z.abs Z.sgn].
  destruct (decide _); [done|apply Z.mul_1_l].
Qed.

Lemma binary_round_value sx m :
  Z.log2 (Z.pos m) <= 100 ->
  SF2Z (binary_round 24 128 sx m 0) = Some (signed sx (float32_of_int (Z.pos m))).
Proof.
  intros Hm. assert (0 <= Z.log2 (Z.pos m)) by apply Z.log2_nonneg.
  unfold binary_round, shl_align.
  change (Z.pos (digits2_pos m)) with (Zdigits2 (Z.pos m)).
  rewrite Zdigits2_log2, fexp32, Z.sub_0_r by lia.
  replace (Z.log2 (Z.pos m) + 1 + 0 - 24) with (excess (Z.pos m))
    by (unfold excess, float32_prec; lia).
  rewrite float32_of_pos.
  destruct (excess (Z.pos m)) as [|p|d] eqn:Ek.
  - by rewrite binary_round_aux_24, SF2Z_finite, decide_True, Z.mul_1_r by lia.
  - rewrite decide_False by lia. rewrite <- Ek. apply binary_round_aux_long.
    unfold excess, float32_prec in *. lia.
  - rewrite decide_True by lia.
    assert (Z.pos (Pos.iter xO m d) = Z.pos m * 2 ^ Z.pos d) as Hz by apply iter_xO.
    unfold excess, float32_prec in Ek.
    rewrite binary_round_aux_24; [|unfold excess, float32_prec|lia].
    + unfold SF2Z, signed. rewrite decide_False by lia. rewrite Hz.
      change (- Z.neg d) with (Z.pos d). by rewrite Z.div_mul by lia.
    + rewrite Hz, Z.log2_mul_pow2 by lia. lia.
Qed.

(** The conversion is the rounding of the specification, on every integer
    a 64-bit tensor can hold and beyond. *)
Lemma float32_of_int_spec z :
  Z.abs z < 2 ^ 100 -> float32_spec z = Some (float32_of_int z).
Proof.
  intros Hz. unfold float32_spec, binary_normalize.
  destruct z as [|m|m]; [done| |].
  - rewrite binary_round_value; [done|]. apply Z.lt_le_incl, Z.log2_lt_pow2; lia.
  - rewrite binary_round_value by (apply Z.lt_le_incl, Z.log2_lt_pow2; lia).
    unfold signed. f_equal. unfold float32_of_int.
    change (Z.abs (Z.neg m)) with (Z.pos m). change (Z.abs (Z.pos m)) with (Z.pos m).
    change (Z.sgn (Z.neg m)) with (-1). change (Z.sgn (Z.pos m)) with 1.
    destruct (decide _); lia.
Qed.

End Spec.

(** C24: the cast of [_var] to a float tensor is IEEE 754 rounding: on every
    integer a 64-bit tensor can hold, [float32_of_int] is the value of the
    binary32 number that the standard library's specification
    ([binary_normalize], round to nearest, ties to even) gives for it. *)
Theorem float32_of_int_ieee (z : Z) :
  in_int64 z = true -> float32_spec z = Some (float32_of_int z).
Proof.
  intros Hz%bool_decide_eq_true. apply float32_of_int_spec.
  unfold int64_min, int64_max in Hz.
  assert (2 ^ 63 < 2 ^ 100) by (by apply Z.pow_lt_mono_r). lia.
Qed.

Lemma float32_of_int_ieee_witness :
  float32_spec (2 ^ 63 - 1) = Some (float32_of_int (2 ^ 63 - 1)) /\
  float32_of_int (2 ^ 63 - 1) = 2 ^ 63.
Proof. split; [by apply float32_of_int_ieee|by vm_compute]. Defined.
