(* ===== verification/PyData.v ===== *)
(** * Python data of the trainer

    The values the data loader yields ([PyVal]) with tuple unpacking and the
    conversions tensors are built with, the hyper-parameter store
    ([self.params], a dict keyed by the constants of the [constants] module),
    the object held in [self.model] as far as the trainer observes it, and the
    lines written to the console. *)

From Stdlib Require Import ZArith QArith Qcanon.
From stdpp Require Import prelude strings gmap finite.
From S2P Require Import Prelude Machine.

(** ** Loader data *)

#[local] Unset Elimination Schemes.
Inductive PyVal : Type :=
| VNone
| VInt (z : Z)
| VTuple (l : list PyVal)
| VList (l : list PyVal).
#[local] Set Elimination Schemes.

(** [x1, ..., xn = v]: [v] must be a sequence of exactly [n] items. *)
Definition unpack (n : nat) (v : PyVal) : Res (list PyVal) :=
  match v with
  | VTuple l | VList l => if decide (length l = n) then Ok l else Raise ValueError
  | VNone | VInt _ => Raise TypeError
  end.

Definition unpack2 (v : PyVal) : Res (PyVal * PyVal) :=
  l <- unpack 2 v ;;
  match l with [a; b] => Ok (a, b) | _ => Raise ValueError end.

Definition unpack3 (v : PyVal) : Res (PyVal * PyVal * PyVal) :=
  l <- unpack 3 v ;;
  match l with [a; b; c] => Ok (a, b, c) | _ => Raise ValueError end.

Definition as_int (v : PyVal) : Res Z :=
  match v with VInt z => Ok z | _ => Raise TypeError end.

Definition as_seq (v : PyVal) : Res (list PyVal) :=
  match v with VTuple l | VList l => Ok l | _ => Raise TypeError end.

(** A sequence of integers, as [np.array] and [len] read [target_lengths]. *)
Definition as_int_list (v : PyVal) : Res (list Z) :=
  l <- as_seq v ;; res_mapM as_int l.

Definition rectangular {A} (m : list (list A)) : bool :=
  match m with
  | [] => true
  | r :: m' => forallb (fun r' => Nat.eqb (length r') (length r)) m'
  end.

(** A rectangular sequence of sequences of integers. *)
Definition as_matrix (v : PyVal) : Res (list (list Z)) :=
  rows <- as_seq v ;;
  m <- res_mapM as_int_list rows ;;
  if rectangular m then Ok m else Raise ValueError.

Definition of_int_list (l : list Z) : PyVal := VList (VInt <$> l).
Definition of_matrix (m : list (list Z)) : PyVal := VList (of_int_list <$> m).

(** ** Tensors *)

Inductive DType : Type := LongTensor | FloatTensor | CudaFloatTensor.

#[export] Instance DType_eq_dec : EqDecision DType.
Proof. solve_decision. Defined.

(** A two-dimensional tensor of integer values and its type. *)
Record Tensor : Type := mkTensor { t_dtype : DType; t_rows : list (list Z) }.

#[export] Instance Tensor_eq_dec : EqDecision Tensor.
Proof. solve_decision. Defined.

(** [t.type(dtype)]. *)
(** [torch.LongTensor(rows)]: every entry must fit in 64 bits. *)
Definition long_tensor (m : list (list Z)) : Res Tensor :=
  if forallb (forallb in_int64) m then Ok (mkTensor LongTensor m)
  else Raise RuntimeError.

(** What [.type(dtype)] makes of an integer entry: a float type rounds it to
    single precision. *)
Definition cast_entry (dtype : DType) (z : Z) : Z :=
  match dtype with
  | LongTensor => z
  | FloatTensor | CudaFloatTensor => float32_of_int z
  end.

Definition tensor_type (t : Tensor) (dtype : DType) : Tensor :=
  {| t_dtype := dtype; t_rows := (fun row : list Z => cast_entry dtype <$> row) <$> t_rows t |}.

(** What reaches [_var]: loader data, or the [Variable] of a tensor made earlier. *)
Inductive Value : Type :=
| Data (v : PyVal)
| VarOf (t : Tensor).

(** ** Hyper-parameters *)

(** The keys of [constants] the trainer reads. *)
Inductive Key : Type :=
| VOCAB_SIZE | HDIM | OUTPUT_MAX_LEN | H_LAYERS | DROPOUT
| TEACHER_FORCING_RATIO | EPOCHS | DECAY_START_EPOCH | LR | LR_DECAY
| MODEL_NAME.

#[export] Instance Key_eq_dec : EqDecision Key.
Proof. solve_decision. Defined.

Definition Key_all : list Key :=
  [VOCAB_SIZE; HDIM; OUTPUT_MAX_LEN; H_LAYERS; DROPOUT; TEACHER_FORCING_RATIO;
   EPOCHS; DECAY_START_EPOCH; LR; LR_DECAY; MODEL_NAME].

#[export, refine] Instance Key_finite : Finite Key := {| enum := Key_all |}.
Proof.
  - apply (bool_decide_unpack _). by vm_compute.
  - intros []; apply (bool_decide_unpack _); by vm_compute.
Defined.

(** The model variants of [constants]. *)
Inductive Variant : Type :=
| LM_ANSWERS | LM_QUESTION_ANSWERS | LM_QUESTION_ANSWERS_REVIEWS.

#[export] Instance Variant_eq_dec : EqDecision Variant.
Proof. solve_decision. Defined.

(** The value of a hyper-parameter. *)
Inductive PVal : Type :=
| PInt (z : Z)
| PFloat (q : Qc)
| PStr (s : string).

#[export] Instance PVal_eq_dec : EqDecision PVal.
Proof. solve_decision. Defined.

Abbreviation Params := (gmap Key PVal).

(** [params[k]] where [params] may be [None]. *)
Definition params_get (params : option Params) (k : Key) : Res PVal :=
  match params with
  | None => Raise TypeError
  | Some p => of_option KeyError (p !! k)
  end.

(** The argument of [range]: an integer. *)
Definition range_arg (v : PVal) : Res Z :=
  match v with PInt z => Ok z | _ => Raise TypeError end.

(** [n == v] for an integer [n]: a float equal to [n] compares equal. *)
Definition int_eq (n : Z) (v : PVal) : bool :=
  match v with
  | PInt z => bool_decide (n = z)
  | PFloat q => bool_decide (Qc_of_Z n = q)
  | PStr _ => false
  end.

Definition repeat_string (s : string) (n : Z) : string :=
  String.concat "" (replicate (Z.to_nat n) s).

(** [a * b]. *)
Definition py_mul (a b : PVal) : Res PVal :=
  match a, b with
  | PInt x, PInt y => Ok (PInt (x * y))
  | PInt x, PFloat y => Ok (PFloat (Qc_of_Z x * y))
  | PFloat x, PInt y => Ok (PFloat (x * Qc_of_Z y))
  | PFloat x, PFloat y => Ok (PFloat (x * y))
  | PStr s, PInt n | PInt n, PStr s => Ok (PStr (repeat_string s n))
  | PStr _, _ | _, PStr _ => Raise TypeError
  end.

(** [x < v] for a float [x]. *)
Definition float_lt (x : Qc) (v : PVal) : Res bool :=
  match v with
  | PInt z => Ok (bool_decide (x < Qc_of_Z z)%Qc)
  | PFloat q => Ok (bool_decide (x < q)%Qc)
  | PStr _ => Raise TypeError
  end.

(** ** The object in [self.model]

    The trainer compares [self.model] with the variant constants, calls it,
    and asks it for [parameters()] and [state_dict()]. An object is modelled
    by what these observe: the constants it compares equal to, and the
    network it is when it is an [nn.Module] (a reference into the store of
    networks, so that the optimiser can alias it). *)

Definition NetId : Type := nat.

Record PyObj : Type := mkObj {
  obj_eq : Variant -> bool;
  obj_net : option NetId;
}.

(** [None]. *)
Definition py_none : PyObj := {| obj_eq := fun _ => false; obj_net := None |}.

(** The constant [v] itself; distinct constants are taken to differ. *)
Definition py_const (v : Variant) : PyObj :=
  {| obj_eq := fun c => bool_decide (c = v); obj_net := None |}.

(** An [nn.Module]: equal to no constant. *)
Definition py_module (n : NetId) : PyObj :=
  {| obj_eq := fun _ => false; obj_net := Some n |}.

(** [obj.attr] or [obj(...)] for something only a network has. *)
Definition obj_attr (o : PyObj) : Res NetId := of_option AttributeError (obj_net o).
Definition obj_call (o : PyObj) : Res NetId := of_option TypeError (obj_net o).

(** ** The console

    [print(fmt, args)] writes the template and then the arguments: no line of
    the source applies [%] to its template. *)

#[local] Unset Elimination Schemes.
Inductive LogArg (T : Type) : Type :=
| AInt (z : Z)
| ANum (t : T)
| AStr (s : string)
| ATuple (l : list (LogArg T)).
#[local] Set Elimination Schemes.
Arguments AInt {T} z.
Arguments ANum {T} t.
Arguments AStr {T} s.
Arguments ATuple {T} l.

Record LogLine (T : Type) : Type := mkLog {
  log_fmt : string;
  log_arg : LogArg T;
}.
Arguments mkLog {T} log_fmt log_arg.
Arguments log_fmt {T} l.
Arguments log_arg {T} l.

(** ** Lemmas *)

Lemma unpack_ok n v l : unpack n v = Ok l -> length l = n /\ as_seq v = Ok l.
Proof. destruct v; simpl; try done; case_decide; by intros [= <-]. Qed.

Lemma unpack2_ok v a b :
  unpack2 v = Ok (a, b) <-> as_seq v = Ok [a; b].
Proof.
  unfold unpack2. split.
  - intros (l & [Hl Hs]%unpack_ok & Hab)%res_bind_ok.
    destruct l as [|? [|? [|]]]; simplify_eq/=. done.
  - destruct v; simpl; try done; intros [= ->]; done.
Qed.

Lemma unpack2_tuple3 a b c e :
  unpack2 (VTuple [a; b; c]) = Raise e -> e = ValueError.
Proof. by intros [= <-]. Qed.

Lemma as_int_VInt l : res_mapM as_int (VInt <$> l) = Ok l.
Proof. induction l as [|z l IH]; csimpl; [done|]. by rewrite IH. Qed.

Lemma as_int_list_of_int_list l : as_int_list (of_int_list l) = Ok l.
Proof. unfold as_int_list, of_int_list; simpl. apply as_int_VInt. Qed.

Lemma rectangular_spec {A} (m : list (list A)) :
  rectangular m = true <->
  forall r r', r ∈ m -> r' ∈ m -> length r = length r'.
Proof.
  destruct m as [|r0 m]; simpl.
  - split; [intros _ r r' Hr|done]. by apply elem_of_nil in Hr.
  - rewrite forallb_forall. setoid_rewrite <- list_elem_of_In.
    setoid_rewrite Nat.eqb_eq. split.
    + intros H r r' [->|Hr]%elem_of_cons [->|Hr']%elem_of_cons; auto.
      * symmetry; auto.
      * rewrite (H r), (H r'); auto.
    + intros H r Hr. apply H; [by right|by left].
Qed.

Lemma as_matrix_roundtrip m :
  rectangular m = true -> as_matrix (of_matrix m) = Ok m.
Proof.
  intros Hm. unfold as_matrix, of_matrix. cbn [as_seq res_bind].
  assert (res_mapM as_int_list (of_int_list <$> m) = Ok m) as ->.
  { induction m as [|r m' IH] in |- *; csimpl; [done|].
    by rewrite as_int_list_of_int_list, IH. }
  simpl. by rewrite Hm.
Qed.

(** Round trip: a rectangular matrix written as loader data (a list of
    lists of integers) is read back by the conversion to a tensor. *)
Theorem as_matrix_of_matrix m :
  rectangular m = true -> as_matrix (of_matrix m) = Ok m.
Proof. apply as_matrix_roundtrip. Qed.

(** ** Tensor entries *)

(** Every entry of [m] satisfies [P]. *)
Definition entries (P : Z -> Prop) (m : list (list Z)) : Prop := Forall (Forall P) m.

Lemma forallb_entries (f : Z -> bool) m :
  forallb (forallb f) m = true <-> entries (fun z => f z = true) m.
Proof.
  rewrite forallb_Forall. unfold entries. apply Forall_iff. intros row.
  apply forallb_Forall.
Qed.

Lemma long_tensor_ok m :
  entries (fun z => in_int64 z = true) m -> long_tensor m = Ok (mkTensor LongTensor m).
Proof. intros Hm%forallb_entries. unfold long_tensor. by rewrite Hm. Qed.

Lemma long_tensor_overflow m :
  ~ entries (fun z => in_int64 z = true) m -> long_tensor m = Raise RuntimeError.
Proof.
  intros Hm. unfold long_tensor.
  destruct (forallb (forallb in_int64) m) eqn:E; [|done]. by apply forallb_entries in E.
Qed.

Lemma small_in_int64 z : (Z.abs z < 2 ^ 24)%Z -> in_int64 z = true.
Proof.
  intros Hz. apply bool_decide_eq_true. unfold int64_min, int64_max.
  assert (2 ^ 24 < 2 ^ 63)%Z by done. lia.
Qed.

(** A cast leaves entries of at most 24 bits as they are. *)
Lemma cast_small dtype m :
  entries (fun z => Z.abs z < 2 ^ 24)%Z m ->
  (fun row : list Z => cast_entry dtype <$> row) <$> m = m.
Proof.
  intros Hm. rewrite <- (list_fmap_id m) at 2. apply Forall_fmap_ext.
  eapply Forall_impl; [exact Hm|]. intros row Hrow. cbn.
  rewrite <- (list_fmap_id row) at 2. apply Forall_fmap_ext.
  eapply Forall_impl; [exact Hrow|]. intros z Hz.
  destruct dtype; cbn; auto using float32_small.
Qed.

Lemma params_get_none k : params_get None k = Raise TypeError.
Proof. done. Qed.

Lemma params_get_insert p k v : params_get (Some (<[k:=v]> p)) k = Ok v.
Proof. unfold params_get. by rewrite lookup_insert_eq. Qed.

Lemma params_get_insert_ne p k k' v :
  k <> k' -> params_get (Some (<[k:=v]> p)) k' = params_get (Some p) k'.
Proof. intros H. unfold params_get. by rewrite lookup_insert_ne. Qed.

Lemma obj_attr_none : obj_attr py_none = Raise AttributeError.
Proof. done. Qed.

Lemma obj_const_not_callable v : obj_call (py_const v) = Raise TypeError.
Proof. done. Qed.

#[export] Hint Rewrite params_get_insert as_int_list_of_int_list : py.

Lemma as_matrix_of_matrix_witness :
  as_matrix (of_matrix [[1; 2]; [3; 4]]%Z) = Ok [[1; 2]; [3; 4]]%Z.
Proof. by apply as_matrix_of_matrix. Defined.
