(* ===== verification/Checkpoint.v ===== *)
(** * Checkpoint paths and the file system

    Models [Trainer._save_dir] and [_ensure_path] of
    [src/language_models/trainer.py], with what they call: the timestamp
    format of [strftime('%Y-%m-%d-%H-%M-%S')], the constants of [constants]
    that name the checkpoint files, and a file system of directories and
    files on which [os.path.exists], [os.makedirs] and writing a file act. *)

From Stdlib Require Import ZArith QArith Qcanon Ascii String.
From stdpp Require Import prelude strings gmap pretty.
From S2P Require Import Prelude PyData.

#[local] Open Scope string_scope.

(** ** The environment of the module *)

(** What [trainer.py] takes from [constants], from [torch.cuda] at import
    time, and from the platform. *)
Class Env : Type := {
  BASE_PATH : string;
  SAVED_MODEL_FILENAME : string;
  SAVED_PARAMS_FILENAME : string;
  SAVED_VOCAB_FILENAME : string;
  cuda_available : bool;
  float_repr : Qc -> string;     (* [str] of a float *)
  float_of_string : string -> option Qc;   (* [float] of a string *)
  key_name : Key -> string;      (* the strings that name the hyper-parameters *)
}.

(** [USE_CUDA = torch.cuda.is_available()]. *)
Definition USE_CUDA `{Env} : bool := cuda_available.

(** ** Timestamps *)

Record DateTime : Type := mkTime {
  year : Z; month : Z; day : Z;
  hour : Z; minute : Z; second : Z;
}.

#[export] Instance DateTime_eq_dec : EqDecision DateTime.
Proof. solve_decision. Defined.

(** The datetimes every platform prints with a four-digit year. *)
Definition valid_datetime (t : DateTime) : Prop :=
  (1000 <= year t <= 9999 /\ 1 <= month t <= 12 /\ 1 <= day t <= 31 /\
   0 <= hour t < 24 /\ 0 <= minute t < 60 /\ 0 <= second t < 60)%Z.

#[export] Instance valid_datetime_dec t : Decision (valid_datetime t).
Proof. unfold valid_datetime. apply _. Defined.

Definition digit (n : Z) : ascii := ascii_of_nat (48 + Z.to_nat (n mod 10)).

(** [%m], [%d], [%H], [%M], [%S]: two digits, zero padded. *)
Definition pad2 (n : Z) : string :=
  String (digit (n / 10)) (String (digit n) "").

(** [%Y]: four digits. *)
Definition pad4 (n : Z) : string :=
  String (digit (n / 1000)) (String (digit (n / 100)) (pad2 n)).

(** [time.strftime('%Y-%m-%d-%H-%M-%S')]. *)
Definition strftime (t : DateTime) : string :=
  pad4 (year t) ++ "-" ++ pad2 (month t) ++ "-" ++ pad2 (day t) ++ "-" ++
  pad2 (hour t) ++ "-" ++ pad2 (minute t) ++ "-" ++ pad2 (second t).

#[global] Arguments digit : simpl never.
#[global] Arguments pad2 : simpl never.
#[global] Arguments pad4 : simpl never.
#[global] Arguments strftime : simpl never.

(** [str(v)] for a hyper-parameter, as [%s] formats it. *)
Definition pval_str `{Env} (v : PVal) : string :=
  match v with
  | PInt z => pretty z
  | PFloat q => float_repr q
  | PStr s => s
  end.

(** ['%s/%s' % (a, b)]. *)
Definition fmt_path (a b : string) : string := a ++ "/" ++ b.

Definition _save_dir `{Env} (params : option Params) (time : DateTime) : Res string :=
  let time_str := strftime time in
  name <- params_get params MODEL_NAME ;;
  Ok (fmt_path BASE_PATH (fmt_path (pval_str name) time_str)).

(** ** Reading a timestamp back *)

Definition digit_val (c : ascii) : option Z :=
  let n := nat_of_ascii c in
  if decide (48 <= n < 58)%nat then Some (Z.of_nat (n - 48)) else None.

Fixpoint read_digits (k : nat) (acc : Z) (s : string) : option (Z * string) :=
  match k with
  | O => Some (acc, s)
  | S k' =>
      match s with
      | String c s' => d ← digit_val c; read_digits k' (10 * acc + d)%Z s'
      | EmptyString => None
      end
  end.

Definition read_dash (s : string) : option string :=
  match s with
  | String "-" s' => Some s'
  | _ => None
  end.

Definition strptime (s : string) : option DateTime :=
  '(y, s) ← read_digits 4 0 s; s ← read_dash s;
  '(mo, s) ← read_digits 2 0 s; s ← read_dash s;
  '(d, s) ← read_digits 2 0 s; s ← read_dash s;
  '(h, s) ← read_digits 2 0 s; s ← read_dash s;
  '(mi, s) ← read_digits 2 0 s; s ← read_dash s;
  '(se, s) ← read_digits 2 0 s;
  if decide (s = "") then Some (mkTime y mo d h mi se) else None.

(** ** Lemmas *)

Lemma append_String c s r : String c s ++ r = String c (s ++ r).
Proof. done. Qed.

Lemma append_empty r : "" ++ r = r.
Proof. done. Qed.

Lemma digit_val_digit n : digit_val (digit n) = Some (n mod 10)%Z.
Proof.
  unfold digit. pose proof (Z.mod_pos_bound n 10 eq_refl) as Hn.
  rewrite <- (Z2Nat.id (n mod 10)) at 2 by lia.
  assert (Z.to_nat (n mod 10) < 10)%nat as Hk by lia.
  destruct (Z.to_nat (n mod 10)) as [|[|[|[|[|[|[|[|[|[|k]]]]]]]]]]; try done. lia.
Qed.

Lemma read_pad2 n acc rest :
  (0 <= n < 100)%Z ->
  read_digits 2 acc (pad2 n ++ rest) = Some ((100 * acc + n)%Z, rest).
Proof.
  intros Hn. unfold pad2. rewrite !append_String, append_empty.
  cbn [read_digits]. rewrite !digit_val_digit.
  cbn [mbind option_bind]. do 2 f_equal. Z.div_mod_to_equations. lia.
Qed.

Lemma read_pad4 n rest :
  (0 <= n < 10000)%Z -> read_digits 4 0 (pad4 n ++ rest) = Some (n, rest).
Proof.
  intros Hn. unfold pad4, pad2. rewrite !append_String, append_empty.
  cbn [read_digits]. rewrite !digit_val_digit.
  cbn [mbind option_bind]. do 2 f_equal. Z.div_mod_to_equations. lia.
Qed.

Lemma read_dash_append s : read_dash ("-" ++ s) = Some s.
Proof. done. Qed.

Lemma pad2_length n : String.length (pad2 n) = 2%nat.
Proof. done. Qed.

Lemma pad4_length n : String.length (pad4 n) = 4%nat.
Proof. done. Qed.

Lemma string_app_length (s r : string) :
  String.length (s ++ r) = (String.length s + String.length r)%nat.
Proof. induction s as [|c s IH]; [done|]. rewrite append_String; simpl. by rewrite IH. Qed.

Lemma string_app_nil_r (s : string) : s ++ "" = s.
Proof. induction s as [|c s IH]; [done|]. rewrite append_String. by rewrite IH. Qed.

Lemma string_app_assoc (s r u : string) : (s ++ r) ++ u = s ++ (r ++ u).
Proof. induction s as [|c s IH]; [done|]. rewrite !append_String. by rewrite IH. Qed.

Lemma string_app_inv_head (s r u : string) : s ++ r = s ++ u -> r = u.
Proof. induction s as [|c s IH]; [done|]. rewrite !append_String. intros [= ?]; auto. Qed.

Lemma strftime_length t : String.length (strftime t) = 19%nat.
Proof. unfold strftime. by rewrite !string_app_length, pad4_length, !pad2_length. Qed.

Lemma pval_str_PStr `{Env} s : pval_str (PStr s) = s.
Proof. done. Qed.

Lemma strptime_strftime t :
  valid_datetime t -> strptime (strftime t) = Some t.
Proof.
  destruct t as [y mo d h mi se]. unfold valid_datetime, strftime, strptime.
  cbn [year month day hour minute second].
  intros (Hy & Hmo & Hd & Hh & Hmi & Hse).
  rewrite read_pad4 by lia; cbn [mbind option_bind]. rewrite read_dash_append; cbn [mbind option_bind].
  do 4 (rewrite read_pad2 by lia; cbn [mbind option_bind];
        rewrite read_dash_append; cbn [mbind option_bind]).
  rewrite <- (string_app_nil_r (pad2 se)).
  rewrite read_pad2 by lia; cbn [mbind option_bind].
  rewrite decide_True by done. do 2 f_equal; lia.
Qed.

(** A timestamp reads back from its [strftime] string, so the format
    loses nothing of a valid datetime. *)
Theorem strftime_roundtrip t :
  valid_datetime t -> strptime (strftime t) = Some t.
Proof. apply strptime_strftime. Qed.

Lemma strftime_roundtrip_witness :
  strptime (strftime (mkTime 2018 3 7 9 5 0)) = Some (mkTime 2018 3 7 9 5 0).
Proof. apply strftime_roundtrip. unfold valid_datetime; simpl. lia. Defined.

Lemma strftime_inj t1 t2 :
  valid_datetime t1 -> valid_datetime t2 -> strftime t1 = strftime t2 -> t1 = t2.
Proof.
  intros H1 H2 Heq. apply (f_equal strptime) in Heq.
  rewrite !strptime_strftime in Heq by done. by simplify_eq.
Qed.

(** For fixed hyper-parameters, checkpoints taken at different valid
    times get different directories. *)
Theorem save_dir_injective `{Env} params t1 t2 d :
  valid_datetime t1 -> valid_datetime t2 ->
  _save_dir params t1 = Ok d -> _save_dir params t2 = Ok d -> t1 = t2.
Proof.
  intros H1 H2. unfold _save_dir, fmt_path.
  destruct (params_get params MODEL_NAME) as [name|]; simpl; [|done].
  intros [= <-] [= Heq]. do 4 apply string_app_inv_head in Heq.
  by apply strftime_inj.
Qed.

(** An environment to run the definitions in. It prints and reads the
    floats of the small instance. *)
Definition toy_floats : list (Qc * string) :=
  [(Q2Qc (1 # 2), "0.5"); (Q2Qc (1 # 10), "0.1"); (Q2Qc (3 # 4), "0.75")].

Definition toy_key_name (k : Key) : string :=
  match k with
  | VOCAB_SIZE => "vocab_size" | HDIM => "hdim" | OUTPUT_MAX_LEN => "output_max_len"
  | H_LAYERS => "h_layers" | DROPOUT => "dropout"
  | TEACHER_FORCING_RATIO => "teacher_forcing_ratio" | EPOCHS => "epochs"
  | DECAY_START_EPOCH => "decay_start_epoch" | LR => "lr" | LR_DECAY => "lr_decay"
  | MODEL_NAME => "model_name"
  end.

Definition toy_env : Env := {|
  BASE_PATH := "checkpoints";
  SAVED_MODEL_FILENAME := "model.bin";
  SAVED_PARAMS_FILENAME := "params.json";
  SAVED_VOCAB_FILENAME := "vocab.pkl";
  cuda_available := false;
  float_repr := fun q =>
    default "nan" (snd <$> List.find (fun x => bool_decide (fst x = q)) toy_floats);
  float_of_string := fun s =>
    fst <$> List.find (fun x => bool_decide (snd x = s)) toy_floats;
  key_name := toy_key_name;
|}.

Lemma save_dir_injective_witness :
  @_save_dir toy_env (Some {[MODEL_NAME := PStr "lm"]}) (mkTime 2018 3 7 9 5 0)
    = Ok "checkpoints/lm/2018-03-07-09-05-00" /\
  mkTime 2018 3 7 9 5 0 = mkTime 2018 3 7 9 5 0.
Proof.
  split; [reflexivity|].
  by apply (@save_dir_injective toy_env (Some {[MODEL_NAME := PStr "lm"]}) _ _
              "checkpoints/lm/2018-03-07-09-05-00").
Defined.

(** ** The file system

    Directories are a set of paths and files a map from paths to contents;
    [W] is a saved [state_dict] and [V] a vocabulary. *)

Inductive Content (W V : Type) : Type :=
| ModelFile (w : W)                  (* written by [torch.save] *)
| ParamsFile (p : option Params)     (* written by [json.dump] *)
| VocabFile (v : V).                 (* written by [pickle.dump] *)
Arguments ModelFile {W V} w.
Arguments ParamsFile {W V} p.
Arguments VocabFile {W V} v.

Record FS (W V : Type) : Type := mkFS {
  fs_dirs : gset string;
  fs_files : gmap string (Content W V);
}.
Arguments mkFS {W V} fs_dirs fs_files.
Arguments fs_dirs {W V} f.
Arguments fs_files {W V} f.

(** The proper ancestors of a path: its prefixes that end before a [/]. *)
Fixpoint ancestors_from (pre : string) (s : string) : list string :=
  match s with
  | EmptyString => []
  | String c s' =>
      if Ascii.eqb c "/"
      then (if decide (pre = "") then [] else [pre]) ++ ancestors_from (pre ++ "/") s'
      else ancestors_from (pre ++ String c "") s'
  end.

Definition ancestors (p : string) : list string := ancestors_from "" p.

Definition dirname (p : string) : string := default "" (last (ancestors p)).

(** A file name: no [/] in it. *)
Fixpoint no_slash (s : string) : bool :=
  match s with
  | EmptyString => true
  | String c s' => negb (Ascii.eqb c "/") && no_slash s'
  end.

Lemma ancestors_from_name pre f : no_slash f = true -> ancestors_from pre f = [].
Proof.
  revert pre. induction f as [|c f IH]; intros pre; [done|]. cbn.
  destruct (Ascii.eqb c "/"); [done|]. intros Hf. by apply IH.
Qed.

Lemma ancestors_from_app pre d f :
  ancestors_from pre (d ++ "/" ++ f)
  = (ancestors_from pre d
     ++ (if decide ((pre ++ d)%string = "") then [] else [(pre ++ d)%string])
     ++ ancestors_from (pre ++ d ++ "/")%string f)%list.
Proof.
  revert pre. induction d as [|c d IH]; intros pre.
  - rewrite append_empty, string_app_nil_r. cbn [ancestors_from app].
    by rewrite append_empty.
  - rewrite append_String. cbn [ancestors_from]. destruct (Ascii.eqb c "/") eqn:Ec.
    + apply Ascii.eqb_eq in Ec as ->. rewrite IH, <- app_assoc.
      by rewrite !string_app_assoc.
    + rewrite IH. by rewrite !string_app_assoc.
Qed.

(** The directory of a file [d/f] is [d]. *)
Lemma dirname_fmt_path d f :
  d <> "" -> no_slash f = true -> dirname (fmt_path d f) = d.
Proof.
  intros Hd Hf. unfold dirname, ancestors, fmt_path.
  rewrite ancestors_from_app, !append_empty, (ancestors_from_name _ f Hf).
  rewrite decide_False by done. by rewrite app_nil_r, last_snoc.
Qed.

Section FileSystem.
Context {W V : Type}.
Implicit Types (fs : FS W V) (p : string).

(** [os.path.exists(p)]. *)
Definition path_exists p fs : bool :=
  bool_decide (p ∈ fs_dirs fs \/ is_Some (fs_files fs !! p)).

(** [os.makedirs(p)]: creates [p] and its missing ancestors; fails when [p]
    exists or an ancestor is a file. *)
Definition makedirs p : Exn (FS W V) unit := fun fs =>
  if path_exists p fs then (Raise OSError, fs)
  else if bool_decide (Exists (fun a => is_Some (fs_files fs !! a)) (ancestors p))
  then (Raise OSError, fs)
  else (Ok tt, mkFS (list_to_set (p :: ancestors p) ∪ fs_dirs fs) (fs_files fs)).

Definition _ensure_path p : Exn (FS W V) unit := fun fs =>
  if negb (path_exists p fs) then makedirs p fs else (Ok tt, fs).

(** [open(p, 'w')] followed by a dump of [c]: the directory of [p] must
    exist and [p] must not be a directory. *)
Definition write_file p (c : Content W V) : Exn (FS W V) unit := fun fs =>
  if bool_decide (p ∈ fs_dirs fs) then (Raise OSError, fs)
  else if bool_decide (dirname p = "" \/ dirname p ∈ fs_dirs fs)
  then (Ok tt, mkFS (fs_dirs fs) (<[p := c]> (fs_files fs)))
  else (Raise OSError, fs).

Lemma path_exists_dir p fs : p ∈ fs_dirs fs -> path_exists p fs = true.
Proof. intros H. unfold path_exists. apply bool_decide_eq_true. by left. Qed.

Lemma makedirs_ok p fs fs' :
  makedirs p fs = (Ok tt, fs') ->
  p ∈ fs_dirs fs' /\ fs_dirs fs ⊆ fs_dirs fs' /\ fs_files fs' = fs_files fs.
Proof.
  unfold makedirs. repeat case_match; try done. intros [= <-]; simpl.
  split; [|split]; [set_solver..|done].
Qed.

Lemma makedirs_raise p fs e fs' :
  makedirs p fs = (Raise e, fs') -> e = OSError /\ fs' = fs.
Proof. unfold makedirs. repeat case_match; by intros [= <- <-]. Qed.

Lemma ensure_path_raise p fs e fs' :
  _ensure_path p fs = (Raise e, fs') -> e = OSError /\ fs' = fs.
Proof. unfold _ensure_path. case_match; [apply makedirs_raise|done]. Qed.

Lemma ensure_path_ok_inv p fs fs' :
  _ensure_path p fs = (Ok tt, fs') ->
  path_exists p fs' = true /\ fs_dirs fs ⊆ fs_dirs fs' /\ fs_files fs' = fs_files fs.
Proof.
  unfold _ensure_path. destruct (path_exists p fs) eqn:E; simpl.
  - by intros [= <-].
  - intros (Hp & Hd & Hf)%makedirs_ok. eauto using path_exists_dir.
Qed.

(** [open(p, 'w')] succeeds on [fs]. *)
Definition writable p fs : Prop :=
  (p ∉ fs_dirs fs) /\ (dirname p = "" \/ dirname p ∈ fs_dirs fs).

#[export] Instance writable_dec p fs : Decision (writable p fs).
Proof. unfold writable. apply _. Defined.

Lemma write_file_ok p c fs :
  writable p fs ->
  write_file p c fs = (Ok tt, mkFS (fs_dirs fs) (<[p := c]> (fs_files fs))).
Proof.
  intros [Hp Hd]. unfold write_file.
  by rewrite bool_decide_eq_false_2, bool_decide_eq_true_2.
Qed.

Lemma write_file_raise p c fs : ~ writable p fs -> write_file p c fs = (Raise OSError, fs).
Proof.
  intros Hw. unfold write_file. repeat case_bool_decide; try done.
  destruct Hw. by split.
Qed.

(** Writing a file changes no directory, so what was writable stays so. *)
Lemma writable_write p q c fs :
  writable p fs <-> writable p (mkFS (fs_dirs fs) (<[q := c]> (fs_files fs))).
Proof. done. Qed.

(** A file of the directory [_ensure_path] made can be written, unless its
    name is taken by a directory or the path of the directory by a file. *)
Lemma writable_after_ensure d f fs fs' :
  d <> "" -> no_slash f = true -> fs_files fs !! d = None ->
  _ensure_path d fs = (Ok tt, fs') -> fmt_path d f ∉ fs_dirs fs' ->
  writable (fmt_path d f) fs'.
Proof.
  intros Hd Hf Hnone (Hex & _ & Hfiles)%ensure_path_ok_inv Hn. split; [done|].
  right. rewrite dirname_fmt_path by done.
  apply bool_decide_eq_true in Hex as [?|[c Hc]]; [done|]. congruence.
Qed.

End FileSystem.

(** When [_ensure_path] returns, the path exists, no file has changed and
    no directory has disappeared. *)
Theorem ensure_path_ok {W V} (p : string) (fs fs' : FS W V) :
  _ensure_path p fs = (Ok tt, fs') ->
  path_exists p fs' = true /\ fs_dirs fs ⊆ fs_dirs fs' /\ fs_files fs' = fs_files fs.
Proof. apply ensure_path_ok_inv. Qed.

(** [_ensure_path] is idempotent: once it has returned, running it
    again returns and changes nothing. *)
Theorem ensure_path_idempotent {W V} (p : string) (fs fs' : FS W V) :
  _ensure_path p fs = (Ok tt, fs') -> _ensure_path p fs' = (Ok tt, fs').
Proof.
  intros (Hp & _)%ensure_path_ok_inv. unfold _ensure_path. by rewrite Hp.
Qed.

Definition fs_empty {W V} : FS W V := mkFS ∅ ∅.

Lemma ensure_path_ok_witness :
  path_exists "ckpt/lm/2018-03-07-09-05-00"
    (snd (_ensure_path "ckpt/lm/2018-03-07-09-05-00" (@fs_empty unit unit))) = true.
Proof.
  eapply (ensure_path_ok _ fs_empty). by vm_compute.
Defined.

Lemma ensure_path_idempotent_witness :
  let fs' := snd (_ensure_path "ckpt/lm" (@fs_empty unit unit)) in
  _ensure_path "ckpt/lm" fs' = (Ok tt, fs').
Proof. apply (ensure_path_idempotent _ fs_empty). by vm_compute. Defined.
