(* ===== verification/Json.v ===== *)
(** * The text of the hyper-parameter file

    [Trainer.save_model] writes the hyper-parameters with
    [json.dump(self.params, fp, indent=4, sort_keys=True)]
    ([src/language_models/trainer.py], line 161).  This file models the text
    that call produces for the values [self.params] can hold ([None], or a
    mapping from the hyper-parameter names to integers, floats and strings)
    and the reading of such a text by [json.load]: a lexer that consumes one
    character at a time, and a parser of its tokens.  Characters are the
    code points below 256.  The text of a float and the strings that name
    the hyper-parameters come from the environment [Env]. *)

From Stdlib Require Import ZArith NArith QArith Qcanon Ascii String.
From stdpp Require Import prelude strings finite gmap pretty sorting.
From S2P Require Import Prelude PyData Checkpoint.

#[local] Open Scope string_scope.

(** ** Writing *)

Definition quote : ascii := "034".
Definition backslash : ascii := "092".
Definition nl : string := String "010" "".

(** A hexadecimal digit, in lower case. *)
Definition hex_digit (n : N) : ascii :=
  ascii_of_N (if decide (n < 10)%N then 48 + n else 87 + n).

(** What [json] writes for a character of a string ([ensure_ascii] is on):
    the quote, the backslash and the control characters with a short form
    are escaped by a backslash, the printable ASCII characters stand for
    themselves, every other character is written [\u00xx]. *)
Definition escape_char (c : ascii) : string :=
  let n := N_of_ascii c in
  if decide (n = 34)%N then String backslash (String quote "")
  else if decide (n = 92)%N then String backslash (String backslash "")
  else if decide (n = 10)%N then String backslash "n"
  else if decide (n = 13)%N then String backslash "r"
  else if decide (n = 9)%N then String backslash "t"
  else if decide (n = 8)%N then String backslash "b"
  else if decide (n = 12)%N then String backslash "f"
  else if decide (32 <= n <= 126)%N then String c ""
  else String backslash
         (String "u" (String "0" (String "0"
            (String (hex_digit (n / 16)) (String (hex_digit (n mod 16)) ""))))).

Fixpoint escape (s : string) : string :=
  match s with
  | "" => ""
  | String c s' => escape_char c ++ escape s'
  end.

Definition json_string (s : string) : string :=
  String quote (escape s ++ String quote "").

Section Writing.
Context `{Env}.

(** An integer is written in decimal, a float as [repr] prints it. *)
Definition json_value (v : PVal) : string :=
  match v with
  | PInt z => pretty z
  | PFloat q => float_repr q
  | PStr s => json_string s
  end.

(** [sort_keys=True]: the items in the order of their names. *)
Definition key_le (a b : Key * PVal) : Prop :=
  String.leb (key_name a.1) (key_name b.1) = true.

#[export] Instance key_le_dec a b : Decision (key_le a b).
Proof. unfold key_le. apply _. Defined.

Definition sorted_items (m : Params) : list (Key * PVal) :=
  merge_sort key_le (map_to_list m).

(** [indent=4]: an item on a line of its own, after four spaces; the name
    and the value are separated by a colon and a space. *)
Definition json_item (kv : Key * PVal) : string :=
  "    " ++ json_string (key_name kv.1) ++ ": " ++ json_value kv.2.

(** [json.dumps(params, indent=4, sort_keys=True)]. *)
Definition json_dumps (p : option Params) : string :=
  match p with
  | None => "null"
  | Some m =>
      match sorted_items m with
      | [] => "{}"
      | items =>
          "{" ++ nl ++ String.concat ("," ++ nl) (json_item <$> items) ++ nl ++ "}"
      end
  end.

(** What a file holds as text: the hyper-parameter file is the one whose
    format is modelled. *)
Definition content_text {W V} (c : Content W V) : option string :=
  match c with
  | ParamsFile p => Some (json_dumps p)
  | _ => None
  end.

End Writing.

(** ** Reading: the lexer *)

Inductive Token : Type :=
| TLBrace | TRBrace | TColon | TComma
| TStr (s : string)      (* a string, unescaped *)
| TNum (s : string)      (* the text of a number *)
| TWord (s : string).    (* [null], [true], [false] *)

#[export] Instance Token_eq_dec : EqDecision Token.
Proof. solve_decision. Defined.

(** The states of the lexer: between tokens, inside a string, after a
    backslash, inside the four digits of [\u], inside a number or a word. *)
Inductive Lex : Type :=
| Start
| InStr (buf : string)
| InEsc (buf : string)
| InHex (buf : string) (k : nat) (n : N)
| InNum (buf : string)
| InWord (buf : string).

Definition snoc (s : string) (c : ascii) : string := s ++ String c "".

Definition is_space (c : ascii) : bool :=
  let n := N_of_ascii c in
  bool_decide (n = 32 \/ n = 10 \/ n = 13 \/ n = 9)%N.

Definition is_digit (c : ascii) : bool :=
  bool_decide (48 <= N_of_ascii c <= 57)%N.

Definition is_alpha (c : ascii) : bool :=
  let n := N_of_ascii c in
  bool_decide (65 <= n <= 90 \/ 97 <= n <= 122)%N.

(** The characters of a number: digits, signs, the point and the exponent
    mark. *)
Definition num_char (c : ascii) : bool :=
  let n := N_of_ascii c in
  is_digit c || bool_decide (n = 43 \/ n = 45 \/ n = 46 \/ n = 69 \/ n = 101)%N.

Definition hex_val (c : ascii) : option N :=
  let n := N_of_ascii c in
  if decide (48 <= n <= 57)%N then Some (n - 48)%N
  else if decide (97 <= n <= 102)%N then Some (n - 87)%N
  else if decide (65 <= n <= 70)%N then Some (n - 55)%N
  else None.

(** The character a backslash and [c] stand for ([\u] apart). *)
Definition unescape (c : ascii) : option ascii :=
  let n := N_of_ascii c in
  if decide (n = 34 \/ n = 92 \/ n = 47)%N then Some c
  else if decide (n = 110)%N then Some "010"%char
  else if decide (n = 114)%N then Some "013"%char
  else if decide (n = 116)%N then Some "009"%char
  else if decide (n = 98)%N then Some "008"%char
  else if decide (n = 102)%N then Some "012"%char
  else None.

(** A character between tokens; [acc] holds the tokens read, last first. *)
Definition lex_start (c : ascii) (acc : list Token) : option (Lex * list Token) :=
  let n := N_of_ascii c in
  if is_space c then Some (Start, acc)
  else if decide (n = 123)%N then Some (Start, TLBrace :: acc)
  else if decide (n = 125)%N then Some (Start, TRBrace :: acc)
  else if decide (n = 58)%N then Some (Start, TColon :: acc)
  else if decide (n = 44)%N then Some (Start, TComma :: acc)
  else if decide (n = 34)%N then Some (InStr "", acc)
  else if is_digit c || bool_decide (n = 45)%N then Some (InNum (String c ""), acc)
  else if is_alpha c then Some (InWord (String c ""), acc)
  else None.

Definition lex_step (st : Lex) (c : ascii) (acc : list Token)
  : option (Lex * list Token) :=
  let n := N_of_ascii c in
  match st with
  | Start => lex_start c acc
  | InStr buf =>
      if decide (n = 34)%N then Some (Start, TStr buf :: acc)
      else if decide (n = 92)%N then Some (InEsc buf, acc)
      else if decide (n < 32)%N then None
      else Some (InStr (snoc buf c), acc)
  | InEsc buf =>
      if decide (n = 117)%N then Some (InHex buf 4 0, acc)
      else c' ← unescape c; Some (InStr (snoc buf c'), acc)
  | InHex buf k v =>
      d ← hex_val c;
      let v' := (16 * v + d)%N in
      match k with
      | 1%nat =>
          if decide (v' < 256)%N then Some (InStr (snoc buf (ascii_of_N v')), acc)
          else None
      | S k' => Some (InHex buf k' v', acc)
      | O => None
      end
  | InNum buf =>
      if num_char c then Some (InNum (snoc buf c), acc)
      else lex_start c (TNum buf :: acc)
  | InWord buf =>
      if is_alpha c then Some (InWord (snoc buf c), acc)
      else lex_start c (TWord buf :: acc)
  end.

Fixpoint lex_run (s : string) (st : Lex) (acc : list Token)
  : option (Lex * list Token) :=
  match s with
  | "" => Some (st, acc)
  | String c s' => '(st', acc') ← lex_step st c acc; lex_run s' st' acc'
  end.

(** The end of the text: a number or a word ends, a string may not. *)
Definition lex_end (st : Lex) (acc : list Token) : option (list Token) :=
  match st with
  | Start => Some (rev acc)
  | InNum buf => Some (rev (TNum buf :: acc))
  | InWord buf => Some (rev (TWord buf :: acc))
  | InStr _ | InEsc _ | InHex _ _ _ => None
  end.

Definition json_lex (s : string) : option (list Token) :=
  '(st, acc) ← lex_run s Start []; lex_end st acc.

(** ** Reading: the parser *)

(** All of [s] as digits after [acc]. *)
Fixpoint read_all_digits (s : string) (acc : Z) : option Z :=
  match s with
  | "" => Some acc
  | String c s' => d ← digit_val c; read_all_digits s' (10 * acc + d)%Z
  end.

(** An integer without sign: [0], or digits that do not start with [0]. *)
Definition read_nat (s : string) : option Z :=
  match s with
  | "" => None
  | String c s' =>
      if decide (c = "0"%char) then (if decide (s' = "") then Some 0%Z else None)
      else read_all_digits s 0
  end.

Definition read_int (s : string) : option Z :=
  match s with
  | String c s' => if decide (c = "-"%char) then Z.opp <$> read_nat s' else read_nat s
  | "" => None
  end.

(** The grammar of a number: an optional minus sign, [0] or digits that do
    not start with [0], an optional fraction of a point and digits, an
    optional exponent of [e] or [E], an optional sign and digits. Each part
    returns the text after it. *)
Fixpoint skip_digits (s : string) : string :=
  match s with
  | String c s' => if is_digit c then skip_digits s' else s
  | "" => ""
  end.

Definition digits1 (s : string) : option string :=
  match s with
  | String c s' => if is_digit c then Some (skip_digits s') else None
  | "" => None
  end.

Definition int_part (s : string) : option string :=
  match s with
  | String c s' => if decide (c = "0"%char) then Some s' else digits1 s
  | "" => None
  end.

Definition frac_part (s : string) : option string :=
  match s with
  | String c s' => if decide (c = "."%char) then digits1 s' else Some s
  | "" => Some s
  end.

Definition exp_part (s : string) : option string :=
  match s with
  | String c s' =>
      if decide (c = "e"%char \/ c = "E"%char) then
        match s' with
        | String d s'' => if decide (d = "+"%char \/ d = "-"%char) then digits1 s'' else digits1 s'
        | "" => None
        end
      else Some s
  | "" => Some s
  end.

Definition json_number (s : string) : bool :=
  let s1 := match s with
            | String c s' => if decide (c = "-"%char) then s' else s
            | "" => s
            end in
  bool_decide ((s2 ← int_part s1; s3 ← frac_part s2; exp_part s3) = Some "").

Section Reading.
Context `{Env}.

(** The hyper-parameter a string names. *)
Definition key_of (s : string) : option Key :=
  List.find (fun k => bool_decide (key_name k = s)) Key_all.

(** The value of a token: a number without fraction and exponent is an
    integer, any other text of the grammar of numbers a float. *)
Definition value_of (t : Token) : option PVal :=
  match t with
  | TStr s => Some (PStr s)
  | TNum s =>
      match read_int s with
      | Some z => Some (PInt z)
      | None => if json_number s then PFloat <$> float_of_string s else None
      end
  | _ => None
  end.

(** The members of an object after its brace; a name that occurs again
    replaces the earlier value. *)
Fixpoint parse_members (ts : list Token) (m : Params) : option Params :=
  match ts with
  | TStr k :: TColon :: v :: rest =>
      key ← key_of k; val ← value_of v;
      match rest with
      | [TRBrace] => Some (<[key := val]> m)
      | TComma :: rest' => parse_members rest' (<[key := val]> m)
      | _ => None
      end
  | _ => None
  end.

Definition parse_document (ts : list Token) : option (option Params) :=
  match ts with
  | [TWord w] => if decide (w = "null") then Some None else None
  | [TLBrace; TRBrace] => Some (Some ∅)
  | TLBrace :: ts' => Some <$> parse_members ts' ∅
  | _ => None
  end.

(** [json.loads]: the hyper-parameters a text denotes, [ValueError] for any
    other text. *)
Definition json_loads (s : string) : Res (option Params) :=
  of_option ValueError (json_lex s ≫= parse_document).

End Reading.


(** ** The lexer on what was written *)

Fixpoint all_chars (f : ascii -> bool) (s : string) : bool :=
  match s with
  | "" => true
  | String c s' => f c && all_chars f s'
  end.

(** The text of a number: a digit or a minus sign, then characters of
    numbers. *)
Definition num_text (s : string) : bool :=
  match s with
  | "" => false
  | String c s' =>
      (is_digit c || bool_decide (N_of_ascii c = 45)%N) && all_chars num_char s'
  end.

(** Runs a lemma on every character. *)
Ltac each_char c := destruct c as [[] [] [] [] [] [] [] []]; vm_compute; try done.

Section Lexer.
Implicit Types (s buf rest : string) (acc : list Token) (c : ascii).

Lemma lex_run_app s rest st acc :
  lex_run (s ++ rest) st acc
  = '(st', acc') ← lex_run s st acc; lex_run rest st' acc'.
Proof.
  revert st acc. induction s as [|c s IH]; intros st acc; [done|].
  rewrite append_String. cbn [lex_run].
  destruct (lex_step st c acc) as [[st' acc']|]; [apply IH|done].
Qed.

Lemma snoc_app buf c s : snoc buf c ++ s = buf ++ String c s.
Proof. unfold snoc. by rewrite string_app_assoc. Qed.

Lemma lex_escape_char c buf acc :
  lex_run (escape_char c) (InStr buf) acc = Some (InStr (snoc buf c), acc).
Proof. each_char c. Qed.

Lemma lex_escape s buf acc :
  lex_run (escape s) (InStr buf) acc = Some (InStr (buf ++ s), acc).
Proof.
  revert buf. induction s as [|c s IH]; intros buf; cbn [escape].
  - by rewrite string_app_nil_r.
  - rewrite lex_run_app, lex_escape_char. cbn [mbind option_bind].
    by rewrite IH, snoc_app.
Qed.

(** A string is read back as it was before escaping. *)
Lemma lex_string s acc :
  lex_run (json_string s) Start acc = Some (Start, TStr s :: acc).
Proof.
  unfold json_string. cbn [lex_run].
  change (lex_step Start quote acc) with (Some (InStr "", acc)). cbn [mbind option_bind].
  rewrite lex_run_app, lex_escape. cbn [mbind option_bind lex_run]. done.
Qed.

Lemma lex_num_chars s buf acc :
  all_chars num_char s = true ->
  lex_run s (InNum buf) acc = Some (InNum (buf ++ s), acc).
Proof.
  revert buf. induction s as [|c s IH]; intros buf Hs.
  - by rewrite string_app_nil_r.
  - cbn [all_chars] in Hs. apply andb_prop in Hs as [Hc Hs].
    cbn [lex_run lex_step]. rewrite Hc. cbn [mbind option_bind].
    by rewrite IH, snoc_app.
Qed.

Lemma lex_start_num c acc :
  (is_digit c || bool_decide (N_of_ascii c = 45)%N) = true ->
  lex_start c acc = Some (InNum (String c ""), acc).
Proof. each_char c. Qed.

Lemma lex_num_text s acc :
  num_text s = true -> lex_run s Start acc = Some (InNum s, acc).
Proof.
  destruct s as [|c s]; [done|]. intros [Hc Hs]%andb_prop.
  cbn [lex_run lex_step]. rewrite lex_start_num by done. cbn [mbind option_bind].
  by rewrite lex_num_chars.
Qed.

(** A number ends at the first character that is not of a number. *)
Lemma lex_number s c rest acc :
  num_text s = true -> num_char c = false ->
  lex_run (s ++ String c rest) Start acc = lex_run (String c rest) Start (TNum s :: acc).
Proof.
  intros Hs Hc. rewrite lex_run_app, lex_num_text by done.
  cbn [mbind option_bind lex_run lex_step]. by rewrite Hc.
Qed.

End Lexer.

(** ** Integers *)

Section Integers.
Implicit Types (x d : N) (s : string).

Lemma below_ten d :
  (d < 10)%N ->
  (d = 0 \/ d = 1 \/ d = 2 \/ d = 3 \/ d = 4 \/ d = 5 \/ d = 6 \/ d = 7 \/ d = 8 \/ d = 9)%N.
Proof. lia. Qed.

Lemma digit_of_char d :
  (d < 10)%N -> digit_val (pretty_N_char d) = Some (Z.of_N d).
Proof. intros Hd%below_ten. by destruct_or!; subst. Qed.

Lemma is_digit_char d : (d < 10)%N -> is_digit (pretty_N_char d) = true.
Proof. intros Hd%below_ten. by destruct_or!; subst. Qed.

Lemma digit_is_num_char c : is_digit c = true -> num_char c = true.
Proof. unfold num_char. by intros ->. Qed.

(** The digits of [x], written before [s], read as [x] after what was read. *)
Lemma read_pretty_go x :
  exists k : Z, (0 <= k)%Z /\ forall s acc,
    read_all_digits (pretty_N_go x s) acc
    = read_all_digits s (acc * 10 ^ k + Z.of_N x)%Z.
Proof.
  induction (N.lt_wf_0 x) as [x _ IH].
  destruct (decide (0 < x)%N) as [Hx|Hx].
  - destruct (IH (x `div` 10)%N) as (k & Hk & Hread); [by apply N.div_lt|].
    exists (k + 1)%Z. split; [lia|]. intros s acc.
    rewrite pretty_N_go_step, Hread by done. cbn [read_all_digits].
    rewrite digit_of_char by (by apply N.mod_lt). cbn [mbind option_bind].
    f_equal. rewrite Z.pow_add_r, Z.pow_1_r by lia.
    rewrite (N.div_mod x 10) at 3 by done. rewrite N2Z.inj_add, N2Z.inj_mul. ring.
  - replace x with 0%N by lia. exists 0%Z. split; [done|]. intros s acc.
    rewrite pretty_N_go_0. f_equal. lia.
Qed.

(** The digits of a positive number start with a digit that is not zero,
    and all are digits. *)
Lemma pretty_go_digits x s :
  (0 < x)%N -> all_chars num_char s = true ->
  exists c t, pretty_N_go x s = String c t /\ c <> "0"%char /\
    is_digit c = true /\ all_chars num_char t = true.
Proof.
  revert s. induction (N.lt_wf_0 x) as [x _ IH]. intros s Hx Hs.
  rewrite pretty_N_go_step by done.
  assert (x `mod` 10 < 10)%N as Hm by (by apply N.mod_lt).
  destruct (decide (0 < x `div` 10)%N) as [Hq|Hq].
  - apply IH; [by apply N.div_lt|done|]. cbn [all_chars].
    by rewrite digit_is_num_char, Hs by (by apply is_digit_char).
  - apply N.nlt_ge, N.le_0_r in Hq. rewrite Hq, pretty_N_go_0.
    eexists _, _. split; [done|]. split; [|by rewrite is_digit_char].
    assert (x `mod` 10 <> 0)%N as Hne.
    { intros Hz. rewrite (N.div_mod x 10), Hq, Hz in Hx by done. lia. }
    intros Hc. apply Hne. by apply pretty_N_char_inj.
Qed.

Lemma read_nat_pretty (p : positive) : read_nat (pretty (N.pos p)) = Some (Z.pos p).
Proof.
  unfold pretty, pretty_N. rewrite decide_False by done.
  destruct (pretty_go_digits (N.pos p) "") as (c & t & Hp & Hc & _); [done..|].
  destruct (read_pretty_go (N.pos p)) as (k & _ & Hread).
  unfold read_nat. rewrite Hp, decide_False, <- Hp, Hread by done. done.
Qed.

Lemma num_text_pretty (p : positive) :
  exists c t, pretty (N.pos p) = String c t /\ c <> "-"%char /\ num_text (String c t) = true.
Proof.
  unfold pretty, pretty_N. rewrite decide_False by done.
  destruct (pretty_go_digits (N.pos p) "") as (c & t & Hp & _ & Hc & Ht); [done..|].
  exists c, t. split; [done|]. split; [by intros ->|].
  cbn [num_text]. by rewrite Hc, Ht.
Qed.

(** An integer is read back from its decimal text. *)
Lemma read_int_pretty (z : Z) : read_int (pretty z) = Some z.
Proof.
  destruct z as [|p|p]; [done| |].
  - change (pretty (Z.pos p)) with (pretty (N.pos p)).
    destruct (num_text_pretty p) as (c & t & Hp & Hc & _).
    unfold read_int. rewrite Hp, decide_False, <- Hp by done. apply read_nat_pretty.
  - change (pretty (Z.neg p)) with (String "-" (pretty (N.pos p))).
    cbn [read_int]. rewrite decide_True, read_nat_pretty by done. done.
Qed.

Lemma num_text_int (z : Z) : num_text (pretty z) = true.
Proof.
  destruct z as [|p|p]; [done| |];
    destruct (num_text_pretty p) as (c & t & Hp & Hc & Hn).
  - change (pretty (Z.pos p)) with (pretty (N.pos p)). by rewrite Hp.
  - change (pretty (Z.neg p)) with (String "-" (pretty (N.pos p))). rewrite Hp.
    cbn [num_text all_chars] in *. apply andb_prop in Hn as [Hd ->].
    rewrite andb_true_r. apply andb_true_intro. split; [done|].
    apply orb_prop in Hd as [Hd|Hd%bool_decide_eq_true]; [by apply digit_is_num_char|].
    destruct Hc. by rewrite <- (ascii_N_embedding c), Hd.
Qed.

End Integers.

(** ** The characters written *)

(** The printable ASCII characters, and those with the line feed. *)
Definition printable (c : ascii) : bool := bool_decide (32 <= N_of_ascii c <= 126)%N.

Definition plain (c : ascii) : bool :=
  printable c || bool_decide (N_of_ascii c = 10)%N.

Section Characters.
Implicit Types (s r : string) (f g : ascii -> bool).

Lemma all_chars_app f s r : all_chars f (s ++ r) = all_chars f s && all_chars f r.
Proof.
  induction s as [|c s IH]; [done|].
  rewrite append_String. cbn [all_chars]. by rewrite IH, andb_assoc.
Qed.

Lemma all_chars_impl f g s :
  (forall c, f c = true -> g c = true) -> all_chars f s = true -> all_chars g s = true.
Proof.
  intros Hfg. induction s as [|c s IH]; [done|]. cbn [all_chars].
  intros [Hc Hs]%andb_prop. by rewrite Hfg, IH.
Qed.

Lemma escape_char_printable c : all_chars printable (escape_char c) = true.
Proof. each_char c. Qed.

Lemma num_char_printable c : num_char c = true -> printable c = true.
Proof. each_char c. Qed.

Lemma printable_plain c : printable c = true -> plain c = true.
Proof. unfold plain. by intros ->. Qed.

(** [ensure_ascii]: a string is written in printable ASCII. *)
Lemma json_string_printable s : all_chars printable (json_string s) = true.
Proof.
  unfold json_string. cbn [all_chars]. rewrite all_chars_app.
  apply andb_true_intro. split; [done|]. apply andb_true_intro. split; [|done].
  induction s as [|c s IH]; [done|].
  cbn [escape]. by rewrite all_chars_app, escape_char_printable, IH.
Qed.

Lemma num_text_printable s : num_text s = true -> all_chars printable s = true.
Proof.
  destruct s as [|c s]; [done|]. intros [Hc Hs]%andb_prop. cbn [all_chars].
  rewrite (all_chars_impl num_char printable s num_char_printable Hs), andb_true_r.
  apply num_char_printable. unfold num_char.
  apply orb_prop in Hc as [->|Hc%bool_decide_eq_true]; [done|].
  rewrite bool_decide_true by auto. apply orb_true_r.
Qed.

End Characters.

(** ** Reading back what was written *)

Section Roundtrip.
Context `{Env}.
Implicit Types (v : PVal) (kv : Key * PVal) (items : list (Key * PVal)).
Implicit Types (m : Params) (p : option Params) (acc : list Token) (rest : string).

(** A float whose text is in the grammar of numbers, is not the text of
    an integer, and is read back by [float]. *)
Definition float_ok (q : Qc) : Prop :=
  num_text (float_repr q) = true /\ read_int (float_repr q) = None /\
  json_number (float_repr q) = true /\ float_of_string (float_repr q) = Some q.

Definition value_ok v : Prop :=
  match v with PFloat q => float_ok q | _ => True end.

Definition params_ok p : Prop :=
  match p with Some m => map_Forall (fun _ v => value_ok v) m | None => True end.

#[export] Instance float_ok_dec q : Decision (float_ok q).
Proof. unfold float_ok. apply _. Defined.

#[export] Instance value_ok_dec v : Decision (value_ok v).
Proof. destruct v; apply _. Defined.

#[export] Instance params_ok_dec p : Decision (params_ok p).
Proof. destruct p; apply _. Defined.

(** The tokens of what was written. *)
Definition value_token v : Token :=
  match v with PStr s => TStr s | _ => TNum (json_value v) end.

Definition item_tokens kv : list Token :=
  [TStr (key_name kv.1); TColon; value_token kv.2].

Fixpoint members_tokens items : list Token :=
  match items with
  | [] => [TRBrace]
  | [kv] => item_tokens kv ++ [TRBrace]
  | kv :: rest => item_tokens kv ++ TComma :: members_tokens rest
  end.

Definition document_tokens p : list Token :=
  match p with
  | None => [TWord "null"]
  | Some m => TLBrace :: members_tokens (sorted_items m)
  end.

Lemma concat_cons sep (x : string) l :
  l <> [] -> String.concat sep (x :: l) = x ++ sep ++ String.concat sep l.
Proof. by destruct l. Qed.

Lemma lex_value v c rest acc :
  value_ok v -> num_char c = false ->
  lex_run (json_value v ++ String c rest) Start acc
  = lex_run (String c rest) Start (value_token v :: acc).
Proof.
  intros Hv Hc. destruct v as [z|q|s]; cbn [json_value value_token].
  - by apply lex_number; [apply num_text_int|].
  - by apply lex_number; [apply Hv|].
  - by rewrite lex_run_app, lex_string.
Qed.

Lemma value_of_token v : value_ok v -> value_of (value_token v) = Some v.
Proof.
  destruct v as [z|q|s]; cbn [value_token value_of json_value];
    [|intros (_ & -> & -> & ->)|]; try done.
  by rewrite read_int_pretty.
Qed.

Lemma lex_item kv c rest acc :
  value_ok kv.2 -> num_char c = false ->
  lex_run (json_item kv ++ String c rest) Start acc
  = lex_run (String c rest) Start (rev (item_tokens kv) ++ acc)%list.
Proof.
  intros Hv Hc. unfold json_item. rewrite !string_app_assoc.
  rewrite (lex_run_app "    ").
  change (lex_run "    " Start acc) with (Some (Start, acc)). cbn [mbind option_bind].
  rewrite lex_run_app, lex_string. cbn [mbind option_bind].
  rewrite (lex_run_app ": ").
  change (lex_run ": " Start ?a) with (Some (Start, TColon :: a)). cbn [mbind option_bind].
  by rewrite lex_value.
Qed.

Lemma lex_members items acc :
  Forall (fun kv => value_ok kv.2) items -> items <> [] ->
  lex_run (String.concat ("," ++ nl) (json_item <$> items) ++ nl ++ "}") Start acc
  = Some (Start, (rev (members_tokens items) ++ acc)%list).
Proof.
  intros Hok Hne. revert acc.
  induction Hok as [|kv items Hv Hok IH]; [done|]. intros acc.
  destruct items as [|kv' items].
  - cbn [fmap list_fmap String.concat members_tokens].
    change (nl ++ "}") with (String "010" "}"). rewrite lex_item by done.
    by rewrite rev_app_distr, <- app_assoc.
  - rewrite fmap_cons, concat_cons, !string_app_assoc by done.
    change ("," ++ ?r) with (String "," r). rewrite lex_item by done.
    change (lex_run (String "," (nl ++ ?r)) Start ?a) with (lex_run r Start (TComma :: a)).
    rewrite IH by done. f_equal. f_equal.
    change (members_tokens (kv :: kv' :: items))
      with (item_tokens kv ++ TComma :: members_tokens (kv' :: items))%list.
    rewrite rev_app_distr. cbn [rev]. by rewrite <- !app_assoc.
Qed.

Lemma sorted_items_ok m :
  map_Forall (fun _ v => value_ok v) m -> Forall (fun kv => value_ok kv.2) (sorted_items m).
Proof.
  intros Hm. unfold sorted_items. rewrite merge_sort_Permutation.
  apply Forall_forall. intros [k v] Hkv%elem_of_map_to_list. by apply (Hm k).
Qed.

(** The lexer reads the tokens that were written. *)
Lemma lex_dumps p : params_ok p -> json_lex (json_dumps p) = Some (document_tokens p).
Proof.
  destruct p as [m|]; [|done]. intros Hm%sorted_items_ok.
  unfold json_dumps, document_tokens, json_lex.
  destruct (sorted_items m) as [|kv items] eqn:E; [done|].
  change ("{" ++ nl ++ ?r) with (String "{" (nl ++ r)).
  change (lex_run (String "{" (nl ++ ?r)) Start []) with (lex_run r Start [TLBrace]).
  rewrite lex_members by done. cbn [mbind option_bind lex_end].
  by rewrite rev_app_distr, rev_involutive.
Qed.

Section Names.
Context (Hnames : Inj (=) (=) key_name).

Lemma key_of_name k : key_of (key_name k) = Some k.
Proof.
  unfold key_of. destruct (List.find _ _) as [k'|] eqn:E.
  - apply find_some in E as [_ Hk%bool_decide_eq_true]. by apply Hnames in Hk as ->.
  - pose proof (find_none _ _ E k) as Hk. rewrite bool_decide_eq_false in Hk.
    destruct Hk; [|done]. apply list_elem_of_In. exact (elem_of_enum k).
Qed.

(** The parser stores the items in the order in which they were written. *)
Lemma parse_members_tokens items m :
  Forall (fun kv => value_ok kv.2) items -> items <> [] ->
  parse_members (members_tokens items) m
  = Some (foldl (fun m kv => <[kv.1 := kv.2]> m) m items).
Proof.
  intros Hok Hne. revert m. induction Hok as [|kv items Hv Hok IH]; [done|]. intros m.
  destruct items as [|kv' items];
    cbn [members_tokens item_tokens app parse_members];
    rewrite key_of_name, value_of_token by done; cbn [mbind option_bind]; [done|].
  by rewrite IH.
Qed.

Lemma foldl_insert_items items :
  NoDup items.*1 ->
  foldl (fun (m : Params) kv => <[kv.1 := kv.2]> m) ∅ items = list_to_map items.
Proof.
  induction items as [|[k v] items IH] using rev_ind; [done|].
  rewrite fmap_app, NoDup_app. intros (Hnd & Hk & _).
  rewrite foldl_snoc, list_to_map_snoc, IH; [done..|].
  intros Hin. apply (Hk k Hin). by left.
Qed.

Lemma parse_dumps p :
  params_ok p -> parse_document (document_tokens p) = Some p.
Proof.
  destruct p as [m|]; [|done]. intros Hm%sorted_items_ok.
  assert (sorted_items m ≡ₚ map_to_list m) as Hperm by apply merge_sort_Permutation.
  unfold document_tokens. destruct (sorted_items m) as [|kv items] eqn:E.
  - symmetry in Hperm. apply Permutation_nil_r, map_to_list_empty_iff in Hperm.
    by subst.
  - assert (parse_document (TLBrace :: members_tokens (kv :: items))
            = Some <$> parse_members (members_tokens (kv :: items)) ∅) as ->
      by (by destruct items).
    assert (NoDup (kv :: items).*1) as Hnd
      by (rewrite Hperm; apply NoDup_fst_map_to_list).
    rewrite parse_members_tokens, foldl_insert_items by done.
    cbn [fmap option_fmap option_map]. do 2 f_equal.
    rewrite <- (list_to_map_to_list m). by apply list_to_map_proper.
Qed.

(** What [json.dump] writes for the hyper-parameters, [json.load] reads
    back as the same hyper-parameters. *)
Lemma json_loads_dumps p : params_ok p -> json_loads (json_dumps p) = Ok p.
Proof.
  intros Hp. unfold json_loads. rewrite lex_dumps by done. cbn [mbind option_bind].
  by rewrite parse_dumps.
Qed.

(** Stores with the same text are equal. *)
Lemma json_dumps_inj p1 p2 :
  params_ok p1 -> params_ok p2 -> json_dumps p1 = json_dumps p2 -> p1 = p2.
Proof.
  intros H1 H2 Heq. pose proof (json_loads_dumps p1 H1) as Hl.
  rewrite Heq, json_loads_dumps in Hl by done. by injection Hl.
Qed.

End Names.

(** [sort_keys]: the names appear in ascending order. *)
#[export] Instance key_le_total : Total key_le.
Proof. intros a b. apply String.leb_total. Qed.

Lemma sorted_items_sorted m : Sorted key_le (sorted_items m).
Proof. apply (Sorted_merge_sort key_le). Qed.

(** The text is plain ASCII: printable characters and line feeds. *)
Lemma json_item_printable kv :
  value_ok kv.2 -> all_chars printable (json_item kv) = true.
Proof.
  intros Hv. unfold json_item. rewrite !all_chars_app, json_string_printable.
  destruct kv as [k [z|q|s]]; cbn [json_value snd].
  - by rewrite (num_text_printable (pretty z)) by apply num_text_int.
  - by rewrite (num_text_printable (float_repr q)) by apply Hv.
  - by rewrite json_string_printable.
Qed.

Lemma json_items_plain items :
  Forall (fun kv => value_ok kv.2) items ->
  all_chars plain (String.concat ("," ++ nl) (json_item <$> items)) = true.
Proof.
  induction 1 as [|kv items Hv Hok IH]; [done|].
  pose proof (all_chars_impl _ _ _ printable_plain (json_item_printable kv Hv)) as Hkv.
  destruct items as [|kv' items]; [done|].
  rewrite fmap_cons, concat_cons, !all_chars_app by done. by rewrite Hkv, IH.
Qed.

Lemma json_dumps_plain p : params_ok p -> all_chars plain (json_dumps p) = true.
Proof.
  destruct p as [m|]; [|done]. intros Hm%sorted_items_ok. unfold json_dumps.
  destruct (sorted_items m) as [|kv items]; [done|].
  rewrite !all_chars_app. by rewrite json_items_plain.
Qed.

(** A text that ends inside a string is refused. *)
Lemma json_loads_open_string s buf acc :
  lex_run s Start [] = Some (InStr buf, acc) -> json_loads s = Raise ValueError.
Proof. intros Hs. unfold json_loads, json_lex. by rewrite Hs. Qed.

End Roundtrip.

(** C30: the design's round trip of the hyper-parameter file. When the
    hyper-parameters have distinct names and every float among them prints
    as a number that [float] reads back, the text that
    [json.dump(self.params, fp, indent=4, sort_keys=True)] writes is read
    by [json.load] as the same hyper-parameters, [None] included. *)
Theorem params_text_roundtrip `{Env} (p : option Params) :
  Inj (=) (=) key_name -> params_ok p -> json_loads (json_dumps p) = Ok p.
Proof. intros Hnames Hp. by apply json_loads_dumps. Qed.

(** ** On the small environment *)

Definition small_params : Params :=
  {[ MODEL_NAME := PStr "lm"; LR := PFloat (Q2Qc (1 # 2)); EPOCHS := PInt (-20);
     VOCAB_SIZE := PInt 5 ]}.

Lemma toy_names : Inj (=) (=) toy_key_name.
Proof. intros k1 k2 Hk. by destruct k1, k2. Qed.

Lemma small_params_ok : @params_ok toy_env (Some small_params).
Proof.
  intros k v Hk. by destruct k; vm_compute in Hk; try done; injection Hk as <-.
Qed.

Lemma params_text_roundtrip_witness :
  @json_loads toy_env (@json_dumps toy_env (Some small_params)) = Ok (Some small_params).
Proof. exact (@params_text_roundtrip toy_env _ toy_names small_params_ok). Defined.

(** The text of the small hyper-parameters, and two texts that are refused. *)
Lemma small_params_text :
  @json_dumps toy_env (Some small_params)
  = "{" ++ nl ++ "    " ++ json_string "epochs" ++ ": -20," ++ nl
    ++ "    " ++ json_string "lr" ++ ": 0.5," ++ nl
    ++ "    " ++ json_string "model_name" ++ ": " ++ json_string "lm" ++ "," ++ nl
    ++ "    " ++ json_string "vocab_size" ++ ": 5" ++ nl ++ "}".
Proof. by vm_compute. Qed.

Lemma json_loads_refused :
  @json_loads toy_env "{" = Raise ValueError /\
  @json_loads toy_env ("{" ++ json_string "epochs" ++ ": 01}") = Raise ValueError /\
  @json_loads toy_env ("{" ++ json_string "batch" ++ ": 1}") = Raise ValueError.
Proof. by vm_compute. Qed.

(** The grammar of numbers on some texts. *)
Lemma json_number_samples :
  Forall (fun s => json_number s = true) ["0"; "-0"; "12"; "0.5"; "-1.25e+10"; "1E5"; "1e-05"] /\
  Forall (fun s => json_number s = false) [""; "-"; "01"; "1."; ".5"; "+1"; "1e"; "1e+"; "0x10"].
Proof. split; repeat constructor. Qed.
