(* ===== verification/Trainer.v ===== *)
(** * The trainer

    Models the class [Trainer] of [src/language_models/trainer.py] and the
    helpers [_set_random_seeds], [_var] and [_print_info].

    The trainer object is the record [Trainer]; what it acts on is the record
    [World]: the store of networks (a network is shared between the object in
    [self.model] and the optimiser built from its parameters), the two random
    generators, the clock, the file system, the console and the log of calls
    to the network. A method is a computation in [Exn State]; an exception
    leaves the state as the method had changed it so far.

    The tensor library is the interface [Backend]: every theorem holds for
    any implementation of it. This file holds the definitions, the rules of
    the postcondition calculus for the trainer's accessors and the tactics
    that walk through a method; the theorems are in [Training], [Batch],
    [Evaluation], [Construction], [Invariants] and [Loop]. *)

From Stdlib Require Import ZArith QArith Qcanon.
From stdpp Require Import prelude strings gmap.
From S2P Require Import Prelude Tensor Loss PyData Checkpoint.

(** ** The tensor library *)

(** A pseudo-random generator: its seed and the number of draws made. *)
Record Rng : Type := mkRng { rng_seed : Z; rng_draws : nat }.

(** The arguments of one call of the network. *)
Record ForwardArgs : Type := mkArgs {
  fa_question : option Tensor;
  fa_reviews : option (list Value);  (* the items a lazy [map(_var, ...)] will convert *)
  fa_answers : Tensor;
  fa_teacher_forcing : bool;
}.

Class Backend : Type := {
  Num : Type;                       (* loss values *)
  Num_ops :: LossNum Num;
  Row : Type;                       (* one row of an output step *)
  Weights : Type;                   (* the parameters of a network *)
  Grad : Type;                      (* a gradient for them *)
  Vocab : Type;
  (* [LM(vocab_size, hdim, output_max_len, h_layers, dropout)] *)
  lm_new : PVal -> PVal -> PVal -> PVal -> PVal -> Rng -> Res Weights * Rng;
  (* the next value of [np.random.random()] *)
  np_random : Rng -> Qc;
  (* [torch.LongTensor(v)] for a [Variable] [v] *)
  long_tensor_of_var : Tensor -> Res Tensor;
  (* the forward pass, which may draw from torch's generator *)
  forward : Weights -> ForwardArgs -> Rng -> Res (list (list Row)) * Rng;
  (* [nn.NLLLoss()] on a selection of outputs and on targets taken from a
     tensor of the given type *)
  criterion : DType -> list Row -> list Z -> Res Num;
  (* the gradient [loss.backward()] adds, for the loss of one batch *)
  loss_grad : Weights -> ForwardArgs -> list Z -> Tensor -> Grad;
  grad_zero : Grad;
  grad_add : Grad -> Grad -> Grad;
  (* one step of [optim.SGD] with learning rate [lr] *)
  sgd_step : PVal -> Weights -> Grad -> Res Weights;
}.

Section Trainer.
Context `{Env} `{Backend}.

(** ** State *)

(** A network in the store: its parameters, the gradient accumulated on them
    ([None] until the first [backward]) and whether [cuda()] moved it. *)
Record Net : Type := mkNet {
  net_weights : Weights;
  net_grad : option Grad;
  net_cuda : bool;
}.

(** [optim.SGD(net.parameters(), lr=lr)]. *)
Record Optimizer : Type := mkOpt { opt_net : NetId; opt_lr : PVal }.

(** The attributes of a [Trainer]. *)
Record Trainer : Type := mkTrainer {
  save_model_every : Z;
  print_every : Z;
  params : option Params;
  dataloader : list PyVal;
  vocab : option Vocab;
  model : PyObj;
  loss : list Num;
  perplexity : list Num;
  optimizer : option Optimizer;
  vocabs : option Vocab;
}.

Record World : Type := mkWorld {
  nets : gmap NetId Net;
  np_rng : Rng;
  torch_rng : Rng;
  now : DateTime;
  fs : FS Weights (option Vocab);
  console : list (LogLine Num);
  calls : list (NetId * ForwardArgs);
}.

Record State : Type := mkState { self : Trainer; world : World }.

Definition set_model (m : PyObj) (t : Trainer) : Trainer :=
  mkTrainer (save_model_every t) (print_every t) (params t) (dataloader t)
    (vocab t) m (loss t) (perplexity t) (optimizer t) (vocabs t).

Definition set_params (p : option Params) (t : Trainer) : Trainer :=
  mkTrainer (save_model_every t) (print_every t) p (dataloader t)
    (vocab t) (model t) (loss t) (perplexity t) (optimizer t) (vocabs t).

Definition set_optimizer (o : option Optimizer) (t : Trainer) : Trainer :=
  mkTrainer (save_model_every t) (print_every t) (params t) (dataloader t)
    (vocab t) (model t) (loss t) (perplexity t) o (vocabs t).

Definition set_loss (l : list Num) (t : Trainer) : Trainer :=
  mkTrainer (save_model_every t) (print_every t) (params t) (dataloader t)
    (vocab t) (model t) l (perplexity t) (optimizer t) (vocabs t).

Definition set_perplexity (l : list Num) (t : Trainer) : Trainer :=
  mkTrainer (save_model_every t) (print_every t) (params t) (dataloader t)
    (vocab t) (model t) (loss t) l (optimizer t) (vocabs t).

Definition set_nets (n : gmap NetId Net) (w : World) : World :=
  mkWorld n (np_rng w) (torch_rng w) (now w) (fs w) (console w) (calls w).

Definition set_np_rng (r : Rng) (w : World) : World :=
  mkWorld (nets w) r (torch_rng w) (now w) (fs w) (console w) (calls w).

Definition set_torch_rng (r : Rng) (w : World) : World :=
  mkWorld (nets w) (np_rng w) r (now w) (fs w) (console w) (calls w).

Definition set_fs (f : FS Weights (option Vocab)) (w : World) : World :=
  mkWorld (nets w) (np_rng w) (torch_rng w) (now w) f (console w) (calls w).

Definition set_console (c : list (LogLine Num)) (w : World) : World :=
  mkWorld (nets w) (np_rng w) (torch_rng w) (now w) (fs w) c (calls w).

Definition set_calls (c : list (NetId * ForwardArgs)) (w : World) : World :=
  mkWorld (nets w) (np_rng w) (torch_rng w) (now w) (fs w) (console w) c.

Definition on_self (f : Trainer -> Trainer) : Exn State unit :=
  exn_modify (fun s => mkState (f (self s)) (world s)).

Definition on_world (f : World -> World) : Exn State unit :=
  exn_modify (fun s => mkState (self s) (f (world s))).

(** A computation on the world alone, run inside a method. *)
Definition in_world {A} (m : Exn World A) : Exn State A := fun s =>
  let '(r, w) := m (world s) in (r, mkState (self s) w).

(** [print(fmt, arg)]. *)
Definition print (fmt : string) (arg : LogArg Num) : Exn World unit :=
  exn_modify (fun w => set_console (console w ++ [mkLog fmt arg]) w).

(** ** Module-level helpers *)

Definition _set_random_seeds (seed : Z) : Exn World unit :=
  exn_modify (set_np_rng (mkRng seed 0)) ;;;
  exn_modify (set_torch_rng (mkRng seed 0)).

Definition _var (variable : Value) : Res Tensor :=
  let dtype := if USE_CUDA then CudaFloatTensor else FloatTensor in
  t <- match variable with
       | Data v => m <- as_matrix v ;; long_tensor m
       | VarOf t => long_tensor_of_var t
       end ;;
  Ok (tensor_type t dtype).

Definition _print_info (epoch : Z) (losses perplexities : list Num) (corpus : string)
  : Exn World unit :=
  print "Epoch = %d, [%s] Loss = %.2f"
    (ATuple [AInt epoch; AStr corpus; ANum (lmean losses)]) ;;;
  print "Epoch = %d, [%s] Perplexity = %.2f"
    (ATuple [AInt epoch; AStr corpus; ANum (lmean perplexities)]).

(** ** Actions on the store of networks *)

Definition get_self {A} (f : Trainer -> A) : Exn State A :=
  exn_gets (fun s => f (self s)).

Definition get_world {A} (f : World -> A) : Exn State A :=
  exn_gets (fun s => f (world s)).

Definition in_fs {A} (m : Exn (FS Weights (option Vocab)) A) : Exn State A :=
  in_world (fun w => let '(r, f) := m (fs w) in (r, set_fs f w)).

(** The network an identifier denotes; an identifier the store does not hold
    is excluded by [wf_state] of the file [Invariants]. *)
Definition net_of (n : NetId) : Exn State Net := fun s =>
  (of_option AttributeError (nets (world s) !! n), s).

Definition update_net (n : NetId) (f : Net -> Net) : Exn State unit :=
  on_world (fun w => set_nets (alter f n (nets w)) w).

(** [LM(...)]: a new network with freshly initialised parameters. *)
Definition lm_alloc (vocab_size hdim output_max_len h_layers dropout : PVal)
  : Exn World NetId := fun w =>
  match lm_new vocab_size hdim output_max_len h_layers dropout (torch_rng w) with
  | (Ok wts, r) =>
      let n := fresh (dom (nets w)) in
      (Ok n, set_nets (<[n := mkNet wts None false]> (nets w)) (set_torch_rng r w))
  | (Raise e, r) => (Raise e, set_torch_rng r w)
  end.

(** [module.cuda()]: moves the network and returns the same object. *)
Definition cuda (n : NetId) : Exn World unit :=
  exn_modify (fun w =>
    set_nets (alter (fun net => mkNet (net_weights net) (net_grad net) true) n (nets w)) w).

(** [optimizer.zero_grad()]: gradients that exist are zeroed. *)
Definition zero_grad (o : Optimizer) : Exn State unit :=
  update_net (opt_net o) (fun net =>
    mkNet (net_weights net) ((fun _ => grad_zero) <$> net_grad net) (net_cuda net)).

(** [self.model(question, reviews, answers, teacher_forcing)]. *)
Definition call_model (args : ForwardArgs) : Exn State (NetId * list (list Row)) :=
  m <~ get_self model ;;
  n <~ exn_lift (obj_call m) ;;
  net <~ net_of n ;;
  on_world (fun w => set_calls (calls w ++ [(n, args)]) w) ;;;
  r <~ get_world torch_rng ;;
  let '(out, r') := forward (net_weights net) args r in
  on_world (set_torch_rng r') ;;;
  outputs <~ exn_lift out ;;
  exn_ret (n, outputs).

(** [loss.backward()]: the gradient of this batch is added to the gradient of
    the network that produced the outputs; a plain number has no such
    method. *)
Definition backward (l : Loss Num) (n : NetId) (args : ForwardArgs)
    (lens : list Z) (targets : Tensor) : Exn State unit :=
  match l with
  | PyZero => exn_raise AttributeError
  | Var _ =>
      update_net n (fun net =>
        let g := loss_grad (net_weights net) args lens targets in
        mkNet (net_weights net)
          (Some (match net_grad net with None => g | Some g0 => grad_add g0 g end))
          (net_cuda net))
  end.

(** [optimizer.step()]: parameters without a gradient are left alone. *)
Definition step (o : Optimizer) : Exn State unit :=
  net <~ net_of (opt_net o) ;;
  match net_grad net with
  | None => exn_ret tt
  | Some g =>
      w' <~ exn_lift (sgd_step (opt_lr o) (net_weights net) g) ;;
      update_net (opt_net o) (fun net => mkNet w' (net_grad net) (net_cuda net))
  end.

(** [loss.data[0]]. *)
Definition loss_data (l : Loss Num) : Res Num :=
  match l with
  | PyZero => Raise AttributeError
  | Var t => Ok t
  end.

(** [np.random.random()]. *)
Definition random : Exn State Qc :=
  r <~ get_world np_rng ;;
  on_world (set_np_rng (mkRng (rng_seed r) (S (rng_draws r)))) ;;;
  exn_ret (np_random r).

(** ** Methods *)

Definition __init__ (dataloader0 : list PyVal) (params0 : option Params)
    (random_seed save_model_every0 print_every0 : Z)
    (dev_loader : option (list PyVal)) (vocab0 : option Vocab) : Exn World Trainer :=
  _set_random_seeds random_seed ;;;
  vocab_size <~ exn_lift (params_get params0 VOCAB_SIZE) ;;
  hdim <~ exn_lift (params_get params0 HDIM) ;;
  output_max_len <~ exn_lift (params_get params0 OUTPUT_MAX_LEN) ;;
  h_layers <~ exn_lift (params_get params0 H_LAYERS) ;;
  dropout <~ exn_lift (params_get params0 DROPOUT) ;;
  n <~ lm_alloc vocab_size hdim output_max_len h_layers dropout ;;
  (if USE_CUDA then cuda n else exn_ret tt) ;;;
  let t := mkTrainer save_model_every0 print_every0 params0 dataloader0 vocab0
             (py_module n) [] [] None None in
  let t := set_model py_none t in
  let t := set_optimizer None t in
  let t := set_params None t in
  exn_ret t.

Definition _set_optimizer (lr_decay : PVal) : Exn State unit :=
  m <~ get_self model ;;
  n <~ exn_lift (obj_attr m) ;;
  p <~ get_self params ;;
  lr <~ exn_lift (params_get p LR) ;;
  lr' <~ exn_lift (py_mul lr lr_decay) ;;
  on_self (set_optimizer (Some (mkOpt n lr'))).

Definition train_batch (quesion_seqs review_seqs answer_seqs answer_lengths : PyVal)
  : Exn State Num :=
  o <~ get_self optimizer ;;
  opt <~ exn_lift (of_option AttributeError o) ;;
  zero_grad opt ;;;
  answer_seqs' <~ exn_lift (_var (Data answer_seqs)) ;;
  m <~ get_self model ;;
  quesion_seqs' <~ (if obj_eq m LM_ANSWERS then exn_ret None
                    else exn_lift (res_map Some (_var (Data quesion_seqs)))) ;;
  review_seqs' <~ (if obj_eq m LM_QUESTION_ANSWERS_REVIEWS
                   then exn_lift (res_map (fun l => Some (Data <$> l)) (as_seq review_seqs))
                   else exn_ret None) ;;
  target_seqs <~ exn_lift (_var (VarOf answer_seqs')) ;;
  x <~ random ;;
  p <~ get_self params ;;
  ratio <~ exn_lift (params_get p TEACHER_FORCING_RATIO) ;;
  teacher_forcing <~ exn_lift (float_lt x ratio) ;;
  let args := mkArgs quesion_seqs' review_seqs' answer_seqs' teacher_forcing in
  call <~ call_model args ;;
  let n := fst call in
  let outputs := snd call in
  lens <~ exn_lift (as_int_list answer_lengths) ;;
  l <~ exn_lift (_batch_loss (criterion (t_dtype target_seqs)) outputs lens
                  (t_rows target_seqs)) ;;
  backward l n args lens target_seqs ;;;
  step opt ;;;
  exn_lift (loss_data l).

(** [fmt & (a, b)]: strings have no [&]. *)
Definition str_and_tuple (fmt a b : string) : Res string := Raise TypeError.

(** The three writes of [save_model]: the weights of the network with
    [torch.save], the hyper-parameters with [json.dump], the vocabulary with
    [pickle.dump]. *)
Definition write_checkpoint (model_filename params_filename vocab_filename : string)
  : Exn State unit :=
  m <~ get_self model ;;
  n <~ exn_lift (obj_attr m) ;;
  net <~ net_of n ;;
  in_fs (write_file model_filename (ModelFile (net_weights net))) ;;;
  p <~ get_self params ;;
  in_fs (write_file params_filename (ParamsFile p)) ;;;
  v <~ get_self vocab ;;
  in_fs (write_file vocab_filename (VocabFile v)).

Definition save_model : Exn State unit :=
  time <~ get_world now ;;
  p <~ get_self params ;;
  save_dir <~ exn_lift (_save_dir p time) ;;
  in_fs (_ensure_path save_dir) ;;;
  let model_filename := fmt_path save_dir SAVED_MODEL_FILENAME in
  let params_filename := fmt_path save_dir SAVED_PARAMS_FILENAME in
  vocab_filename <~ exn_lift (str_and_tuple "%s/%s" save_dir SAVED_VOCAB_FILENAME) ;;
  write_checkpoint model_filename params_filename vocab_filename.

(** The local variables the two loops assign by unpacking a batch; [None] is
    a variable not yet bound. *)
Record Locals : Type := mkLocals {
  answer_seqs : option PyVal;
  answer_lengths : option PyVal;
  quesion_seqs : option PyVal;
  review_seqs : option PyVal;
}.

Definition no_locals : Locals := mkLocals None None None None.

(** Reading a local variable. *)
Definition local (v : option PyVal) : Res PyVal := of_option UnboundLocalError v.

(** The [if]/[elif] chain that unpacks a batch; its third test repeats the
    second, and the [else] raises a string, which is a [TypeError]. *)
Definition dispatch (m : PyObj) (inputs : PyVal) (loc : Locals) : Res Locals :=
  if obj_eq m LM_ANSWERS then
    al <- unpack2 inputs ;;
    Ok (mkLocals (Some (fst al)) (Some (snd al)) (quesion_seqs loc) (review_seqs loc))
  else if obj_eq m LM_QUESTION_ANSWERS then
    xq <- unpack2 inputs ;;
    al <- unpack2 (fst xq) ;;
    Ok (mkLocals (Some (fst al)) (Some (snd al)) (Some (snd xq)) (review_seqs loc))
  else if obj_eq m LM_QUESTION_ANSWERS then
    xqr <- unpack3 inputs ;;
    al <- unpack2 (fst (fst xqr)) ;;
    Ok (mkLocals (Some (fst al)) (Some (snd al)) (Some (snd (fst xqr))) (Some (snd xqr)))
  else Raise TypeError.

(** The two progress lines of a batch. *)
Definition print_progress (fmt_loss fmt_perplexity : string) (batch_itr : Z)
    (l p : Res Num) : Exn State unit :=
  l' <~ exn_lift l ;;
  in_world (print fmt_loss (ATuple [AInt batch_itr; ANum l'])) ;;;
  p' <~ exn_lift p ;;
  in_world (print fmt_perplexity (ATuple [AInt batch_itr; ANum p'])).

(** One iteration of the inner loop of [train]. *)
Definition train_step (loc : Locals) (item : Z * PyVal) : Exn State Locals :=
  let '(batch_itr, inputs) := item in
  m <~ get_self model ;;
  loc' <~ exn_lift (dispatch m inputs loc) ;;
  q <~ exn_lift (local (quesion_seqs loc')) ;;
  r <~ exn_lift (local (review_seqs loc')) ;;
  a <~ exn_lift (local (answer_seqs loc')) ;;
  l <~ exn_lift (local (answer_lengths loc')) ;;
  loss0 <~ train_batch q r a l ;;
  ls <~ get_self loss ;;
  on_self (set_loss (ls ++ [loss0])) ;;;
  ps <~ get_self perplexity ;;
  on_self (set_perplexity (ps ++ [_perplexity_from_loss loss0])) ;;;
  pe <~ get_self print_every ;;
  rem <~ exn_lift (py_mod batch_itr pe) ;;
  (if decide (rem = 0%Z) then
     ls' <~ get_self loss ;;
     ps' <~ get_self perplexity ;;
     print_progress "Loss at batch %d = %.2f" "Perplexity at batch %d = %.2f"
       batch_itr (py_index ls' (-1)) (py_index ps' (-1))
   else exn_ret tt) ;;;
  exn_ret loc'.

(** One iteration of the outer loop of [train]. *)
Definition train_epoch (loc : Locals) (epoch : Z) : Exn State Locals :=
  in_world (print "Epoch: %d" (AInt epoch)) ;;;
  dl <~ get_self dataloader ;;
  loc' <~ exn_fold (py_enumerate dl) train_step loc ;;
  sme <~ get_self save_model_every ;;
  rem <~ exn_lift (py_mod epoch sme) ;;
  (if decide (rem = 0%Z) then save_model else exn_ret tt) ;;;
  p <~ get_self params ;;
  start <~ exn_lift (params_get p DECAY_START_EPOCH) ;;
  (if int_eq epoch start then
     p' <~ get_self params ;;
     decay <~ exn_lift (params_get p' LR_DECAY) ;;
     _set_optimizer decay ;;;
     on_self (set_optimizer None)
   else exn_ret tt) ;;;
  exn_ret loc'.

Definition train : Exn State unit :=
  _set_optimizer (PFloat 1) ;;;
  p <~ get_self params ;;
  e <~ exn_lift (params_get p EPOCHS) ;;
  epochs <~ exn_lift (range_arg e) ;;
  exn_fold (py_range epochs) train_epoch no_locals ;;;
  exn_ret tt.

(** The local variables of [eval]. *)
Record EvalLocals : Type := mkEval {
  e_locals : Locals;
  dev_losses : list Num;
  dev_perplexities : list Num;
}.

(** One iteration of the loop of [eval]. *)
Definition eval_step (st : EvalLocals) (item : Z * PyVal) : Exn State EvalLocals :=
  let '(batch_itr, inputs) := item in
  m <~ get_self model ;;
  loc <~ exn_lift (dispatch m inputs (e_locals st)) ;;
  a0 <~ exn_lift (local (answer_seqs loc)) ;;
  a <~ exn_lift (_var (Data a0)) ;;
  q <~ (if obj_eq m LM_ANSWERS then exn_ret None
        else q0 <~ exn_lift (local (quesion_seqs loc)) ;;
             exn_lift (res_map Some (_var (Data q0)))) ;;
  r <~ (if obj_eq m LM_QUESTION_ANSWERS_REVIEWS
        then r0 <~ exn_lift (local (review_seqs loc)) ;;
             exn_lift (res_map (fun l => Some (Data <$> l)) (as_seq r0))
        else exn_ret None) ;;
  target_seqs <~ exn_lift (_var (VarOf a)) ;;
  call <~ call_model (mkArgs q r a false) ;;
  l0 <~ exn_lift (local (answer_lengths loc)) ;;
  lens <~ exn_lift (as_int_list l0) ;;
  dev_loss <~ exn_lift (_batch_loss (criterion (t_dtype target_seqs)) (snd call) lens
                         (t_rows target_seqs)) ;;
  d <~ exn_lift (loss_data dev_loss) ;;
  let losses := dev_losses st ++ [d] in
  let perplexities := dev_perplexities st ++ [_perplexity_from_loss d] in
  pe <~ get_self print_every ;;
  rem <~ exn_lift (py_mod batch_itr pe) ;;
  (if decide (rem = 0%Z) then
     print_progress "[Dev] Loss at batch %d = %.2f" "[Dev] Perplexity at batch %d = %.2f"
       batch_itr (loss_data dev_loss) (py_index perplexities (-1))
   else exn_ret tt) ;;;
  exn_ret (mkEval loc losses perplexities).

Definition eval : Exn State unit :=
  dl <~ get_self dataloader ;;
  st <~ exn_fold (py_enumerate dl) eval_step (mkEval no_locals [] []) ;;
  in_world (_print_info 1 (dev_losses st) (dev_perplexities st) "Development").

End Trainer.

(** ** Reasoning about methods *)

Section TrainerFacts.
Context `{Env} `{Backend}.
Implicit Types (s : State) (loc : Locals) (m : PyObj).

Lemma wp_in_world {A} (c : Exn World A) (Q : Res A -> State -> Prop) s :
  wp c (fun r w => Q r (mkState (self s) w)) (world s) -> wp (in_world c) Q s.
Proof. unfold wp, in_world. by destruct (c (world s)). Qed.

Lemma wp_in_fs {A} (c : Exn (FS Weights (option Vocab)) A) (Q : Res A -> State -> Prop) s :
  wp c (fun r f => Q r (mkState (self s) (set_fs f (world s)))) (fs (world s)) ->
  wp (in_fs c) Q s.
Proof. unfold wp, in_fs, in_world. by destruct (c (fs (world s))). Qed.

Lemma wp_net_of n (Q : Res Net -> State -> Prop) s :
  Q (of_option AttributeError (nets (world s) !! n)) s -> wp (net_of n) Q s.
Proof. done. Qed.

Lemma wp_update_net n f (Q : Res unit -> State -> Prop) s :
  Q (Ok tt) (mkState (self s) (set_nets (alter f n (nets (world s))) (world s))) ->
  wp (update_net n f) Q s.
Proof. done. Qed.

End TrainerFacts.

(** One step through a method: the trainer's accessors, then the steps of
    the prelude. *)
Ltac tr_step :=
  lazymatch goal with
  | |- wp (in_world _) _ _ => apply wp_in_world
  | |- wp (in_fs _) _ _ => apply wp_in_fs
  | |- wp (get_self _) _ _ => apply wp_gets
  | |- wp (get_world _) _ _ => apply wp_gets
  | |- wp (on_self _) _ _ => apply wp_modify
  | |- wp (on_world _) _ _ => apply wp_modify
  | |- wp (print _ _) _ _ => apply wp_modify
  | |- wp (net_of _) _ _ => apply wp_net_of
  | |- wp (update_net _ _) _ _ => apply wp_update_net
  | |- wp (let '(_, _) := ?x in _) _ _ => destruct x
  | |- _ => wp_step
  end.

Ltac tr_run := repeat (tr_step; cbn beta).

(** Runs a method on a symbolic state: unfolds the monad and reduces the
    accessors applied to the states it builds. *)
Ltac tr_unfold :=
  cbv [exn_bind exn_ret exn_raise exn_get exn_gets exn_modify exn_lift
       get_self get_world on_self on_world in_world in_fs update_net net_of].

Ltac tr_simpl :=
  cbn [self world nets np_rng torch_rng now fs console calls
       save_model_every print_every params dataloader vocab model loss
       perplexity optimizer vocabs
       set_nets set_np_rng set_torch_rng set_calls set_fs set_console
       set_model set_params set_optimizer set_loss set_perplexity
       of_option res_map res_bind obj_eq obj_call obj_attr obj_net
       py_module py_none py_const opt_net opt_lr
       net_weights net_grad net_cuda fst snd fmap option_fmap option_map].
