(* ===== verification/Toy.v ===== *)
(** * A small instance

    An implementation of the interfaces [Env] and [Backend] small enough to
    run: weights and gradients are rationals, the loss is a term of [Sym],
    the network returns all-one rows. It gives the theorems of the other
    files concrete inputs on which their hypotheses hold. *)

From Stdlib Require Import ZArith QArith Qcanon.
From stdpp Require Import prelude strings gmap.
From S2P Require Import Prelude Tensor Loss PyData Checkpoint Trainer.

Definition toy_forward (w : Qc) (args : ForwardArgs) (r : Rng)
  : Res (list (list Z)) * Rng :=
  let B := length (t_rows (fa_answers args)) in
  (Ok (replicate B (replicate B 1%Z)), mkRng (rng_seed r) (S (rng_draws r))).

Definition toy_sgd (lr : PVal) (w g : Qc) : Res Qc :=
  match lr with
  | PInt z => Ok (w - Qc_of_Z z * g)%Qc
  | PFloat q => Ok (w - q * g)%Qc
  | PStr _ => Raise TypeError
  end.

Definition toy_backend : Backend := {|
  Num := Sym; Row := Z; Weights := Qc; Grad := Qc; Vocab := list string;
  lm_new := fun _ _ _ _ _ r => (Ok (Qc_of_Z 0), mkRng (rng_seed r) (S (rng_draws r)));
  np_random := fun r => Q2Qc (1 # Pos.of_succ_nat (S (rng_draws r)));
  long_tensor_of_var := fun t => Ok t;
  forward := toy_forward;
  criterion := fun _ => score_sum;
  loss_grad := fun w args lens tg => Qc_of_Z (Z.of_nat (length lens));
  grad_zero := Qc_of_Z 0;
  grad_add := Qcplus;
  sgd_step := toy_sgd;
|}.

#[local] Existing Instance toy_env.
#[local] Existing Instance toy_backend.

Definition toy_params : Params :=
  {[ VOCAB_SIZE := PInt 5; HDIM := PInt 4; OUTPUT_MAX_LEN := PInt 2;
     H_LAYERS := PInt 1; DROPOUT := PFloat (Q2Qc (1 # 10));
     TEACHER_FORCING_RATIO := PFloat (Q2Qc (3 # 4)); LR := PFloat (Q2Qc (1 # 2));
     EPOCHS := PInt 2; MODEL_NAME := PStr "lm";
     DECAY_START_EPOCH := PInt 1; LR_DECAY := PFloat (Q2Qc (1 # 2)) ]}.

Definition toy_q : PyVal := of_matrix [[1; 2]; [3; 4]]%Z.
Definition toy_a : PyVal := of_matrix [[0; 1]; [1; 0]]%Z.
Definition toy_l : PyVal := of_int_list [2; 1]%Z.

Definition toy_loader : list PyVal := [VTuple [toy_a; toy_l]].

Definition toy_trainer : Trainer :=
  mkTrainer 1 1 (Some toy_params) toy_loader None (py_module 0) [] []
    (Some (mkOpt 0%nat (PFloat (Q2Qc (1 # 2))))) None.

Definition toy_world : World :=
  mkWorld {[0%nat := mkNet (Qc_of_Z 1) None false]} (mkRng 1 0) (mkRng 1 0)
    (mkTime 2018 3 7 9 5 0) fs_empty [] [].

Definition toy_state : State := mkState toy_trainer toy_world.
