(* ===== verification/Conversion.v ===== *)
(** * The conversion to tensors

    [_var] of [src/language_models/trainer.py] at the widths of the machine:
    [torch.LongTensor] refuses an integer that does not fit in 64 bits, and
    the cast to a float tensor rounds every entry to single precision, which
    is exact up to 24 bits and merges larger integers. *)

From Stdlib Require Import ZArith QArith Qcanon.
From stdpp Require Import prelude strings gmap.
From S2P Require Import Prelude Machine Tensor Loss PyData Checkpoint Trainer Toy.

(** Data whose entries fit in 64 bits, and its rows after the cast to
    single precision. *)
Definition fits_int64 (m : list (list Z)) : Prop :=
  entries (fun z => in_int64 z = true) m.

Definition float_rows (m : list (list Z)) : list (list Z) :=
  (fun row : list Z => float32_of_int <$> row) <$> m.

Section Conversion.
Context `{Env} `{Backend}.
Implicit Types (m : list (list Z)).

(** [_var] on a rectangular list of lists of 64-bit integers returns the
    tensor of these rows rounded to single precision, typed as a float
    tensor, on the GPU when [USE_CUDA]. *)
Lemma var_of_matrix m :
  rectangular m = true -> entries (fun z => in_int64 z = true) m ->
  _var (Data (of_matrix m))
  = Ok (tensor_type (mkTensor LongTensor m)
          (if USE_CUDA then CudaFloatTensor else FloatTensor)).
Proof.
  intros Hm Hi. unfold _var. rewrite (as_matrix_roundtrip m Hm). cbn [res_bind].
  by rewrite long_tensor_ok.
Qed.

(** Entries of at most 24 bits reach the tensor unchanged. *)
Lemma var_of_small_matrix m :
  rectangular m = true -> entries (fun z => Z.abs z < 2 ^ 24)%Z m ->
  _var (Data (of_matrix m))
  = Ok (mkTensor (if USE_CUDA then CudaFloatTensor else FloatTensor) m).
Proof.
  intros Hm Hs. rewrite var_of_matrix; [|done|].
  - unfold tensor_type. cbn [t_rows]. by rewrite cast_small.
  - eapply Forall_impl; [exact Hs|]. intros row Hrow.
    eapply Forall_impl; [exact Hrow|]. apply small_in_int64.
Qed.

(** An entry that does not fit in 64 bits makes [_var] raise. *)
Lemma var_overflow m :
  rectangular m = true -> ~ entries (fun z => in_int64 z = true) m ->
  _var (Data (of_matrix m)) = Raise RuntimeError.
Proof.
  intros Hm Hi. unfold _var. rewrite (as_matrix_roundtrip m Hm). cbn [res_bind].
  by rewrite long_tensor_overflow.
Qed.

(** What the cast makes of each entry, and how far it moves it. *)
Lemma tensor_type_float m dtype :
  dtype <> LongTensor ->
  let rows := t_rows (tensor_type (mkTensor LongTensor m) dtype) in
  rows = (fun row : list Z => float32_of_int <$> row) <$> m /\
  Forall2 (Forall2 (fun z y => 2 ^ 24 * Z.abs (y - z) <= Z.abs z)%Z) m rows.
Proof.
  intros Hd rows. assert (cast_entry dtype = float32_of_int) as Hc by by destruct dtype.
  unfold rows, tensor_type. cbn [t_rows]. rewrite Hc. split; [done|].
  apply Forall2_fmap_r, Forall_Forall2_diag, Forall_forall. intros row _.
  apply Forall2_fmap_r, Forall_Forall2_diag, Forall_forall. intros z _.
  apply float32_relative_error.
Qed.

End Conversion.

(** C25: an integer that does not fit in 64 bits cannot become a tensor:
    [_var] on rectangular data with such an entry raises [RuntimeError]. *)
Theorem var_int64_overflow `{Env} `{Backend} (m : list (list Z)) :
  rectangular m = true -> ~ fits_int64 m ->
  _var (Data (of_matrix m)) = Raise RuntimeError.
Proof. exact (var_overflow m). Qed.

(** C23: [_var] keeps integers to single precision. On rectangular data of
    64-bit integers it returns a tensor whose entries are those of the data
    rounded to the nearest single-precision number: each is within
    [2 ^ -24] of its value, and the data itself when every entry has at most
    24 bits. The bound is sharp: [2 ^ 24 + 1] becomes [2 ^ 24]. *)
Theorem var_single_precision `{Env} `{Backend} (m : list (list Z)) :
  rectangular m = true -> fits_int64 m ->
  exists t, _var (Data (of_matrix m)) = Ok t /\
    t_rows t = float_rows m /\
    Forall2 (Forall2 (fun z y => 2 ^ 24 * Z.abs (y - z) <= Z.abs z)%Z) m (t_rows t) /\
    (entries (fun z => Z.abs z < 2 ^ 24)%Z m -> t_rows t = m) /\
    float32_of_int (2 ^ 24 + 1) = (2 ^ 24)%Z.
Proof.
  intros Hm Hi. eexists. split; [by apply var_of_matrix|].
  destruct (tensor_type_float m (if USE_CUDA then CudaFloatTensor else FloatTensor))
    as [Hrows Herr]; [by destruct USE_CUDA|].
  split; [done|]. split; [done|]. split; [|done].
  intros Hs. unfold tensor_type. cbn [t_rows]. by apply cast_small.
Qed.

(** ** On the small instance *)

#[local] Existing Instance toy_env.
#[local] Existing Instance toy_backend.

Lemma var_int64_overflow_witness :
  _var (Data (of_matrix [[0; 2 ^ 63]]%Z)) = Raise RuntimeError.
Proof.
  apply var_int64_overflow; [done|].
  intros Hm. apply forallb_entries in Hm. by vm_compute in Hm.
Defined.

Lemma var_single_precision_witness :
  exists t, _var (Data (of_matrix [[0; 2 ^ 24 + 1]]%Z)) = Ok t /\
    t_rows t = [[0; 2 ^ 24]]%Z.
Proof.
  destruct (var_single_precision [[0; 2 ^ 24 + 1]]%Z) as (t & Ht & Hrows & _); [done| |].
  - apply forallb_entries. by vm_compute.
  - exists t. split; [done|]. rewrite Hrows. by vm_compute.
Defined.
