(* ===== verification/Console.v ===== *)
(** * Logging is write-only

    No method of [Trainer] of [src/language_models/trainer.py] reads what
    was printed: two states that differ only in the console give the same
    result, end in states that differ only in the console, and append the
    same lines. The property is a class ([Blind]) with one rule per
    operation of the monad, so that it is derived for a method by following
    its definition. *)

From Stdlib Require Import ZArith QArith Qcanon.
From stdpp Require Import prelude strings gmap.
From S2P Require Import Prelude Tensor Loss PyData Checkpoint Trainer Toy.

(** ** Computations that do not read the log *)

Section Blind.
Context {S L X : Type} (out : S -> list L) (rest : S -> X).
Implicit Types (s : S).

(** Two states that agree on everything but the log. *)
Definition alike s1 s2 : Prop := rest s1 = rest s2.

#[export] Instance alike_equiv : Equivalence alike.
Proof. unfold alike. split; [by intros ?|by intros ??|intros ???; congruence]. Qed.

(** Two runs from [s1] and [s2] ended alike: with the same result, in states
    that agree outside the log, having appended the same lines. *)
Definition ran_alike {A} s1 s2 (x1 x2 : Res A * S) : Prop :=
  fst x1 = fst x2 /\ alike (snd x1) (snd x2) /\
  exists o, out (snd x1) = out s1 ++ o /\ out (snd x2) = out s2 ++ o.

(** [m] does not read the log. *)
Class Blind {A} (m : Exn S A) : Prop :=
  blind : forall s1 s2, alike s1 s2 -> ran_alike s1 s2 (m s1) (m s2).

Lemma ran_alike_refl {A} s1 s2 (r : Res A) : alike s1 s2 -> ran_alike s1 s2 (r, s1) (r, s2).
Proof. intros Hs. do 2 (split; [done|]). exists []. by rewrite !app_nil_r. Qed.

#[export] Instance blind_ret {A} (a : A) : Blind (exn_ret a).
Proof. intros s1 s2. apply ran_alike_refl. Qed.

#[export] Instance blind_raise {A} e : Blind (@exn_raise S A e).
Proof. intros s1 s2. apply ran_alike_refl. Qed.

#[export] Instance blind_lift {A} (r : Res A) : Blind (exn_lift r).
Proof. intros s1 s2. apply ran_alike_refl. Qed.

Lemma blind_gets {A} (f : S -> A) :
  (forall s1 s2, alike s1 s2 -> f s1 = f s2) -> Blind (exn_gets f).
Proof. intros Hf s1 s2 Hs. unfold exn_gets. rewrite (Hf s1 s2 Hs). by apply ran_alike_refl. Qed.

(** A change of the state that keeps the log, or appends to it lines that do
    not depend on it. *)
Lemma blind_modify (f : S -> S) (o : X -> list L) :
  (forall s1 s2, alike s1 s2 -> alike (f s1) (f s2)) ->
  (forall s, out (f s) = out s ++ o (rest s)) -> Blind (exn_modify f).
Proof.
  intros Hf Ho s1 s2 Hs. split; [done|]. split; [by apply Hf|].
  exists (o (rest s1)). cbn. rewrite !Ho. by rewrite Hs.
Qed.

#[export] Instance blind_bind {A B} (m : Exn S A) (k : A -> Exn S B) :
  Blind m -> (forall a, Blind (k a)) -> Blind (exn_bind m k).
Proof.
  intros Hm Hk s1 s2 Hs. unfold exn_bind.
  destruct (Hm s1 s2 Hs) as (Hr & Hs' & o & Ho1 & Ho2).
  destruct (m s1) as [[a|e] s1'], (m s2) as [[a'|e'] s2']; simplify_eq/=.
  - destruct (Hk a' s1' s2' Hs') as (Hr' & Hs'' & o' & Ho1' & Ho2').
    do 2 (split; [done|]). exists (o ++ o'). rewrite Ho1', Ho2', Ho1, Ho2.
    by rewrite !app_assoc.
  - do 2 (split; [done|]). by exists o.
Qed.

#[export] Instance blind_fold {A Y} (l : list Y) (body : A -> Y -> Exn S A) a :
  (forall a y, Blind (body a y)) -> Blind (exn_fold l body a).
Proof.
  intros Hb. revert a. induction l as [|y l IH]; intros a; cbn [exn_fold]; apply _.
Qed.

(** Runs from states alike end alike: the relation a rewrite needs. *)
Definition ended_alike {A} (x1 x2 : Res A * S) : Prop :=
  fst x1 = fst x2 /\ alike (snd x1) (snd x2).

#[export] Instance ended_alike_equiv {A} : Equivalence (@ended_alike A).
Proof.
  unfold ended_alike. split; [by intros ?|by intros ?? [-> ->]|].
  intros x y z [-> ->] [-> ->]. done.
Qed.

#[export] Instance blind_proper {A} (m : Exn S A) `{!Blind m} :
  Proper (alike ==> ended_alike) m.
Proof. intros s1 s2 Hs. destruct (blind s1 s2 Hs) as (? & ? & _). by split. Qed.

End Blind.

(** ** The trainer *)

Section TrainerBlind.
Context `{Env} `{Backend}.
Implicit Types (s : State) (w : World).

(** A world and a state without their console. *)
Definition world_rest w : World := set_console [] w.
Definition state_rest s : Trainer * World := (self s, world_rest (world s)).
Definition state_out s : list (LogLine Num) := console (world s).

Lemma world_rest_eq w1 w2 :
  world_rest w1 = world_rest w2 <->
  nets w1 = nets w2 /\ np_rng w1 = np_rng w2 /\ torch_rng w1 = torch_rng w2 /\
  now w1 = now w2 /\ fs w1 = fs w2 /\ calls w1 = calls w2.
Proof.
  destruct w1, w2. unfold world_rest, set_console. cbn. split.
  - by intros [= -> -> -> -> -> ->].
  - by intros (-> & -> & -> & -> & -> & ->).
Qed.

Lemma state_alike s1 s2 :
  alike state_rest s1 s2 <-> self s1 = self s2 /\ alike world_rest (world s1) (world s2).
Proof.
  unfold alike, state_rest. split; [|intros [? ?]; by f_equal].
  intros Hs. split; [exact (f_equal fst Hs)|exact (f_equal snd Hs)].
Qed.

End TrainerBlind.

Abbreviation BlindW := (Blind console world_rest).
Abbreviation BlindS := (Blind state_out state_rest).

(** Closes the side conditions on a function of the world: it maps worlds
    alike to worlds alike, and keeps the console. *)
Ltac world_solve :=
  lazymatch goal with
  | |- forall w1 w2, alike world_rest w1 w2 -> alike world_rest _ _ =>
      let Hw := fresh in
      intros ? ? Hw; apply world_rest_eq in Hw as (? & ? & ? & ? & ? & ?);
      apply world_rest_eq; cbn; repeat split; congruence
  | |- forall w1 w2, alike world_rest w1 w2 -> _ = _ =>
      let Hw := fresh in
      intros ? ? Hw; apply world_rest_eq in Hw as (? & ? & ? & ? & ? & ?); congruence
  | |- forall w, console _ = _ => by intros []
  end.

Section Rules.
Context `{Env} `{Backend}.
Implicit Types (s : State) (w : World).

#[export] Instance blind_get_self {A} (f : Trainer -> A) : BlindS (get_self f).
Proof. apply blind_gets. by intros s1 s2 [-> _]%state_alike. Qed.

Lemma blind_get_world {A} (f : World -> A) :
  (forall w1 w2, alike world_rest w1 w2 -> f w1 = f w2) -> BlindS (get_world f).
Proof. intros Hf. apply blind_gets. intros s1 s2 [_ Hw]%state_alike. by apply Hf. Qed.

#[export] Instance blind_on_self (f : Trainer -> Trainer) : BlindS (on_self f).
Proof.
  apply (blind_modify _ _ _ (fun _ => [])).
  - intros s1 s2 [Hs Hw]%state_alike. apply state_alike. cbn. by rewrite Hs.
  - intros s. cbn. by rewrite app_nil_r.
Qed.

Lemma blind_on_world (f : World -> World) :
  (forall w1 w2, alike world_rest w1 w2 -> alike world_rest (f w1) (f w2)) ->
  (forall w, console (f w) = console w) -> BlindS (on_world f).
Proof.
  intros Hf Ho. apply (blind_modify _ _ _ (fun _ => [])).
  - intros s1 s2 [Hs Hw]%state_alike. apply state_alike. cbn. auto.
  - intros s. unfold state_out. cbn. by rewrite Ho, app_nil_r.
Qed.

#[export] Instance blind_in_world {A} (c : Exn World A) : BlindW c -> BlindS (in_world c).
Proof.
  intros Hc s1 s2 [Hs Hw]%state_alike. unfold in_world.
  destruct (Hc _ _ Hw) as (Hr & Hw' & o & Ho1 & Ho2).
  destruct (c (world s1)) as [r1 w1], (c (world s2)) as [r2 w2]. cbn in *.
  split; [done|]. split; [by apply state_alike|]. by exists o.
Qed.

#[export] Instance blind_print fmt arg : BlindW (print fmt arg).
Proof.
  apply (blind_modify _ _ _ (fun _ => [mkLog fmt arg])); [world_solve|by intros []].
Qed.

#[export] Instance blind_in_fs {A} (c : Exn (FS Weights (option Vocab)) A) :
  BlindS (in_fs c).
Proof.
  apply blind_in_world. intros w1 w2 Hw.
  apply world_rest_eq in Hw as (Hn & Hnp & Ht & Hnow & Hfs & Hc).
  rewrite Hfs. destruct (c (fs w2)) as [r f]. split; [done|].
  split; [by apply world_rest_eq|]. exists []. by rewrite !app_nil_r.
Qed.

#[export] Instance blind_net_of n : BlindS (net_of n).
Proof.
  intros s1 s2 Hs. unfold net_of. pose proof Hs as [_ Hw%world_rest_eq]%state_alike.
  destruct Hw as (-> & _). by apply ran_alike_refl.
Qed.

#[export] Instance blind_update_net n f : BlindS (update_net n f).
Proof. apply blind_on_world; world_solve. Qed.

End Rules.

(** One step through a definition: the rule of its head operation, a case
    distinction on the value a branch depends on, or a rule proved before. *)
Ltac blind_step :=
  lazymatch goal with
  | |- Blind _ _ (exn_bind _ _) => apply blind_bind; [|intros ?]
  | |- Blind _ _ (exn_fold _ _ _) => apply blind_fold; intros ? ?
  | |- Blind _ _ (get_world _) => apply blind_get_world; world_solve
  | |- Blind _ _ (on_world _) => apply blind_on_world; world_solve
  | |- Blind _ _ (exn_modify _) =>
      apply (blind_modify _ _ _ (fun _ => [])); [world_solve|intros []; symmetry; apply app_nil_r]
  | |- Blind _ _ (in_world _) => apply blind_in_world
  | |- Blind _ _ (if ?b then _ else _) => destruct b
  | |- Blind _ _ (match ?x with _ => _ end) => destruct x
  | |- Blind _ _ (let '(_, _) := ?x in _) => destruct x
  | |- Blind _ _ _ => exact _
  end.

Ltac blind_run := repeat blind_step.

Section Methods.
Context `{Env} `{Backend}.

#[export] Instance blind_random : BlindS random.
Proof. unfold random. blind_run. Qed.

#[export] Instance blind_zero_grad o : BlindS (zero_grad o).
Proof. unfold zero_grad. blind_run. Qed.

#[export] Instance blind_call_model args : BlindS (call_model args).
Proof. unfold call_model. blind_run. Qed.

#[export] Instance blind_backward l n args lens tg : BlindS (backward l n args lens tg).
Proof. unfold backward. blind_run. Qed.

#[export] Instance blind_step_opt o : BlindS (step o).
Proof. unfold step. blind_run. Qed.

#[export] Instance blind_set_optimizer d : BlindS (_set_optimizer d).
Proof. unfold _set_optimizer. blind_run. Qed.

#[export] Instance blind_train_batch q r a l : BlindS (train_batch q r a l).
Proof. unfold train_batch. blind_run. Qed.

#[export] Instance blind_write_checkpoint mf pf vf : BlindS (write_checkpoint mf pf vf).
Proof. unfold write_checkpoint. blind_run. Qed.

#[export] Instance blind_save_model : BlindS save_model.
Proof. unfold save_model. blind_run. Qed.

#[export] Instance blind_print_progress f1 f2 i l p : BlindS (print_progress f1 f2 i l p).
Proof. unfold print_progress. blind_run. Qed.

#[export] Instance blind_train_step loc item : BlindS (train_step loc item).
Proof. destruct item. unfold train_step. blind_run. Qed.

#[export] Instance blind_train_epoch loc epoch : BlindS (train_epoch loc epoch).
Proof. unfold train_epoch. blind_run. Qed.

#[export] Instance blind_train : BlindS train.
Proof. unfold train. blind_run. Qed.

#[export] Instance blind_print_info e ls ps c : BlindW (_print_info e ls ps c).
Proof. unfold _print_info. blind_run. Qed.

#[export] Instance blind_eval_step st item : BlindS (eval_step st item).
Proof. destruct item. unfold eval_step. blind_run. Qed.

#[export] Instance blind_eval : BlindS eval.
Proof. unfold eval. blind_run. Qed.

#[export] Instance blind_lm_alloc a b c d e : BlindW (lm_alloc a b c d e).
Proof.
  intros w1 w2 Hw. unfold lm_alloc.
  apply world_rest_eq in Hw as (Hn & Hnp & Ht & Hnow & Hfs & Hc). rewrite Hn, Ht.
  destruct (lm_new _ _ _ _ _ _) as [[wts|err] r]; (split; [done|]);
    (split; [apply world_rest_eq; cbn; by rewrite ?Hn|]); exists []; by rewrite !app_nil_r.
Qed.

#[export] Instance blind_cuda n : BlindW (cuda n).
Proof. unfold cuda. blind_run. Qed.

#[export] Instance blind_set_random_seeds seed : BlindW (_set_random_seeds seed).
Proof. unfold _set_random_seeds. blind_run. Qed.

#[export] Instance blind_init dl p seed sme pe dev v :
  BlindW (__init__ dl p seed sme pe dev v).
Proof. unfold __init__. blind_run. Qed.

End Methods.

Section Irrelevant.
Context `{Env} `{Backend}.
Implicit Types (s : State).

(** The state [s] with the console [c]. *)
Definition with_console (c : list (LogLine Num)) s : State :=
  mkState (self s) (set_console c (world s)).

Lemma with_console_alike c s : alike state_rest (with_console c s) s.
Proof. apply state_alike. split; [done|]. apply world_rest_eq. by destruct s as [t []]. Qed.

(** Whatever was printed before, a method that does not read the console
    ends in the same way. *)
Lemma console_irrelevant {A} (m : Exn State A) `{!BlindS m} c s :
  ended_alike state_rest (m (with_console c s)) (m s).
Proof. by rewrite (with_console_alike c s). Qed.

End Irrelevant.


(** ** On the small instance *)

#[local] Existing Instance toy_env.
#[local] Existing Instance toy_backend.

