(* ===== verification/Training.v ===== *)
(** * The training loop

    What [Trainer.train] of [src/language_models/trainer.py] does, with the
    methods it calls at the end of an epoch: [save_model] and
    [_set_optimizer], and the variant chain [dispatch] that unpacks a
    batch. No execution of [train] reaches [train_batch]. *)

From Stdlib Require Import ZArith QArith Qcanon.
From stdpp Require Import prelude strings gmap.
From S2P Require Import Prelude Tensor Loss PyData Checkpoint Trainer Toy.

(** ** [train] never trains *)

Section Untrained.
Context `{Env} `{Backend}.
Implicit Types (s : State) (loc : Locals) (m : PyObj).

(** [s'] differs from [s] at most in the optimiser, the console and the
    directories: the networks, the log of calls, the recorded losses, the
    generators and the files are those of [s], and an optimiser that is not
    that of [s] was built on the network of [self.model]. *)
Definition untrained s s' : Prop :=
  set_optimizer None (self s') = set_optimizer None (self s) /\
  nets (world s') = nets (world s) /\
  calls (world s') = calls (world s) /\
  np_rng (world s') = np_rng (world s) /\
  torch_rng (world s') = torch_rng (world s) /\
  fs_files (fs (world s')) = fs_files (fs (world s)) /\
  (optimizer (self s') = optimizer (self s) \/
   exists o, optimizer (self s') = Some o /\ obj_net (model (self s)) = Some (opt_net o)).

Definition raises_untrained {A} s : Res A -> State -> Prop :=
  fun r s' => is_ok r = false /\ untrained s s'.

Lemma untrained_refl s : untrained s s.
Proof. unfold untrained. by repeat split; try left. Qed.

Lemma untrained_trans s1 s2 s3 : untrained s1 s2 -> untrained s2 s3 -> untrained s1 s3.
Proof.
  unfold untrained. intros (Hs & -> & -> & -> & -> & -> & Ho) (-> & -> & -> & -> & -> & -> & Ho').
  repeat (split; [done|]).
  destruct Ho' as [->|(o & -> & Hm)]; [done|]. right. exists o. split; [done|].
  by rewrite <- (f_equal model Hs : model (self s2) = model (self s1)).
Qed.

(** A change of the world that keeps what [untrained] watches. *)
Lemma untrained_world s w :
  nets w = nets (world s) -> calls w = calls (world s) ->
  np_rng w = np_rng (world s) -> torch_rng w = torch_rng (world s) ->
  fs_files (fs w) = fs_files (fs (world s)) ->
  untrained s (mkState (self s) w).
Proof. intros. unfold untrained. by repeat split; try left. Qed.

Lemma untrained_optimizer s n lr :
  obj_net (model (self s)) = Some n ->
  untrained s (mkState (set_optimizer (Some (mkOpt n lr)) (self s)) (world s)).
Proof. intros Hn. unfold untrained. repeat (split; [done|]). right. by eexists. Qed.

(** Closes a goal [untrained s s'] or [raises_untrained s r s'] in which
    [s'] is [s] with its world changed. *)
Ltac untrained_done :=
  try done; try (split; [done|]);
  first [ apply untrained_refl | apply untrained_world; done ].

#[export] Instance untrained_preorder : PreOrder untrained.
Proof. split; [exact untrained_refl|exact untrained_trans]. Qed.

Lemma untrained_params s s' : untrained s s' -> params (self s') = params (self s).
Proof. intros [Hs _]. by apply (f_equal params) in Hs. Qed.

Lemma untrained_loss s s' :
  untrained s s' ->
  loss (self s') = loss (self s) /\ perplexity (self s') = perplexity (self s).
Proof.
  intros [Hs _]. split; [by apply (f_equal loss) in Hs|by apply (f_equal perplexity) in Hs].
Qed.

Lemma dispatch_reviews m inputs loc loc' :
  dispatch m inputs loc = Ok loc' -> review_seqs loc' = review_seqs loc.
Proof.
  unfold dispatch. destruct (obj_eq m LM_ANSWERS).
  { intros (al & _ & [= <-])%res_bind_ok. done. }
  destruct (obj_eq m LM_QUESTION_ANSWERS); [|done].
  intros (xq & _ & (al & _ & [= <-])%res_bind_ok)%res_bind_ok. done.
Qed.

(** An iteration of [train] stops before it calls [train_batch]. *)
Lemma train_step_stuck loc item s :
  review_seqs loc = None ->
  wp (train_step loc item) (fun r s' => s' = s /\ is_ok r = false) s.
Proof.
  intros Hr. destruct item as [batch_itr inputs]. unfold train_step.
  tr_run; try done. apply dispatch_reviews in E. rewrite E, Hr in *. done.
Qed.

Lemma train_loop_stuck l loc s :
  review_seqs loc = None ->
  wp (exn_fold l train_step loc)
     (fun r s' => s' = s /\ (r = Ok loc /\ l = [] \/ is_ok r = false)) s.
Proof.
  intros Hr. destruct l as [|x l]; [by split; [|left]|].
  simpl. apply wp_bind. eapply wp_mono; [by apply train_step_stuck|].
  intros [a|e] s' [-> Hok]; [done|]. by split; [|right].
Qed.

Lemma save_model_stuck s : wp save_model (raises_untrained s) s.
Proof.
  unfold save_model. do 7 tr_step; [|untrained_done]. do 2 tr_step.
  eapply wp_mono with (Q := fun r f => fs_files f = fs_files (fs (world s))).
  - unfold wp. destruct (_ensure_path a _) as [[[]|e] f] eqn:Ep; simpl.
    + by apply ensure_path_ok_inv in Ep as (_ & _ & ->).
    + by apply ensure_path_raise in Ep as [_ ->].
  - intros [[]|e] f Hf; [|untrained_done]. do 2 tr_step. untrained_done.
Qed.

Lemma save_model_self_wp s :
  wp save_model (fun _ s' => self s' = self s) s.
Proof.
  unfold save_model. do 7 tr_step; [|done]. do 2 tr_step. unfold wp at 1.
  destruct (_ensure_path a _) as [[[]|e] f]; [|done]. cbn [fst snd]. by do 2 tr_step.
Qed.

Lemma save_model_self s :
  self (snd (save_model s)) = self s.
Proof. pose proof (save_model_self_wp s) as Hw. unfold wp in Hw. exact Hw. Qed.

Lemma set_optimizer_untrained d s :
  wp (_set_optimizer d) (fun r s' => untrained s s') s.
Proof.
  unfold _set_optimizer, obj_attr. tr_run; try apply untrained_refl.
  apply untrained_optimizer. by destruct (obj_net _); simplify_eq/=.
Qed.

(** The first epoch never completes: a batch stops at the dispatch or at an
    unbound local variable, and without batches [save_model] raises. *)
Lemma train_epoch_0 loc s :
  review_seqs loc = None -> wp (train_epoch loc 0) (raises_untrained s) s.
Proof.
  intros Hr. unfold train_epoch. do 5 tr_step. tr_step.
  eapply wp_mono; [by apply train_loop_stuck|]. cbn beta.
  intros r s' [-> [[-> _]|Hok]]; [|destruct r; [done|untrained_done]].
  do 5 tr_step; [|untrained_done]. apply py_mod_0 in E as ->.
  tr_step. rewrite decide_True by done.
  eapply wp_mono; [apply save_model_stuck|].
  intros [[]|e] s' [Hok Hu]; [done|]. split; [done|].
  etrans; [|exact Hu]. untrained_done.
Qed.

Lemma train_wp s :
  wp train (fun r s' =>
    untrained s s' /\
    (r = Ok tt -> exists p n, params (self s) = Some p /\
       p !! EPOCHS = Some (PInt n) /\ (n <= 0)%Z)) s.
Proof.
  unfold train. tr_step. eapply wp_mono; [apply set_optimizer_untrained|].
  intros [[]|e] s1 Hu1; [|done]. cbn beta.
  pose proof (untrained_params _ _ Hu1) as Hp.
  tr_run; try done.
  destruct (params (self s1)) as [p|] eqn:Ep; [|done].
  destruct a as [n| |]; try done. simplify_eq/=.
  destruct (p !! EPOCHS) as [v|] eqn:Ev; simplify_eq/=.
  destruct (decide (0 < a0)%Z) as [Hn|Hn].
  - destruct (py_range_pos a0 Hn) as [l ->]. cbn [exn_fold]. tr_step.
    eapply wp_mono; [by apply train_epoch_0|].
    intros [loc|e] s' [Hok Hu]; [done|]. split; [|done].
    by eapply untrained_trans.
  - rewrite py_range_nonpos by lia. tr_run. split; [done|].
    intros _. exists p, a0. rewrite <- Hp. split; [done|]. split; [done|lia].
Qed.

(** [train] leaves the trainer as [_set_optimizer] with no decay leaves it. *)
Lemma train_epoch_0_self loc s :
  review_seqs loc = None -> wp (train_epoch loc 0) (fun _ s' => self s' = self s) s.
Proof.
  intros Hr. unfold train_epoch. do 5 tr_step. tr_step.
  eapply wp_mono; [by apply train_loop_stuck|]. cbn beta.
  intros r s' [-> [[-> _]|Hok]]; [|by destruct r].
  do 5 tr_step; [|done]. apply py_mod_0 in E as ->.
  tr_step. rewrite decide_True by done.
  eapply wp_mono; [apply (wp_and _ _ _ _ (save_model_stuck _) (save_model_self_wp _))|].
  by intros [[]|e] s' [[Hok _] Hs].
Qed.

Lemma train_self_wp s :
  wp train (fun _ s' => self s' = self (snd (_set_optimizer (PFloat 1) s))) s.
Proof.
  unfold train. tr_step. unfold wp at 1.
  destruct (_set_optimizer (PFloat 1) s) as [[[]|e] s1]; [|done]. cbn [fst snd].
  tr_run; try done.
  destruct (decide (0 < a0)%Z) as [Hn|Hn].
  - destruct (py_range_pos a0 Hn) as [l ->]. cbn [exn_fold]. tr_step.
    eapply wp_mono;
      [apply (wp_and _ _ _ _ (train_epoch_0 no_locals _ eq_refl)
                (train_epoch_0_self no_locals _ eq_refl))|].
    by intros [loc|e] s' [[Hok _] Hs].
  - rewrite py_range_nonpos by lia. by tr_run.
Qed.
End Untrained.

(** C1: [train] never trains. Whatever the trainer and its environment, it
    leaves the networks, the recorded losses, the log of calls to the model,
    the random generators and the files as they were, the trainer is the one
    [_set_optimizer] with no decay leaves, and [train] returns normally only
    when the configured number of epochs is not positive: a first epoch
    always ends in an exception. *)
Theorem train_never_trains `{Env} `{Backend} (s : State) :
  untrained s (snd (train s)) /\
  (fst (train s) = Ok tt ->
   exists p n, params (self s) = Some p /\ p !! EPOCHS = Some (PInt n) /\ (n <= 0)%Z) /\
  self (snd (train s)) = self (snd (_set_optimizer (PFloat 1) s)).
Proof.
  pose proof (wp_and _ _ _ _ (train_wp s) (train_self_wp s)) as Hw. unfold wp in Hw.
  by destruct Hw as [[Hu Hr] Hs].
Qed.

(** ** The optimiser *)

Section OptimizerFacts.
Context `{Env} `{Backend}.
Implicit Types (s : State) (m : PyObj).

Lemma set_optimizer_run s d n lr0 lr :
  obj_net (model (self s)) = Some n ->
  params_get (params (self s)) LR = Ok lr0 ->
  py_mul lr0 d = Ok lr ->
  _set_optimizer d s
  = (Ok tt, mkState (set_optimizer (Some (mkOpt n lr)) (self s)) (world s)).
Proof.
  intros Hn Hlr Hmul. unfold _set_optimizer, obj_attr. tr_unfold.
  by rewrite Hn, Hlr, Hmul.
Qed.

Lemma set_optimizer_ok_inv s d :
  fst (_set_optimizer d s) = Ok tt ->
  exists n lr0 lr, obj_net (model (self s)) = Some n /\
    params_get (params (self s)) LR = Ok lr0 /\ py_mul lr0 d = Ok lr.
Proof.
  unfold _set_optimizer, obj_attr. tr_unfold.
  destruct (obj_net _) as [n|]; [|done]. simpl.
  destruct (params_get _ _) as [lr0|]; [|done].
  destruct (py_mul _ _) as [lr|] eqn:E; [|done]. eauto 10.
Qed.

Lemma set_optimizer_self d s :
  set_optimizer None (self (snd (_set_optimizer d s))) = set_optimizer None (self s) /\
  world (snd (_set_optimizer d s)) = world s.
Proof.
  unfold _set_optimizer. tr_unfold.
  destruct (obj_attr _); [|done]. destruct (params_get _ _); [|done].
  destruct (py_mul _ _); done.
Qed.

Lemma same_but_optimizer (t t' : Trainer) :
  set_optimizer None t' = set_optimizer None t ->
  model t' = model t /\ params t' = params t /\
  forall o, set_optimizer o t' = set_optimizer o t.
Proof.
  intros Hs. split; [exact (f_equal model Hs)|]. split; [exact (f_equal params Hs)|].
  intros o. exact (f_equal (set_optimizer o) Hs).
Qed.

End OptimizerFacts.

(** [_set_optimizer] builds an SGD optimiser on the parameters of the
    network in [self.model] with learning rate [params[LR] * lr_decay], and
    changes nothing else. *)
Theorem set_optimizer_lr `{Env} `{Backend} (s : State) d n lr0 lr :
  obj_net (model (self s)) = Some n ->
  params_get (params (self s)) LR = Ok lr0 ->
  py_mul lr0 d = Ok lr ->
  _set_optimizer d s
  = (Ok tt, mkState (set_optimizer (Some (mkOpt n lr)) (self s)) (world s)).
Proof. apply set_optimizer_run. Qed.


(** The state an epoch without batches leaves at the decay epoch: the line
    of the epoch is printed and the trainer has no optimiser. *)
Definition after_decay_epoch `{Env} `{Backend} (epoch : Z) (s : State) : State :=
  mkState (set_optimizer None (self s))
    (set_console (console (world s) ++ [mkLog "Epoch: %d" (AInt epoch)]) (world s)).

(** C34: the decay branch discards the optimiser it builds. An epoch with no
    batch and no checkpoint due, at the epoch where the decay starts, builds
    the optimiser with the decayed rate and then assigns [None], the result
    of [_set_optimizer], to [self.optimizer]. *)
Theorem train_epoch_decay_clears_optimizer `{Env} `{Backend} (s : State) loc epoch
    start d n lr0 lr :
  dataloader (self s) = [] ->
  save_model_every (self s) <> 0%Z ->
  (epoch mod save_model_every (self s))%Z <> 0%Z ->
  params_get (params (self s)) DECAY_START_EPOCH = Ok start ->
  int_eq epoch start = true ->
  params_get (params (self s)) LR_DECAY = Ok d ->
  obj_net (model (self s)) = Some n ->
  params_get (params (self s)) LR = Ok lr0 ->
  py_mul lr0 d = Ok lr ->
  train_epoch loc epoch s = (Ok loc, after_decay_epoch epoch s).
Proof.
  intros Hd Hs Hm Hst He Hdec Hn Hlr Hmul. unfold after_decay_epoch.
  unfold train_epoch, _set_optimizer, print, py_mod, obj_attr. tr_unfold. tr_simpl.
  rewrite Hd. cbn [py_enumerate imap exn_fold]. tr_unfold.
  repeat (progress (tr_simpl;
    rewrite ?decide_False, ?Hst, ?He, ?Hdec, ?Hn, ?Hlr, ?Hmul by done)).
  done.
Qed.

(** ** The exception of the first epoch *)

Section Outcome.
Context `{Env} `{Backend}.
Implicit Types (s : State).

(** The exception [save_model] ends with: that of the directory name, that
    of [_ensure_path], or the [TypeError] of the third file name. *)
Definition save_model_error s : PyError :=
  match _save_dir (params (self s)) (now (world s)) with
  | Raise e => e
  | Ok d =>
      match fst (_ensure_path d (fs (world s))) with
      | Raise e => e
      | Ok _ => TypeError
      end
  end.

(** The exception the first epoch of [train] ends with: a batch stops at
    the [else] of the variant chain, no batch leads to the test
    [epoch % self.save_model_every] and then to [save_model]. *)
Definition train_error s : PyError :=
  match dataloader (self s) with
  | _ :: _ => TypeError
  | [] =>
      if decide (save_model_every (self s) = 0%Z) then ZeroDivisionError
      else save_model_error s
  end.

Lemma save_model_raises s : fst (save_model s) = Raise (save_model_error s).
Proof.
  unfold save_model, save_model_error. tr_unfold.
  destruct (_save_dir _ _) as [d|e]; [|done]. tr_simpl.
  by destruct (_ensure_path d _) as [[[]|e] f].
Qed.

Lemma train_epoch_0_error loc s k :
  model (self s) = py_module k ->
  fst (train_epoch loc 0 s) = Raise (train_error s).
Proof.
  intros Hm. unfold train_epoch, train_error, print. tr_unfold. tr_simpl.
  destruct (dataloader (self s)) as [|item l] eqn:Hd.
  - cbn [py_enumerate imap exn_fold]. tr_unfold. tr_simpl. unfold py_mod.
    destruct (decide (save_model_every (self s) = 0%Z)) as [Hz|Hz]; [done|].
    tr_simpl. rewrite Z.mod_0_l, decide_True by done.
    match goal with |- context [save_model ?s'] =>
      pose proof (save_model_raises s') as Hs; destruct (save_model s') as [r s2] end.
    cbn [fst] in Hs. by subst r.
  - cbn [py_enumerate imap exn_fold]. unfold train_step at 1. tr_unfold. tr_simpl.
    rewrite Hm. by tr_simpl.
Qed.

Lemma train_raises s k lr0 lr n :
  model (self s) = py_module k ->
  params_get (params (self s)) LR = Ok lr0 -> py_mul lr0 (PFloat 1) = Ok lr ->
  params_get (params (self s)) EPOCHS = Ok (PInt n) -> (0 < n)%Z ->
  fst (train s) = Raise (train_error s).
Proof.
  intros Hm Hlr Hmul He Hn. unfold train.
  unfold exn_bind at 1. rewrite (set_optimizer_run s _ k lr0 lr) by (by rewrite ?Hm).
  tr_unfold. tr_simpl. rewrite He. cbn [range_arg res_bind].
  destruct (py_range_pos n Hn) as [l ->]. cbn [exn_fold]. unfold exn_bind at 1.
  match goal with |- context [train_epoch ?loc 0%Z ?s'] =>
    pose proof (train_epoch_0_error loc s' k Hm) as Hr;
    destruct (train_epoch loc 0%Z s') as [r s2] end.
  cbn [fst] in Hr. by subst r.
Qed.

End Outcome.

(** C27: how a first epoch ends. On a trainer whose model is the network,
    with a learning rate and a positive number of epochs configured,
    [train] raises: [TypeError] from the [else] of the variant chain when
    the loader has a batch; without batches [ZeroDivisionError] when
    [save_model_every] is zero, and otherwise the exception of
    [save_model], which is the [TypeError] of the third file name unless
    the directory cannot be named or made. *)
Theorem train_exception `{Env} `{Backend} (s : State) k lr0 lr n :
  model (self s) = py_module k ->
  params_get (params (self s)) LR = Ok lr0 -> py_mul lr0 (PFloat 1) = Ok lr ->
  params_get (params (self s)) EPOCHS = Ok (PInt n) -> (0 < n)%Z ->
  fst (train s) = Raise (train_error s).
Proof. apply train_raises. Qed.

(** C4: [save_model] never returns and never writes a file: whatever the
    state, it raises [save_model_error], the exception of the directory
    name or of [_ensure_path] and otherwise the [TypeError] of the third
    file name, after at most creating the checkpoint directory. *)
Theorem save_model_never_writes `{Env} `{Backend} (s : State) :
  fst (save_model s) = Raise (save_model_error s) /\
  fs_files (fs (world (snd (save_model s)))) = fs_files (fs (world s)) /\
  self (snd (save_model s)) = self s.
Proof.
  pose proof (save_model_stuck s) as [Hok (_ & _ & _ & _ & _ & Hf & _)].
  split; [apply save_model_raises|]. split; [done|apply save_model_self].
Qed.

(** What [save_model] leaves behind: when the directory name can be
    built and [_ensure_path] returns, [save_model] raises [TypeError] at the
    third file name, in the state where the checkpoint directory exists and
    holds no file. *)
Theorem save_model_leaves_directory `{Env} `{Backend} (s : State) d fs' :
  _save_dir (params (self s)) (now (world s)) = Ok d ->
  _ensure_path d (fs (world s)) = (Ok tt, fs') ->
  save_model s = (Raise TypeError, mkState (self s) (set_fs fs' (world s))).
Proof.
  intros Hd Hp. unfold save_model. tr_unfold. rewrite Hd. tr_simpl. by rewrite Hp.
Qed.

(** ** The dispatch on the model variant *)

(** The chain without its third test. *)
Definition dispatch_two (m : PyObj) (inputs : PyVal) (loc : Locals) : Res Locals :=
  if obj_eq m LM_ANSWERS then
    al <- unpack2 inputs ;;
    Ok (mkLocals (Some (fst al)) (Some (snd al)) (quesion_seqs loc) (review_seqs loc))
  else if obj_eq m LM_QUESTION_ANSWERS then
    xq <- unpack2 inputs ;;
    al <- unpack2 (fst xq) ;;
    Ok (mkLocals (Some (fst al)) (Some (snd al)) (Some (snd xq)) (review_seqs loc))
  else Raise TypeError.


(** No branch of the chain binds [review_seqs]. *)
Theorem dispatch_never_binds_reviews (m : PyObj) inputs loc loc' :
  dispatch m inputs loc = Ok loc' -> review_seqs loc' = review_seqs loc.
Proof. apply dispatch_reviews. Qed.

(** A model that equals neither of the first two variant constants
    falls to the [else] of the chain, which raises a [str]: a [TypeError].
    This is the case of [None], of a network, and of the third variant
    constant. *)
Theorem dispatch_reviews_variant_rejected (m : PyObj) inputs loc :
  obj_eq m LM_ANSWERS = false -> obj_eq m LM_QUESTION_ANSWERS = false ->
  dispatch m inputs loc = Raise TypeError.
Proof. intros Ha Hq. unfold dispatch. by rewrite Ha, Hq. Qed.

(** On a model equal to [LM_ANSWERS] a pair [(answers, lengths)] binds
    the two answer locals and nothing else. *)
Theorem dispatch_answers (m : PyObj) a l loc :
  obj_eq m LM_ANSWERS = true ->
  dispatch m (VTuple [a; l]) loc
  = Ok (mkLocals (Some a) (Some l) (quesion_seqs loc) (review_seqs loc)).
Proof. intros Hm. unfold dispatch. by rewrite Hm. Qed.

(** The same for any sequence of two items. *)
Lemma dispatch_pair (m : PyObj) item a l loc :
  obj_eq m LM_ANSWERS = true -> unpack2 item = Ok (a, l) ->
  dispatch m item loc
  = Ok (mkLocals (Some a) (Some l) (quesion_seqs loc) (review_seqs loc)).
Proof. intros Hm Hi. unfold dispatch. by rewrite Hm, Hi. Qed.

(** ** The contract of the loader *)

(** A sequence of exactly two items. *)
Definition is_pair (v : PyVal) : bool :=
  match v with
  | VTuple [_; _] | VList [_; _] => true
  | _ => false
  end.

(** The shape of a batch for a variant: answers and lengths, paired with
    the questions, and with the reviews as a third item. *)
Definition batch_shaped (variant : Variant) (inputs : PyVal) : bool :=
  match variant, inputs with
  | LM_ANSWERS, _ => is_pair inputs
  | LM_QUESTION_ANSWERS, (VTuple [x; _] | VList [x; _]) => is_pair x
  | LM_QUESTION_ANSWERS_REVIEWS, (VTuple [x; _; _] | VList [x; _; _]) => is_pair x
  | _, _ => false
  end.

Lemma unpack2_is_pair inputs : is_ok (unpack2 inputs) = is_pair inputs.
Proof. by destruct inputs as [| |[|a [|b [|c l]]]|[|a [|b [|c l]]]]. Qed.

Lemma dispatch_answers_shape m inputs loc :
  obj_eq m LM_ANSWERS = true ->
  is_ok (dispatch m inputs loc) = batch_shaped LM_ANSWERS inputs.
Proof.
  intros Hm. unfold dispatch. rewrite Hm. cbn [batch_shaped].
  rewrite <- unpack2_is_pair. by destruct (unpack2 inputs).
Qed.

Lemma dispatch_questions_shape m inputs loc :
  obj_eq m LM_ANSWERS = false -> obj_eq m LM_QUESTION_ANSWERS = true ->
  is_ok (dispatch m inputs loc) = batch_shaped LM_QUESTION_ANSWERS inputs.
Proof.
  intros Ha Hm. unfold dispatch. rewrite Ha, Hm.
  destruct inputs as [| |[|x [|q [|c l]]]|[|x [|q [|c l]]]]; try done;
    cbn [batch_shaped];
    (change (unpack2 (VTuple [x; q])) with (Ok (x, q)) ||
     change (unpack2 (VList [x; q])) with (Ok (x, q)));
    cbn [res_bind fst]; rewrite <- unpack2_is_pair; by destruct (unpack2 x).
Qed.

Lemma dispatch_else m inputs loc :
  obj_eq m LM_ANSWERS = false -> obj_eq m LM_QUESTION_ANSWERS = false ->
  dispatch m inputs loc = Raise TypeError.
Proof. intros Ha Hm. unfold dispatch. by rewrite Ha, Hm. Qed.

(** C40: the contract of the loader, as the variant chain enforces it. For a
    model that equals [LM_ANSWERS] a batch is accepted exactly when it is a
    pair; for one that equals [LM_QUESTION_ANSWERS], exactly when it is a
    pair whose first item is a pair; for every other model, the reviews
    variant included, every batch is refused with [TypeError]. *)
Theorem dispatch_contract (m : PyObj) inputs loc :
  (obj_eq m LM_ANSWERS = true ->
   is_ok (dispatch m inputs loc) = batch_shaped LM_ANSWERS inputs) /\
  (obj_eq m LM_ANSWERS = false -> obj_eq m LM_QUESTION_ANSWERS = true ->
   is_ok (dispatch m inputs loc) = batch_shaped LM_QUESTION_ANSWERS inputs) /\
  (obj_eq m LM_ANSWERS = false -> obj_eq m LM_QUESTION_ANSWERS = false ->
   dispatch m inputs loc = Raise TypeError).
Proof.
  split; [apply dispatch_answers_shape|].
  split; [apply dispatch_questions_shape|apply dispatch_else].
Qed.

(** ** On the small instance *)

#[local] Existing Instance toy_env.
#[local] Existing Instance toy_backend.

Lemma set_optimizer_lr_witness :
  _set_optimizer (PFloat (Q2Qc (1 # 2))) toy_state
  = (Ok tt, mkState (set_optimizer (Some (mkOpt 0%nat (PFloat (Q2Qc (1 # 4))))) toy_trainer)
              toy_world).
Proof.
  apply (set_optimizer_lr toy_state _ 0%nat (PFloat (Q2Qc (1 # 2)))); [done|done|].
  by vm_compute.
Defined.


Lemma train_epoch_decay_clears_optimizer_witness :
  optimizer (self (snd (train_epoch no_locals 1
    (mkState (mkTrainer 2 1 (Some toy_params) [] None (py_module 0) [] [] None None)
       toy_world)))) = None.
Proof.
  by erewrite (train_epoch_decay_clears_optimizer _ no_locals 1 (PInt 1)
                 (PFloat (Q2Qc (1 # 2))) 0%nat (PFloat (Q2Qc (1 # 2)))).
Defined.

Lemma dispatch_never_binds_reviews_witness :
  review_seqs (mkLocals (Some toy_a) (Some toy_l) None None) = None.
Proof.
  apply (dispatch_never_binds_reviews (py_const LM_ANSWERS) (VTuple [toy_a; toy_l])
           no_locals). done.
Defined.

Lemma dispatch_answers_witness :
  dispatch (py_const LM_ANSWERS) (VTuple [toy_a; toy_l]) no_locals
  = Ok (mkLocals (Some toy_a) (Some toy_l) None None).
Proof. by apply (dispatch_answers (py_const LM_ANSWERS)). Defined.

Lemma dispatch_reviews_variant_rejected_witness :
  dispatch (py_const LM_QUESTION_ANSWERS_REVIEWS) (VTuple [toy_a; toy_l]) no_locals
  = Raise TypeError.
Proof. by apply dispatch_reviews_variant_rejected. Defined.

Lemma save_model_leaves_directory_witness :
  fst (save_model toy_state) = Raise TypeError /\
  path_exists "checkpoints/lm/2018-03-07-09-05-00"
    (fs (world (snd (save_model toy_state)))) = true.
Proof.
  erewrite (save_model_leaves_directory toy_state "checkpoints/lm/2018-03-07-09-05-00");
    [|reflexivity|by vm_compute].
  split; [reflexivity|by vm_compute].
Defined.

Lemma train_exception_witness : fst (train toy_state) = Raise TypeError.
Proof.
  apply (train_exception toy_state 0%nat (PFloat (Q2Qc (1 # 2))) (PFloat (Q2Qc (1 # 2))) 2);
    by vm_compute.
Defined.

(** Without batches and with [save_model_every = 0], the first epoch ends
    at the test of the checkpoint. *)
Lemma train_save_every_zero :
  fst (train (mkState (mkTrainer 0 1 (Some toy_params) [] None (py_module 0) [] [] None None)
                toy_world))
  = Raise ZeroDivisionError.
Proof.
  by rewrite (train_raises _ 0%nat (PFloat (Q2Qc (1 # 2))) (PFloat (Q2Qc (1 # 2))) 2)
    by (by vm_compute).
Qed.

Lemma dispatch_contract_witness :
  is_ok (dispatch (py_const LM_ANSWERS) (VTuple [toy_a; toy_l]) no_locals) = true /\
  dispatch (py_const LM_QUESTION_ANSWERS_REVIEWS)
    (VTuple [VTuple [toy_a; toy_l]; toy_q; toy_q]) no_locals = Raise TypeError.
Proof.
  split.
  - exact (proj1 (dispatch_contract (py_const LM_ANSWERS) (VTuple [toy_a; toy_l]) no_locals)
             eq_refl).
  - exact (proj2 (proj2 (dispatch_contract (py_const LM_QUESTION_ANSWERS_REVIEWS) _ no_locals))
             eq_refl eq_refl).
Defined.
