(* ===== verification/Saving.v ===== *)
(** * Writing a checkpoint

    The three writes at the end of [Trainer.save_model] of
    [src/language_models/trainer.py], which the method itself never reaches:
    what they store where every file can be written, what they leave behind
    when a later one fails, that the directory [_ensure_path] makes is
    enough for them, and that the text of the hyper-parameter file is read
    back as [self.params]. *)

From Stdlib Require Import ZArith QArith Qcanon.
From stdpp Require Import prelude strings gmap.
From S2P Require Import Prelude Tensor Loss PyData Checkpoint Json Trainer Toy.

(** Unfolds the monad around the writes of a checkpoint, leaving the writes. *)
Ltac ck_unfold :=
  cbv [exn_bind exn_ret exn_raise exn_gets exn_lift get_self net_of].

Section Saving.
Context `{Env} `{Backend}.
Implicit Types (s : State) (mf pf vf : string) (net : Net).

(** The state after files were written: only the files differ. *)
Definition with_files (files : gmap string (Content Weights (option Vocab))) s : State :=
  mkState (self s) (set_fs (mkFS (fs_dirs (fs (world s))) files) (world s)).

(** The three files of a checkpoint of [s], added to [files]. *)
Definition checkpoint_files mf pf vf net s
    (files : gmap string (Content Weights (option Vocab))) :=
  <[vf := VocabFile (vocab (self s))]>
    (<[pf := ParamsFile (params (self s))]>
       (<[mf := ModelFile (net_weights net)]> files)).

Lemma in_fs_write p c s :
  in_fs (write_file p c) s
  = if decide (writable p (fs (world s)))
    then (Ok tt, with_files (<[p := c]> (fs_files (fs (world s)))) s)
    else (Raise OSError, s).
Proof.
  unfold in_fs, in_world. destruct s as [t [n r1 r2 tm f c0 cl]]. cbn.
  destruct (decide (writable p f)) as [Hw|Hw].
  - by rewrite write_file_ok.
  - by rewrite write_file_raise.
Qed.

Lemma write_checkpoint_run mf pf vf n net s :
  model (self s) = py_module n -> nets (world s) !! n = Some net ->
  writable mf (fs (world s)) -> writable pf (fs (world s)) ->
  writable vf (fs (world s)) ->
  write_checkpoint mf pf vf s
  = (Ok tt, with_files (checkpoint_files mf pf vf net s (fs_files (fs (world s)))) s).
Proof.
  intros Hm Hn Hwm Hwp Hwv. unfold write_checkpoint. ck_unfold.
  rewrite Hm. cbn [obj_attr obj_net py_module of_option]. rewrite Hn. cbn [of_option].
  rewrite in_fs_write, decide_True by done. cbn.
  rewrite in_fs_write, decide_True by done. cbn.
  rewrite in_fs_write, decide_True by done. done.
Qed.

(** The vocabulary cannot be written: the two files before it stay. *)
Lemma write_checkpoint_partial mf pf vf n net s :
  model (self s) = py_module n -> nets (world s) !! n = Some net ->
  writable mf (fs (world s)) -> writable pf (fs (world s)) ->
  ~ writable vf (fs (world s)) ->
  write_checkpoint mf pf vf s
  = (Raise OSError,
     with_files (<[pf := ParamsFile (params (self s))]>
                   (<[mf := ModelFile (net_weights net)]> (fs_files (fs (world s))))) s).
Proof.
  intros Hm Hn Hwm Hwp Hwv. unfold write_checkpoint. ck_unfold.
  rewrite Hm. cbn [obj_attr obj_net py_module of_option]. rewrite Hn. cbn [of_option].
  rewrite in_fs_write, decide_True by done. cbn.
  rewrite in_fs_write, decide_True by done. cbn.
  rewrite in_fs_write, decide_False by done. done.
Qed.

(** The text of the file at a path. *)
Definition file_text pf s : option string :=
  fs_files (fs (world s)) !! pf ≫= content_text.

(** After the three writes the hyper-parameter file holds the text of
    [self.params], unless the vocabulary was written over it. *)
Lemma checkpoint_params_text mf pf vf n net s :
  model (self s) = py_module n -> nets (world s) !! n = Some net ->
  writable mf (fs (world s)) -> writable pf (fs (world s)) ->
  writable vf (fs (world s)) -> pf <> vf ->
  file_text pf (snd (write_checkpoint mf pf vf s)) = Some (json_dumps (params (self s))).
Proof.
  intros Hm Hn Hwm Hwp Hwv Hne. rewrite (write_checkpoint_run mf pf vf n net) by done.
  unfold file_text, with_files, checkpoint_files. cbn.
  by rewrite lookup_insert_ne, lookup_insert_eq by congruence.
Qed.

End Saving.

Section Ensured.
Context `{Env} `{Backend}.
Implicit Types (s : State) (d : string).

(** The state after [_ensure_path] left the file system [fs1]. *)
Definition ensured (fs1 : FS Weights (option Vocab)) s : State :=
  mkState (self s) (set_fs fs1 (world s)).

(** The three file names of [constants] are names of files. *)
Definition file_names : Prop :=
  no_slash SAVED_MODEL_FILENAME = true /\
  no_slash SAVED_PARAMS_FILENAME = true /\
  no_slash SAVED_VOCAB_FILENAME = true.

Lemma write_checkpoint_ensured d fs1 n net s :
  file_names -> d <> "" -> fs_files (fs (world s)) !! d = None ->
  _ensure_path d (fs (world s)) = (Ok tt, fs1) ->
  (forall f, fmt_path d f ∉ fs_dirs fs1) ->
  model (self s) = py_module n -> nets (world s) !! n = Some net ->
  is_ok (fst (write_checkpoint (fmt_path d SAVED_MODEL_FILENAME)
                (fmt_path d SAVED_PARAMS_FILENAME) (fmt_path d SAVED_VOCAB_FILENAME)
                (ensured fs1 s))) = true.
Proof.
  intros (Hm & Hp & Hv) Hd Hnone He Hfree Hmod Hnet.
  by rewrite (write_checkpoint_run _ _ _ n net)
    by (try done; by eapply writable_after_ensure).
Qed.

(** [_ensure_path] accepts a path that is a file: it makes no directory,
    and the first of the three writes fails with nothing written. *)
Lemma checkpoint_over_file d c n net s :
  file_names -> d <> "" ->
  fs_files (fs (world s)) !! d = Some c -> d ∉ fs_dirs (fs (world s)) ->
  model (self s) = py_module n -> nets (world s) !! n = Some net ->
  _ensure_path d (fs (world s)) = (Ok tt, fs (world s)) /\
  write_checkpoint (fmt_path d SAVED_MODEL_FILENAME) (fmt_path d SAVED_PARAMS_FILENAME)
    (fmt_path d SAVED_VOCAB_FILENAME) s = (Raise OSError, s).
Proof.
  intros (Hm & _) Hd Hfile Hdir Hmod Hnet. split.
  - unfold _ensure_path, path_exists. rewrite bool_decide_true; [done|].
    right. by rewrite Hfile.
  - unfold write_checkpoint. ck_unfold.
    rewrite Hmod. cbn [obj_attr obj_net py_module of_option]. rewrite Hnet. cbn [of_option].
    rewrite in_fs_write, decide_False; [done|].
    intros [_ Hw]. rewrite dirname_fmt_path in Hw by done. by destruct Hw.
Qed.

End Ensured.

(** C29: where the model is a network and the three paths can be written,
    [write_checkpoint] returns and changes only the files: it stores the
    weights of the network, the hyper-parameters and the vocabulary, and
    when the paths differ each of them reads back. *)
Theorem write_checkpoint_ok `{Env} `{Backend} (s : State) mf pf vf n net :
  model (self s) = py_module n -> nets (world s) !! n = Some net ->
  writable mf (fs (world s)) -> writable pf (fs (world s)) ->
  writable vf (fs (world s)) ->
  let files := checkpoint_files mf pf vf net s (fs_files (fs (world s))) in
  write_checkpoint mf pf vf s = (Ok tt, with_files files s) /\
  (mf <> pf -> mf <> vf -> pf <> vf ->
   files !! mf = Some (ModelFile (net_weights net)) /\
   files !! pf = Some (ParamsFile (params (self s))) /\
   files !! vf = Some (VocabFile (vocab (self s)))).
Proof.
  intros Hm Hn Hwm Hwp Hwv files. split; [by apply (write_checkpoint_run _ _ _ n)|].
  intros H1 H2 H3. unfold files, checkpoint_files.
  repeat split; rewrite ?lookup_insert_eq; try done.
  - by rewrite !lookup_insert_ne, lookup_insert_eq by congruence.
  - by rewrite lookup_insert_ne, lookup_insert_eq by congruence.
Qed.

(** C32: a checkpoint is not written atomically: when the vocabulary cannot
    be written, [write_checkpoint] raises [OSError] after it has stored the
    weights and the hyper-parameters, which stay in the file system; only
    the files of the state differ. *)
Theorem write_checkpoint_not_atomic `{Env} `{Backend} (s : State) mf pf vf n net :
  model (self s) = py_module n -> nets (world s) !! n = Some net ->
  writable mf (fs (world s)) -> writable pf (fs (world s)) ->
  ~ writable vf (fs (world s)) -> mf <> pf ->
  write_checkpoint mf pf vf s
  = (Raise OSError,
     with_files (<[pf := ParamsFile (params (self s))]>
                   (<[mf := ModelFile (net_weights net)]> (fs_files (fs (world s))))) s) /\
  fs_files (fs (world (snd (write_checkpoint mf pf vf s)))) !! mf
  = Some (ModelFile (net_weights net)) /\
  fs_files (fs (world (snd (write_checkpoint mf pf vf s)))) !! pf
  = Some (ParamsFile (params (self s))).
Proof.
  intros Hm Hn Hwm Hwp Hwv Hne.
  rewrite (write_checkpoint_partial mf pf vf n net) by done. cbn.
  split; [done|]. rewrite lookup_insert_eq.
  by rewrite lookup_insert_ne, lookup_insert_eq by congruence.
Qed.

(** The directory [_ensure_path] makes is enough for the checkpoint:
    after it returned for a directory whose path was not a file, and no
    directory has the name of a checkpoint file, the three writes to the
    files of that directory succeed for a model that is a network. *)
Theorem checkpoint_in_ensured_directory `{Env} `{Backend} (s : State) d fs1 n net :
  file_names -> d <> "" -> fs_files (fs (world s)) !! d = None ->
  _ensure_path d (fs (world s)) = (Ok tt, fs1) ->
  (forall f, fmt_path d f ∉ fs_dirs fs1) ->
  model (self s) = py_module n -> nets (world s) !! n = Some net ->
  is_ok (fst (write_checkpoint (fmt_path d SAVED_MODEL_FILENAME)
                (fmt_path d SAVED_PARAMS_FILENAME) (fmt_path d SAVED_VOCAB_FILENAME)
                (ensured fs1 s))) = true.
Proof. apply write_checkpoint_ensured. Qed.

(** ** On the small instance *)

#[local] Existing Instance toy_env.
#[local] Existing Instance toy_backend.

Lemma toy_writable (p : string) : dirname p = "" -> writable p (fs (world toy_state)).
Proof. intros Hp. split; [set_solver|by left]. Qed.

Lemma write_checkpoint_ok_witness :
  fst (write_checkpoint "model.bin" "params.json" "vocab.pkl" toy_state) = Ok tt.
Proof.
  by rewrite (proj1 (write_checkpoint_ok toy_state "model.bin" "params.json" "vocab.pkl"
                       0%nat _ eq_refl eq_refl
                       (toy_writable "model.bin" eq_refl)
                       (toy_writable "params.json" eq_refl)
                       (toy_writable "vocab.pkl" eq_refl))).
Defined.

Lemma write_checkpoint_not_atomic_witness :
  fst (write_checkpoint "model.bin" "params.json" "ckpt/vocab.pkl" toy_state)
  = Raise OSError.
Proof.
  refine (f_equal fst (proj1
    (write_checkpoint_not_atomic toy_state "model.bin" "params.json" "ckpt/vocab.pkl"
       0%nat _ eq_refl eq_refl
       (toy_writable "model.bin" eq_refl) (toy_writable "params.json" eq_refl) _ _)));
    [|done].
  intros [_ [Hd|Hd]]; [done|set_solver].
Defined.

Lemma toy_ensured :
  _ensure_path "ckpt" (fs (world toy_state)) = (Ok tt, mkFS {["ckpt"]} ∅).
Proof.
  unfold _ensure_path, makedirs. cbn. by do 2 f_equal.
Qed.

Lemma checkpoint_in_ensured_directory_witness :
  is_ok (fst (write_checkpoint "ckpt/model.bin" "ckpt/params.json" "ckpt/vocab.pkl"
                (ensured (mkFS {["ckpt"]} ∅) toy_state))) = true.
Proof.
  refine (checkpoint_in_ensured_directory toy_state "ckpt" (mkFS {["ckpt"]} ∅) 0%nat _
            _ _ _ toy_ensured _ eq_refl eq_refl).
  - by vm_compute.
  - done.
  - by vm_compute.
  - intros f. cbn [fs_dirs]. by rewrite not_elem_of_singleton.
Defined.


Lemma toy_params_ok : params_ok (params (self toy_state)).
Proof.
  intros k v Hk. by destruct k; vm_compute in Hk; try done; injection Hk as <-.
Qed.

