(* ===== verification/Batch.v ===== *)
(** * The batch step

    What [Trainer.train_batch] of [src/language_models/trainer.py] does when
    it is called on a working trainer: one optimisation step. Also the type
    [_var] gives its tensors, the relation [calls_since], which bounds what
    a method may add to the record of forward calls, and the footprint of a
    call ([batch_frame]). *)

From Stdlib Require Import ZArith QArith Qcanon.
From stdpp Require Import prelude strings gmap.
From S2P Require Import Prelude Machine Tensor Loss PyData Checkpoint Trainer Toy.

(** ** One optimisation step *)

Section Batch.
Context `{Env} `{Backend}.
Implicit Types (s : State) (m : PyObj).

(** The gradient the network holds after [zero_grad] and [backward]: the
    gradient [g] of this batch alone, added to zero when a gradient existed. *)
Definition batch_grad (g0 : option Grad) (g : Grad) : Grad :=
  match g0 with
  | None => g
  | Some _ => grad_add grad_zero g
  end.

Lemma zeroed_grad (g0 : option Grad) (g : Grad) :
  match (fun _ : Grad => grad_zero) <$> g0 with
  | Some g1 => grad_add g1 g
  | None => g
  end = batch_grad g0 g.
Proof. by destruct g0. Qed.

(** What the batch step needs of the gradients of the library: adding to
    the zero gradient changes nothing. *)
Class GradLaws : Prop := {
  grad_add_zero_l : forall g : Grad, grad_add grad_zero g = g;
}.

(** With that law the gradient after [zero_grad] and [backward] is the
    gradient of the batch, whatever was accumulated before. *)
Lemma batch_grad_law `{!GradLaws} (g0 : option Grad) (g : Grad) : batch_grad g0 g = g.
Proof. destruct g0; [apply grad_add_zero_l|done]. Qed.

(** One call of [train_batch] when every call it makes succeeds. *)
Lemma train_batch_run s q r a l n lr w g0 c
    a' q' tg ratio tf outputs rng' lens v w' :
  model (self s) = py_module n ->
  optimizer (self s) = Some (mkOpt n lr) ->
  nets (world s) !! n = Some (mkNet w g0 c) ->
  _var (Data a) = Ok a' ->
  _var (Data q) = Ok q' ->
  _var (VarOf a') = Ok tg ->
  params_get (params (self s)) TEACHER_FORCING_RATIO = Ok ratio ->
  float_lt (np_random (np_rng (world s))) ratio = Ok tf ->
  let args := mkArgs (Some q') None a' tf in
  forward w args (torch_rng (world s)) = (Ok outputs, rng') ->
  as_int_list l = Ok lens ->
  _batch_loss (criterion (t_dtype tg)) outputs lens (t_rows tg) = Ok (Var v) ->
  let g := batch_grad g0 (loss_grad w args lens tg) in
  sgd_step lr w g = Ok w' ->
  train_batch q r a l s =
  (Ok v,
   mkState (self s)
     (mkWorld (<[n := mkNet w' (Some g) c]> (nets (world s)))
        (mkRng (rng_seed (np_rng (world s))) (S (rng_draws (np_rng (world s)))))
        rng' (now (world s)) (fs (world s)) (console (world s))
        (calls (world s) ++ [(n, args)]))).
Proof.
  intros Hm Ho Hn Ha Hq Htg Hratio Htf args Hfwd Hl Hloss g Hstep.
  unfold train_batch, zero_grad, random, call_model, backward, step, loss_data.
  tr_unfold.
  repeat (progress (
    tr_simpl;
    rewrite ?Ho, ?Ha, ?Hm, ?Hq, ?Htg, ?Hratio, ?Htf, ?lookup_alter_eq, ?Hn, ?Hl;
    fold args; rewrite ?Hfwd, ?Hloss, ?zeroed_grad; fold g; rewrite ?Hstep)).
  do 3 f_equal. unfold set_nets, set_calls, set_torch_rng, set_np_rng.
  tr_simpl. f_equal.
  rewrite (alter_Some _ _ _ _ Hn).
  rewrite (alter_Some _ _ n _ (lookup_insert_eq _ _ _)), insert_insert_eq.
  rewrite (alter_Some _ _ n _ (lookup_insert_eq _ _ _)), insert_insert_eq.
  tr_simpl. by rewrite zeroed_grad.
Qed.

End Batch.

(** C3: one call of [train_batch] on a trainer whose model is the network [n]
    the optimiser was built from, when every library call succeeds: the
    network is called once with the questions, no reviews and teacher forcing
    decided by one random draw against the configured ratio; its parameters
    move by one SGD step along the gradient of this batch only; the loss of
    the batch is returned. *)
Theorem train_batch_sgd_step `{Env} `{Backend} (s : State) q r a l n lr w g0 c
    a' q' tg ratio tf outputs rng' lens v w' :
  model (self s) = py_module n ->
  optimizer (self s) = Some (mkOpt n lr) ->
  nets (world s) !! n = Some (mkNet w g0 c) ->
  _var (Data a) = Ok a' ->
  _var (Data q) = Ok q' ->
  _var (VarOf a') = Ok tg ->
  params_get (params (self s)) TEACHER_FORCING_RATIO = Ok ratio ->
  float_lt (np_random (np_rng (world s))) ratio = Ok tf ->
  let args := mkArgs (Some q') None a' tf in
  forward w args (torch_rng (world s)) = (Ok outputs, rng') ->
  as_int_list l = Ok lens ->
  _batch_loss (criterion (t_dtype tg)) outputs lens (t_rows tg) = Ok (Var v) ->
  let g := batch_grad g0 (loss_grad w args lens tg) in
  sgd_step lr w g = Ok w' ->
  train_batch q r a l s =
  (Ok v,
   mkState (self s)
     (mkWorld (<[n := mkNet w' (Some g) c]> (nets (world s)))
        (mkRng (rng_seed (np_rng (world s))) (S (rng_draws (np_rng (world s)))))
        rng' (now (world s)) (fs (world s)) (console (world s))
        (calls (world s) ++ [(n, args)]))).
Proof. apply train_batch_run. Qed.

(** Without an optimiser [train_batch] raises [AttributeError] at its
    first statement and changes nothing. *)
Theorem train_batch_no_optimizer `{Env} `{Backend} (s : State) q r a l :
  optimizer (self s) = None -> train_batch q r a l s = (Raise AttributeError, s).
Proof. intros Ho. unfold train_batch. tr_unfold. by rewrite Ho. Qed.

(** ** The calls of the network *)

(** What [train_batch] and [eval] pass for a model [m]. *)
Definition call_shape (m : PyObj) (args : ForwardArgs) : Prop :=
  (fa_question args = None <-> obj_eq m LM_ANSWERS = true) /\
  (fa_reviews args = None <-> obj_eq m LM_QUESTION_ANSWERS_REVIEWS = false).

Ltac shape_solve :=
  unfold call_shape; cbn [self world model] in *; cbn;
  repeat match goal with Hm : obj_eq _ _ = _ |- _ => rewrite Hm; clear Hm end;
  repeat match goal with
         | E : res_map _ ?x = Ok _ |- _ => destruct x; simplify_eq/=
         end;
  by repeat split.

Section TensorTypes.
Context `{Env} `{Backend}.

(** The type [_var] gives every tensor it makes. *)
Definition float_dtype : DType := if USE_CUDA then CudaFloatTensor else FloatTensor.

Lemma float_dtype_not_long : float_dtype <> LongTensor.
Proof. unfold float_dtype. by destruct USE_CUDA. Qed.

Lemma var_dtype (v : Value) (t : Tensor) : _var v = Ok t -> t_dtype t = float_dtype.
Proof.
  unfold _var. intros (t0 & _ & [= <-])%res_bind_ok. done.
Qed.

(** Every tensor among the arguments of a call is a float tensor. *)
Definition args_float (args : ForwardArgs) : Prop :=
  t_dtype (fa_answers args) = float_dtype /\
  forall q, fa_question args = Some q -> t_dtype q = float_dtype.

(** What holds of every call [train_batch] and [eval] make for a model [m]. *)
Definition call_ok (m : PyObj) (args : ForwardArgs) : Prop :=
  call_shape m args /\ args_float args.

End TensorTypes.

Ltac float_solve :=
  unfold args_float; cbn [fa_answers fa_question];
  repeat match goal with
         | E : res_map _ ?x = Ok _ |- _ => destruct x eqn:?; simplify_eq/=
         end;
  repeat match goal with E : _var _ = Ok _ |- _ => apply var_dtype in E end;
  split; [done|intros ? [= <-]; done].

Ltac call_solve := split; [shape_solve|float_solve].

Section CallsSince.
Context `{Env} `{Backend}.
Implicit Types (s : State) (m : PyObj) (args : ForwardArgs).

(** [s'] has the trainer and the network addresses of [s], and the calls of
    the network it records beyond those of [s] all satisfy [P]. *)
Definition calls_since (P : ForwardArgs -> Prop) s s' : Prop :=
  self s' = self s /\
  dom (nets (world s')) = dom (nets (world s)) /\
  exists extra, calls (world s') = calls (world s) ++ extra /\
    Forall (fun c => P (snd c)) extra.

Lemma calls_since_refl P s s' :
  self s' = self s -> dom (nets (world s')) = dom (nets (world s)) ->
  calls (world s') = calls (world s) -> calls_since P s s'.
Proof. intros Hs Hd Hc. do 2 (split; [done|]). exists []. by rewrite app_nil_r. Qed.

Lemma calls_since_trans P s1 s2 s3 :
  calls_since P s1 s2 -> calls_since P s2 s3 -> calls_since P s1 s3.
Proof.
  intros (Hs1 & Hd1 & e1 & H1 & F1) (Hs2 & Hd2 & e2 & H2 & F2).
  do 2 (split; [congruence|]).
  exists (e1 ++ e2). rewrite H2, H1, app_assoc. split; [done|]. by apply Forall_app.
Qed.

Lemma calls_since_mono (P Q : ForwardArgs -> Prop) s s' :
  (forall args, P args -> Q args) -> calls_since P s s' -> calls_since Q s s'.
Proof.
  intros HPQ (Hs & Hd & e & He & HF). do 2 (split; [done|]). exists e. split; [done|].
  eapply Forall_impl; [exact HF|]. intros c. apply HPQ.
Qed.

#[export] Instance calls_since_preorder P : PreOrder (calls_since P).
Proof.
  split; [intros s; by apply calls_since_refl|exact (calls_since_trans P)].
Qed.

End CallsSince.

(** Closes [calls_since P s s'] when [s'] records no call beyond [s]. *)
Ltac calls_refl :=
  apply calls_since_refl; tr_simpl; rewrite ?dom_alter_L; done.

Section Calls.
Context `{Env} `{Backend}.
Implicit Types (s : State) (m : PyObj) (args : ForwardArgs).

Lemma call_model_calls (P : ForwardArgs -> Prop) args s :
  P args -> wp (call_model args) (fun _ s' => calls_since P s s') s.
Proof.
  intros HP. unfold call_model. tr_run; try calls_refl.
  all: do 2 (split; [done|]); exists [(a, args)]; split; [done|]; by constructor.
Qed.

Lemma print_progress_calls P f1 f2 i l p s :
  wp (print_progress f1 f2 i l p) (fun _ s' => calls_since P s s') s.
Proof. unfold print_progress. tr_run; calls_refl. Qed.

Lemma train_batch_calls q r a l s :
  wp (train_batch q r a l)
     (fun _ s' => calls_since (call_ok (model (self s))) s s') s.
Proof.
  unfold train_batch, zero_grad, random. tr_run; try calls_refl.
  all: (eapply wp_mono; [apply (call_model_calls (call_ok (model (self s))))|]);
    [call_solve|].
  all: intros [call|e] s1 Hs1;
    [|eapply calls_since_trans; [|exact Hs1]; calls_refl].
  all: unfold backward, step, loss_data; tr_run.
  all: repeat (match goal with |- wp (match ?x with _ => _ end) _ _ => destruct x end; tr_run).
  all: eapply calls_since_trans;
    [|eapply calls_since_trans; [exact Hs1|]]; calls_refl.
Qed.

End Calls.

Section Frame.
Context `{Env} `{Backend}.
Implicit Types (s : State) (w : World).

(** The parameters of every network. *)
Definition weights_of w : gmap NetId Weights := net_weights <$> nets w.

Lemma weights_alter (f : Net -> Net) n (m : gmap NetId Net) :
  (forall net, net_weights (f net) = net_weights net) ->
  net_weights <$> alter f n m = net_weights <$> m.
Proof.
  intros Hf. apply map_eq. intros i. rewrite !lookup_fmap.
  destruct (decide (i = n)) as [->|Hne].
  - rewrite lookup_alter_eq. destruct (m !! n); cbn; [by rewrite Hf|done].
  - by rewrite lookup_alter_ne.
Qed.

(** A list grown by at most one element. *)
Definition at_most_one_more {A} (l l' : list A) : Prop :=
  exists extra, l' = l ++ extra /\ length extra <= 1.

Lemma at_most_one_more_refl {A} (l : list A) : at_most_one_more l l.
Proof. exists []. split; [by rewrite app_nil_r|cbn; lia]. Qed.

Lemma at_most_one_more_snoc {A} (l : list A) x : at_most_one_more l (l ++ [x]).
Proof. exists [x]. split; [done|cbn; lia]. Qed.

(** What one call of [train_batch] may change besides the networks: at most
    one forward call is recorded and at most one number is drawn from
    numpy's generator. *)
Definition batch_frame s s' : Prop :=
  self s' = self s /\
  fs (world s') = fs (world s) /\
  console (world s') = console (world s) /\
  at_most_one_more (calls (world s)) (calls (world s')) /\
  rng_seed (np_rng (world s')) = rng_seed (np_rng (world s)) /\
  rng_draws (np_rng (world s')) <= S (rng_draws (np_rng (world s))).

End Frame.

#[export] Hint Resolve at_most_one_more_refl at_most_one_more_snoc : py.

(** Closes [batch_frame s s'] for a state [s'] built from [s]. *)
Ltac frame_solve :=
  unfold batch_frame; tr_simpl; repeat split; try done; try lia; auto with py.

Section FrameRuns.
Context `{Env} `{Backend}.
Implicit Types (s : State).

(** [train_batch] changes the parameters of a network only when it
    returns: every exception leaves them as they were. *)
Lemma train_batch_frame q r a l s :
  wp (train_batch q r a l)
     (fun res s' => batch_frame s s' /\
        (is_ok res = false -> weights_of (world s') = weights_of (world s))) s.
Proof.
  unfold train_batch, zero_grad, random, call_model. tr_run.
  all: try match goal with
           | |- wp (backward ?l _ _ _ _) _ _ =>
               destruct l; unfold backward, step, loss_data; tr_run
           end.
  all: try match goal with
           | |- wp (match ?x with _ => _ end) _ _ => destruct x; tr_run
           end.
  all: split; [frame_solve|].
  all: try done; intros _; unfold weights_of; tr_simpl; by rewrite ?weights_alter.
Qed.

End FrameRuns.

(** C35: the footprint of [train_batch], however it ends: the trainer object,
    the files and the console are as they were; at most one forward call is
    recorded and at most one number drawn; a recorded call passes no
    questions exactly when the model equals [LM_ANSWERS], and reviews
    exactly when it equals [LM_QUESTION_ANSWERS_REVIEWS]; and when it raises,
    the parameters of every network are those before the call. *)
Theorem train_batch_footprint `{Env} `{Backend} (s : State) q r a l :
  let s' := snd (train_batch q r a l s) in
  calls_since (call_shape (model (self s))) s s' /\
  batch_frame s s' /\
  (is_ok (fst (train_batch q r a l s)) = false ->
   weights_of (world s') = weights_of (world s)).
Proof.
  pose proof (train_batch_calls q r a l s) as Hc.
  pose proof (train_batch_frame q r a l s) as Hf. unfold wp in Hc, Hf.
  split; [|exact Hf]. eapply calls_since_mono; [|exact Hc]. by intros args [? ?].
Qed.


(** C22: every tensor the trainer hands to the network is a float tensor:
    [_var] returns tensors of the float type only (of the GPU when
    [USE_CUDA]), and however [train_batch] ends, the answers and the
    questions of each call of the network it records have that type. *)
Theorem tensors_are_float `{Env} `{Backend} (s : State) q r a l :
  (forall v t, _var v = Ok t -> t_dtype t = float_dtype) /\
  calls_since args_float s (snd (train_batch q r a l s)).
Proof.
  split; [exact var_dtype|].
  pose proof (train_batch_calls q r a l s) as Hb. unfold wp in Hb.
  eapply calls_since_mono; [|exact Hb]. by intros ? [_ ?].
Qed.


(** ** On the small instance *)

#[local] Existing Instance toy_env.
#[local] Existing Instance toy_backend.

Lemma train_batch_sgd_step_witness :
  fst (train_batch toy_q VNone toy_a toy_l toy_state)
  = Ok (SDiv (SAdd (SNum 1) (SNum 0)) 2).
Proof.
  erewrite train_batch_sgd_step; [reflexivity|try reflexivity..].
Defined.

#[export] Instance toy_grad_laws : GradLaws.
Proof. split. intros g. apply Qcplus_0_l. Qed.

(** On the small instance the gradient left by the step is that of the
    batch alone. *)
Lemma toy_batch_grad (g0 : option Qc) (g : Qc) : batch_grad g0 g = g.
Proof. apply batch_grad_law. Qed.

Lemma train_batch_no_optimizer_witness :
  train_batch toy_q VNone toy_a toy_l (mkState (set_optimizer None toy_trainer) toy_world)
  = (Raise AttributeError, mkState (set_optimizer None toy_trainer) toy_world).
Proof. by apply train_batch_no_optimizer. Defined.

