(* ===== verification/Evaluation.v ===== *)
(** * The evaluation pass

    What [Trainer.eval] of [src/language_models/trainer.py] does: it changes
    nothing but the console and the record of forward calls, never
    teacher-forces, and raises on its first batch unless the object in
    [self.model] is both equal to a variant constant and callable; for such
    an object, what a batch that succeeds computes and prints. *)

From Stdlib Require Import ZArith QArith Qcanon.
From stdpp Require Import prelude strings gmap.
From S2P Require Import Prelude Tensor Loss PyData Checkpoint Trainer Toy Training Batch.

(** ** The evaluation pass *)

Section EvalFacts.
Context `{Env} `{Backend}.
Implicit Types (s : State) (m : PyObj).

(** [s'] is [s] up to what a forward pass and the console change: the
    trainer, the networks, numpy's generator and the file system are those
    of [s]. *)
Definition read_only s s' : Prop :=
  self s' = self s /\
  nets (world s') = nets (world s) /\
  np_rng (world s') = np_rng (world s) /\
  fs (world s') = fs (world s).

Lemma read_only_refl s : read_only s s.
Proof. done. Qed.

Lemma read_only_trans s1 s2 s3 : read_only s1 s2 -> read_only s2 s3 -> read_only s1 s3.
Proof. unfold read_only. intros (-> & -> & -> & ->) (-> & -> & -> & ->). done. Qed.

#[export] Instance read_only_preorder : PreOrder read_only.
Proof. split; [exact read_only_refl|exact read_only_trans]. Qed.

Lemma call_model_read_only args s :
  wp (call_model args) (fun _ s' => read_only s s') s.
Proof.
  unfold call_model. tr_run; done.
Qed.

Lemma print_progress_read_only f1 f2 i l p s :
  wp (print_progress f1 f2 i l p) (fun _ s' => read_only s s') s.
Proof. unfold print_progress. tr_run; done. Qed.

Lemma eval_step_read_only st item s0 s :
  read_only s0 s -> wp (eval_step st item) (fun _ s' => read_only s0 s') s.
Proof.
  intros Hs. destruct item as [batch_itr inputs]. unfold eval_step.
  tr_run; try done.
  all: try (eapply wp_mono; [apply call_model_read_only|]; cbn beta;
            intros [call|e] s1 Hs1; [|by eapply read_only_trans];
            tr_run; try (by eapply read_only_trans);
            eapply wp_mono; [apply print_progress_read_only|];
            intros [[]|e] s2 Hs2; tr_run; eauto using read_only_trans).
Qed.


Lemma print_info_read_only e ls ps c s :
  wp (in_world (_print_info e ls ps c)) (fun r s' => r = Ok tt /\ read_only s s') s.
Proof. unfold _print_info. tr_run. done. Qed.

Lemma eval_wp s : wp eval (fun _ s' => read_only s s') s.
Proof.
  unfold eval. do 3 tr_step.
  eapply wp_mono.
  { apply (wp_fold (fun _ s' => read_only s s') (fun _ s' => read_only s s')); [|done].
    intros st x s1 _ Hs1. eapply wp_mono; [by apply eval_step_read_only|].
    by intros [?|?] ?. }
  intros [st|e] s1 Hs1; [|done]. cbn beta.
  eapply wp_mono; [apply print_info_read_only|].
  intros r s2 [_ Hs2]. by eapply read_only_trans.
Qed.

Lemma dispatch_ok_variant m inputs loc loc' :
  dispatch m inputs loc = Ok loc' ->
  obj_eq m LM_ANSWERS = true \/ obj_eq m LM_QUESTION_ANSWERS = true.
Proof.
  unfold dispatch. destruct (obj_eq m LM_ANSWERS); [by left|].
  destruct (obj_eq m LM_QUESTION_ANSWERS); [by right|done].
Qed.

(** No object is both a variant constant and a network. *)
Definition plain_object m : Prop :=
  forall v, obj_eq m v = true -> obj_net m = None.

Lemma eval_step_raises st item s :
  plain_object (model (self s)) ->
  wp (eval_step st item) (fun r _ => is_ok r = false) s.
Proof.
  intros Hm. destruct item as [batch_itr inputs]. unfold eval_step.
  tr_run; try done.
  all: unfold call_model; tr_run; try done.
  all: apply dispatch_ok_variant in E as [E|E]; apply Hm in E;
    unfold obj_call in *; cbn [self] in *; rewrite E in *; done.
Qed.

Lemma eval_stuck s :
  plain_object (model (self s)) -> dataloader (self s) <> [] ->
  is_ok (fst (eval s)) = false.
Proof.
  intros Hm Hd. change (wp eval (fun r _ => is_ok r = false) s).
  unfold eval. do 3 tr_step.
  destruct (dataloader (self s)) as [|x dl]; [done|].
  cbn [py_enumerate imap exn_fold]. tr_step.
  eapply wp_mono; [by apply eval_step_raises|]. by intros [st|e] s'.
Qed.

Lemma eval_empty_run s :
  dataloader (self s) = [] ->
  eval s =
  (Ok tt, mkState (self s) (set_console (console (world s) ++
     [mkLog "Epoch = %d, [%s] Loss = %.2f"
        (ATuple [AInt 1; AStr "Development"; ANum (lmean [])]);
      mkLog "Epoch = %d, [%s] Perplexity = %.2f"
        (ATuple [AInt 1; AStr "Development"; ANum (lmean [])])]) (world s))).
Proof.
  intros Hd. unfold eval, _print_info, print. tr_unfold. rewrite Hd.
  cbn. unfold set_console. cbn. by rewrite <- app_assoc.
Qed.


End EvalFacts.

(** C7: [eval] is read-only: whatever it returns or raises, the trainer
    object, every network (weights and gradients), numpy's generator and the
    file system are what they were; only the console and the record of
    forward calls grow. *)
Theorem eval_read_only `{Env} `{Backend} (s : State) :
  read_only s (snd (eval s)).
Proof. pose proof (eval_wp s) as Hw. unfold wp in Hw. exact Hw. Qed.

(** When [self.model] is an object that is not both equal to a variant
    constant and callable, [eval] on a non-empty loader raises at its first
    batch: no loss is ever averaged. *)
Theorem eval_raises `{Env} `{Backend} (s : State) :
  plain_object (model (self s)) -> dataloader (self s) <> [] ->
  is_ok (fst (eval s)) = false.
Proof. apply eval_stuck. Qed.

(** On an empty loader [eval] returns [None] after printing the two
    summary lines, whose value is the mean of the empty list, under epoch 1
    and the label Development. *)
Theorem eval_empty `{Env} `{Backend} (s : State) :
  dataloader (self s) = [] ->
  eval s =
  (Ok tt, mkState (self s) (set_console (console (world s) ++
     [mkLog "Epoch = %d, [%s] Loss = %.2f"
        (ATuple [AInt 1; AStr "Development"; ANum (lmean [])]);
      mkLog "Epoch = %d, [%s] Perplexity = %.2f"
        (ATuple [AInt 1; AStr "Development"; ANum (lmean [])])]) (world s))).
Proof. apply eval_empty_run. Qed.

Section EvalCalls.
Context `{Env} `{Backend}.
Implicit Types (s : State).

(** What holds of every call [eval] makes for a model [m]. *)
Definition eval_call (m : PyObj) (args : ForwardArgs) : Prop :=
  fa_teacher_forcing args = false /\ call_ok m args.

Lemma eval_step_calls st item s :
  wp (eval_step st item) (fun _ s' => calls_since (eval_call (model (self s))) s s') s.
Proof.
  destruct item as [batch_itr inputs]. unfold eval_step.
  tr_run; try calls_refl.
  all: (eapply wp_mono; [apply (call_model_calls (eval_call (model (self s))))|]).
  all: try (split; [done|call_solve]).
  all: intros [call|e] s1 Hs1; [|done]; tr_run; try done.
  all: eapply wp_mono; [apply print_progress_calls|].
  all: intros [[]|e] s2 Hs2; tr_run; eauto using calls_since_trans.
Qed.

Lemma eval_calls s :
  wp eval (fun _ s' => calls_since (eval_call (model (self s))) s s') s.
Proof.
  unfold eval. do 3 tr_step.
  set (P := eval_call (model (self s))).
  eapply wp_mono.
  { apply (wp_fold (fun _ s' => calls_since P s s') (fun _ s' => calls_since P s s'));
      [|calls_refl].
    intros st x s1 _ Hs1. eapply wp_mono; [apply eval_step_calls|].
    destruct Hs1 as [Hs1 He]. rewrite Hs1. fold P.
    intros [?|?] s2 Hs2; apply (calls_since_trans P s s1 s2); done. }
  intros [st|e] s1 Hs1; [|done]. cbn beta. unfold _print_info. tr_run.
  eapply calls_since_trans; [exact Hs1|]. calls_refl.
Qed.

End EvalCalls.

(** ** The batch that succeeds *)

Section EvalStep.
Context `{Env} `{Backend}.
Implicit Types (s : State).

(** The two progress lines of a batch of [eval], printed when the batch
    index is a multiple of [print_every]. *)
Definition dev_progress (batch_itr rem : Z) (v : Num) : list (LogLine Num) :=
  if decide (rem = 0%Z) then
    [mkLog "[Dev] Loss at batch %d = %.2f" (ATuple [AInt batch_itr; ANum v]);
     mkLog "[Dev] Perplexity at batch %d = %.2f"
       (ATuple [AInt batch_itr; ANum (_perplexity_from_loss v)])]
  else [].

Lemma eval_step_run st batch_itr item a l s n net a' tg outputs rng' lens v rem :
  unpack2 item = Ok (a, l) ->
  obj_eq (model (self s)) LM_ANSWERS = true ->
  obj_eq (model (self s)) LM_QUESTION_ANSWERS_REVIEWS = false ->
  obj_net (model (self s)) = Some n ->
  nets (world s) !! n = Some net ->
  _var (Data a) = Ok a' -> _var (VarOf a') = Ok tg ->
  let args := mkArgs None None a' false in
  forward (net_weights net) args (torch_rng (world s)) = (Ok outputs, rng') ->
  as_int_list l = Ok lens ->
  _batch_loss (criterion (t_dtype tg)) outputs lens (t_rows tg) = Ok (Var v) ->
  py_mod batch_itr (print_every (self s)) = Ok rem ->
  eval_step st (batch_itr, item) s =
  (Ok (mkEval (mkLocals (Some a) (Some l) (quesion_seqs (e_locals st))
                 (review_seqs (e_locals st)))
         (dev_losses st ++ [v]) (dev_perplexities st ++ [_perplexity_from_loss v])),
   mkState (self s)
     (set_console (console (world s) ++ dev_progress batch_itr rem v)
        (set_torch_rng rng' (set_calls (calls (world s) ++ [(n, args)]) (world s))))).
Proof.
  intros Hi Ha Hr Hn Hnet Hv Htg args Hfwd Hl Hloss Hrem.
  unfold eval_step, call_model, print_progress, print, obj_call. tr_unfold.
  rewrite (dispatch_pair _ item a l _ Ha Hi).
  cbn [local of_option answer_seqs answer_lengths quesion_seqs review_seqs].
  repeat (progress (
    tr_simpl; rewrite ?Ha, ?Hr, ?Hn, ?Hnet, ?Hv, ?Htg, ?Hl; fold args;
    rewrite ?Hfwd, ?Hloss, ?Hrem)).
  cbn [local of_option answer_seqs answer_lengths quesion_seqs review_seqs loss_data].
  repeat (progress (
    tr_simpl; rewrite ?Ha, ?Hr, ?Hn, ?Hnet, ?Hv, ?Htg, ?Hl; fold args;
    rewrite ?Hfwd, ?Hloss, ?Hrem)).
  rewrite py_index_last. unfold dev_progress, set_console, set_torch_rng, set_calls.
  destruct (decide (rem = 0%Z)); tr_simpl; [by rewrite <- app_assoc|by rewrite app_nil_r].
Qed.

(** [eval] on a loader of one batch, for such a model. *)
Lemma eval_one_batch_run a l s n net a' tg outputs rng' lens v rem :
  dataloader (self s) = [VTuple [a; l]] ->
  obj_eq (model (self s)) LM_ANSWERS = true ->
  obj_eq (model (self s)) LM_QUESTION_ANSWERS_REVIEWS = false ->
  obj_net (model (self s)) = Some n ->
  nets (world s) !! n = Some net ->
  _var (Data a) = Ok a' -> _var (VarOf a') = Ok tg ->
  let args := mkArgs None None a' false in
  forward (net_weights net) args (torch_rng (world s)) = (Ok outputs, rng') ->
  as_int_list l = Ok lens ->
  _batch_loss (criterion (t_dtype tg)) outputs lens (t_rows tg) = Ok (Var v) ->
  py_mod 0 (print_every (self s)) = Ok rem ->
  eval s =
  (Ok tt,
   mkState (self s)
     (set_console
        (console (world s) ++ dev_progress 0 rem v ++
         [mkLog "Epoch = %d, [%s] Loss = %.2f"
            (ATuple [AInt 1; AStr "Development"; ANum (lmean [v])]);
          mkLog "Epoch = %d, [%s] Perplexity = %.2f"
            (ATuple [AInt 1; AStr "Development";
                     ANum (lmean [_perplexity_from_loss v])])])
        (set_torch_rng rng' (set_calls (calls (world s) ++ [(n, args)]) (world s))))).
Proof.
  intros Hd Ha Hr Hn Hnet Hv Htg args Hfwd Hl Hloss Hrem.
  unfold eval. unfold get_self at 1, exn_gets, exn_bind at 1. rewrite Hd.
  cbn [py_enumerate imap exn_fold]. unfold exn_bind at 1 2.
  rewrite (eval_step_run _ 0 _ a l s n net a' tg outputs rng' lens v rem) by done.
  unfold _print_info, print, set_console, set_torch_rng, set_calls. tr_unfold. tr_simpl.
  cbn [e_locals dev_losses dev_perplexities app]. by rewrite <- !app_assoc.
Qed.

End EvalStep.

Section BadBatch.
Context `{Env} `{Backend}.
Implicit Types (s : State).

(** A batch the variant chain refuses ends [eval] before any call of the
    network: nothing has changed. *)
Lemma eval_bad_batch s item rest e :
  dataloader (self s) = item :: rest ->
  dispatch (model (self s)) item no_locals = Raise e ->
  eval s = (Raise e, s).
Proof.
  intros Hd He. unfold eval. tr_unfold. rewrite Hd.
  cbn [py_enumerate imap exn_fold]. unfold eval_step at 1. tr_unfold.
  cbn [e_locals]. rewrite He. by destruct s.
Qed.

End BadBatch.

Section EvalZero.
Context `{Env} `{Backend}.
Implicit Types (s : State).

(** With [print_every = 0] the batch that would succeed raises at the test
    [batch_itr % self.print_every], after the forward call. *)
Lemma eval_step_zero st batch_itr item a l s n net a' tg outputs rng' lens v :
  unpack2 item = Ok (a, l) ->
  obj_eq (model (self s)) LM_ANSWERS = true ->
  obj_eq (model (self s)) LM_QUESTION_ANSWERS_REVIEWS = false ->
  obj_net (model (self s)) = Some n ->
  nets (world s) !! n = Some net ->
  _var (Data a) = Ok a' -> _var (VarOf a') = Ok tg ->
  let args := mkArgs None None a' false in
  forward (net_weights net) args (torch_rng (world s)) = (Ok outputs, rng') ->
  as_int_list l = Ok lens ->
  _batch_loss (criterion (t_dtype tg)) outputs lens (t_rows tg) = Ok (Var v) ->
  print_every (self s) = 0%Z ->
  eval_step st (batch_itr, item) s =
  (Raise ZeroDivisionError,
   mkState (self s)
     (set_torch_rng rng' (set_calls (calls (world s) ++ [(n, args)]) (world s)))).
Proof.
  intros Hi Ha Hr Hn Hnet Hv Htg args Hfwd Hl Hloss Hpe.
  unfold eval_step, call_model, print_progress, print, obj_call. tr_unfold.
  rewrite (dispatch_pair _ item a l _ Ha Hi).
  cbn [local of_option answer_seqs answer_lengths quesion_seqs review_seqs].
  repeat (progress (
    tr_simpl; rewrite ?Ha, ?Hr, ?Hn, ?Hnet, ?Hv, ?Htg, ?Hl; fold args;
    rewrite ?Hfwd, ?Hloss, ?Hpe, ?py_mod_zero)).
  cbn [local of_option answer_seqs answer_lengths quesion_seqs review_seqs loss_data].
  repeat (progress (
    tr_simpl; rewrite ?Ha, ?Hr, ?Hn, ?Hnet, ?Hv, ?Htg, ?Hl; fold args;
    rewrite ?Hfwd, ?Hloss, ?Hpe, ?py_mod_zero)).
  done.
Qed.

End EvalZero.

(** C36: every call of the network [eval] makes is an [eval_call]: teacher
    forcing is off, questions and reviews are passed by the same rule as in
    [train_batch], and every tensor is a float tensor. This holds however
    [eval] ends, and [eval] leaves the trainer and the network addresses as
    they were. *)
Theorem eval_never_teacher_forces `{Env} `{Backend} (s : State) :
  calls_since (eval_call (model (self s))) s (snd (eval s)).
Proof. exact (eval_calls s). Qed.


(** [eval] on a loader of one batch, for a model that equals
    [LM_ANSWERS] and can be called, when every library call succeeds: the
    network is called once on the answers alone with teacher forcing off,
    the progress lines are printed when [print_every] divides zero, then the
    two summary lines with the means of the one loss and of its perplexity,
    each as the format followed by its arguments; the trainer, the networks
    and the files are as they were. *)
Theorem eval_one_batch `{Env} `{Backend} (s : State) a l n net a' tg outputs rng' lens v
    rem :
  dataloader (self s) = [VTuple [a; l]] ->
  obj_eq (model (self s)) LM_ANSWERS = true ->
  obj_eq (model (self s)) LM_QUESTION_ANSWERS_REVIEWS = false ->
  obj_net (model (self s)) = Some n ->
  nets (world s) !! n = Some net ->
  _var (Data a) = Ok a' -> _var (VarOf a') = Ok tg ->
  let args := mkArgs None None a' false in
  forward (net_weights net) args (torch_rng (world s)) = (Ok outputs, rng') ->
  as_int_list l = Ok lens ->
  _batch_loss (criterion (t_dtype tg)) outputs lens (t_rows tg) = Ok (Var v) ->
  py_mod 0 (print_every (self s)) = Ok rem ->
  eval s =
  (Ok tt,
   mkState (self s)
     (set_console
        (console (world s) ++ dev_progress 0 rem v ++
         [mkLog "Epoch = %d, [%s] Loss = %.2f"
            (ATuple [AInt 1; AStr "Development"; ANum (lmean [v])]);
          mkLog "Epoch = %d, [%s] Perplexity = %.2f"
            (ATuple [AInt 1; AStr "Development";
                     ANum (lmean [_perplexity_from_loss v])])])
        (set_torch_rng rng' (set_calls (calls (world s) ++ [(n, args)]) (world s))))).
Proof. apply eval_one_batch_run. Qed.

(** ** On the small instance *)

#[local] Existing Instance toy_env.
#[local] Existing Instance toy_backend.

Lemma eval_raises_witness : is_ok (fst (eval toy_state)) = false.
Proof. apply eval_raises; [by intros v|done]. Defined.

Lemma eval_empty_witness :
  fst (eval (mkState (mkTrainer 1 1 None [] None py_none [] [] None None) toy_world)) = Ok tt.
Proof. by rewrite eval_empty. Defined.

(** An object that equals [LM_ANSWERS] and is the network at address 0. *)
Definition answers_model : PyObj :=
  {| obj_eq := fun v => bool_decide (v = LM_ANSWERS); obj_net := Some 0%nat |}.

Lemma eval_one_batch_witness :
  fst (eval (mkState (set_model answers_model toy_trainer) toy_world)) = Ok tt.
Proof.
  erewrite eval_one_batch; [reflexivity|try reflexivity..].
Defined.
