(* ===== verification/EvalPass.v ===== *)
(** * The evaluation pass over a loader

    [Trainer.eval] of [src/language_models/trainer.py] on a loader of any
    length, for a model that can be called and equals [LM_ANSWERS] or
    [LM_QUESTION_ANSWERS], the two variants for which the variant chain
    binds what an iteration reads. The pass of the design is written as a
    function of the weights, of torch's generator and of the batches
    ([dev_pass]); [eval] is shown to compute it, batch after batch, and to
    print its means. *)

From Stdlib Require Import ZArith QArith Qcanon.
From stdpp Require Import prelude strings gmap.
From S2P Require Import Prelude Tensor Loss PyData Checkpoint Trainer Toy Training Batch.
From S2P Require Import Evaluation.

(** ** The pass of the design *)

Section Pass.
Context `{Env} `{Backend}.
Implicit Types (s : State) (w : Weights) (rng : Rng) (item : PyVal) (k pe : Z) (qa : bool).
Implicit Types (ds : list Num) (tr : list (Num * ForwardArgs)).

(** The items of a batch: answers and lengths, paired with the questions
    when the variant has them ([qa]). *)
Definition dev_inputs (qa : bool) item : Res (PyVal * PyVal * option PyVal) :=
  if qa then
    xq <- unpack2 item ;;
    al <- unpack2 (fst xq) ;;
    Ok (fst al, snd al, Some (snd xq))
  else
    al <- unpack2 item ;;
    Ok (fst al, snd al, None).

Definition dev_questions (q : option PyVal) : Res (option Tensor) :=
  match q with
  | Some q0 => res_map Some (_var (Data q0))
  | None => Ok None
  end.

(** One batch: the answers, and the questions if any, become float
    tensors, the network is called on them without reviews and without
    teacher forcing, and the loss of its outputs against the answers is a
    number. *)
Definition dev_batch qa w rng item : Res (Num * ForwardArgs * Rng) :=
  x <- dev_inputs qa item ;;
  a' <- _var (Data (fst (fst x))) ;;
  q' <- dev_questions (snd x) ;;
  tg <- _var (VarOf a') ;;
  let args := mkArgs q' None a' false in
  outputs <- fst (forward w args rng) ;;
  lens <- as_int_list (snd (fst x)) ;;
  loss <- _batch_loss (criterion (t_dtype tg)) outputs lens (t_rows tg) ;;
  d <- loss_data loss ;;
  Ok (d, args, snd (forward w args rng)).

(** The batches in loader order; a batch starts from the generator the
    batch before it left. *)
Fixpoint dev_pass qa w rng (items : list PyVal) : Res (list (Num * ForwardArgs) * Rng) :=
  match items with
  | [] => Ok ([], rng)
  | item :: rest =>
      r <- dev_batch qa w rng item ;;
      p <- dev_pass qa w (snd r) rest ;;
      Ok (fst r :: fst p, snd p)
  end.

(** The progress lines of the batches from index [k] on. *)
Fixpoint dev_lines pe k ds : list (LogLine Num) :=
  match ds with
  | [] => []
  | d :: ds' => dev_progress k (k mod pe) d ++ dev_lines pe (k + 1) ds'
  end.

(** The two lines [_print_info] ends the pass with. *)
Definition dev_summary ds : list (LogLine Num) :=
  [mkLog "Epoch = %d, [%s] Loss = %.2f"
     (ATuple [AInt 1; AStr "Development"; ANum (lmean ds)]);
   mkLog "Epoch = %d, [%s] Perplexity = %.2f"
     (ATuple [AInt 1; AStr "Development"; ANum (lmean (_perplexity_from_loss <$> ds))])].

(** The state after the calls of [tr] on network [n]: the calls are
    recorded, the generator is [rng], the lines are on the console. *)
Definition after_pass s (n : NetId) tr rng (lines : list (LogLine Num)) : State :=
  mkState (self s)
    (set_console (console (world s) ++ lines)
       (set_torch_rng rng
          (set_calls (calls (world s) ++ ((fun x => (n, x.2)) <$> tr)) (world s)))).

(** The loader from index [k]. *)
Definition enum_from {A} k (l : list A) : list (Z * A) :=
  imap (fun i x => ((k + Z.of_nat i)%Z, x)) l.

Lemma enum_from_cons {A} k (x : A) l : enum_from k (x :: l) = (k, x) :: enum_from (k + 1) l.
Proof.
  unfold enum_from. cbn [imap]. rewrite Z.add_0_r. f_equal.
  apply imap_ext. intros i y _. cbn. f_equal. lia.
Qed.

Lemma py_enumerate_from {A} (l : list A) : py_enumerate l = enum_from 0 l.
Proof. unfold py_enumerate, enum_from. by apply imap_ext. Qed.

(** What [eval] assumes of the trainer: a model that equals [LM_ANSWERS],
    or, for the pass with questions, [LM_QUESTION_ANSWERS] and not
    [LM_ANSWERS]; that does not equal the variant with reviews; that is
    network [n] of the store; and a cadence that is not zero. *)
Definition can_eval (qa : bool) s (n : NetId) (net : Net) : Prop :=
  obj_eq (model (self s)) LM_ANSWERS = negb qa /\
  (qa = true -> obj_eq (model (self s)) LM_QUESTION_ANSWERS = true) /\
  obj_eq (model (self s)) LM_QUESTION_ANSWERS_REVIEWS = false /\
  obj_net (model (self s)) = Some n /\
  nets (world s) !! n = Some net /\
  print_every (self s) <> 0%Z.

Lemma can_eval_after qa s n net tr rng lines :
  can_eval qa s n net -> can_eval qa (after_pass s n tr rng lines) n net.
Proof. done. Qed.

Lemma after_pass_nil s n : after_pass s n [] (torch_rng (world s)) [] = s.
Proof.
  destruct s as [t []]. unfold after_pass, set_console, set_torch_rng, set_calls.
  tr_simpl. cbn [fmap list_fmap]. by rewrite !app_nil_r.
Qed.

Lemma after_pass_cons s n d args tr rng1 rng l1 l2 :
  after_pass (after_pass s n [(d, args)] rng1 l1) n tr rng l2
  = after_pass s n ((d, args) :: tr) rng (l1 ++ l2).
Proof.
  unfold after_pass, set_console, set_torch_rng, set_calls. tr_simpl.
  by rewrite <- !app_assoc.
Qed.

(** One iteration of the loop on a batch of the pass. *)
End Pass.

(** The steps of an iteration after the conversion of its inputs. *)
Ltac dev_locals :=
  cbn [res_bind res_map fst snd local of_option answer_seqs answer_lengths quesion_seqs
       review_seqs].

Ltac dev_tail :=
  dev_locals;
  match goal with |- context [_var (VarOf ?a)] => destruct (_var (VarOf a)) as [tg|e] end;
  [|done]; tr_simpl;
  match goal with Hn : obj_net _ = Some _ |- _ => rewrite Hn end; tr_simpl;
  match goal with Hnet : nets _ !! _ = Some _ |- _ => rewrite Hnet end; tr_simpl;
  match goal with |- context [forward ?w ?x ?r] =>
    destruct (forward w x r) as [[outputs|e] rng1] end; [|done]; tr_simpl; dev_locals;
  match goal with |- context [as_int_list ?l] => destruct (as_int_list l) as [lens|e] end;
  [|done]; tr_simpl;
  match goal with |- context [_batch_loss ?c ?o ?l ?t] =>
    destruct (_batch_loss c o l t) as [[|d]|e] end; [done| |done];
  cbn [loss_data]; tr_simpl; unfold py_mod; rewrite decide_False by done; tr_simpl;
  eexists; unfold dev_progress, after_pass, set_console, set_torch_rng, set_calls;
  destruct (decide (_ = 0%Z)); tr_simpl; rewrite ?py_index_last; tr_simpl;
  rewrite ?app_nil_r, <- ?app_assoc.

Section PassRuns.
Context `{Env} `{Backend}.
Implicit Types (s : State) (w : Weights) (rng : Rng) (item : PyVal) (k pe : Z) (qa : bool).
Implicit Types (ds : list Num) (tr : list (Num * ForwardArgs)).

(** One iteration of [eval] computes a batch of the pass, and raises what
    it raises. *)
Lemma eval_step_dev qa st k item s n net :
  can_eval qa s n net ->
  match dev_batch qa (net_weights net) (torch_rng (world s)) item with
  | Ok (d, args, rng') =>
      exists loc, eval_step st (k, item) s =
        (Ok (mkEval loc (dev_losses st ++ [d])
               (dev_perplexities st ++ [_perplexity_from_loss d])),
         after_pass s n [(d, args)] rng' (dev_progress k (k mod print_every (self s)) d))
  | Raise e => fst (eval_step st (k, item) s) = Raise e
  end.
Proof.
  intros (Ha & Hq & Hr & Hn & Hnet & Hpe).
  unfold dev_batch, dev_inputs, dev_questions, eval_step, dispatch, call_model, obj_call.
  unfold print_progress, print. tr_unfold. rewrite ?Ha, ?Hr, ?Hn.
  destruct qa; cbn [negb]; [rewrite (Hq eq_refl)|].
  - destruct (unpack2 item) as [[x q]|e]; [|done]. cbn [res_bind fst snd].
    destruct (unpack2 x) as [[a l]|e]; [|done]. dev_locals.
    destruct (_var (Data a)) as [a'|e]; [|done]. dev_locals.
    destruct (_var (Data q)) as [q'|e]; [|done]. by dev_tail.
  - destruct (unpack2 item) as [[a l]|e]; [|done]. dev_locals.
    destruct (_var (Data a)) as [a'|e]; [|done]. by dev_tail.
Qed.

Lemma eval_step_pass qa st k item s n net d args rng' :
  can_eval qa s n net ->
  dev_batch qa (net_weights net) (torch_rng (world s)) item = Ok (d, args, rng') ->
  exists loc, eval_step st (k, item) s =
    (Ok (mkEval loc (dev_losses st ++ [d]) (dev_perplexities st ++ [_perplexity_from_loss d])),
     after_pass s n [(d, args)] rng' (dev_progress k (k mod print_every (self s)) d)).
Proof. intros Hs Hb. pose proof (eval_step_dev qa st k item s n net Hs) as Hd. by rewrite Hb in Hd. Qed.

Lemma eval_step_fail qa st k item s n net e :
  can_eval qa s n net ->
  dev_batch qa (net_weights net) (torch_rng (world s)) item = Raise e ->
  fst (eval_step st (k, item) s) = Raise e.
Proof. intros Hs Hb. pose proof (eval_step_dev qa st k item s n net Hs) as Hd. by rewrite Hb in Hd. Qed.

Lemma eval_fold_pass qa items k st s n net tr rng' :
  can_eval qa s n net ->
  dev_pass qa (net_weights net) (torch_rng (world s)) items = Ok (tr, rng') ->
  exists loc, exn_fold (enum_from k items) eval_step st s =
    (Ok (mkEval loc (dev_losses st ++ tr.*1)
           (dev_perplexities st ++ (_perplexity_from_loss <$> tr.*1))),
     after_pass s n tr rng' (dev_lines (print_every (self s)) k tr.*1)).
Proof.
  revert k st s tr. induction items as [|item items IH]; intros k st s tr Hs.
  - intros [= <- <-]. exists (e_locals st). cbn [enum_from imap exn_fold fmap list_fmap dev_lines].
    rewrite !app_nil_r, after_pass_nil. by destruct st.
  - cbn [dev_pass]. intros ([[d args] rng1] & Hb & ([tr' rng2] & Hp & [= <- <-])%res_bind_ok
      )%res_bind_ok.
    destruct (eval_step_pass qa st k item s n net d args rng1 Hs Hb) as [loc Hstep].
    rewrite enum_from_cons. cbn [exn_fold]. unfold exn_bind at 1. rewrite Hstep.
    edestruct (IH (k + 1)%Z) as [loc' ->]; [by apply can_eval_after|exact Hp|].
    exists loc'. cbn [dev_losses dev_perplexities fmap list_fmap fst dev_lines].
    by rewrite after_pass_cons, <- !app_assoc.
Qed.

(** [eval] computes the pass and prints its means. *)
Lemma eval_pass_run qa s n net tr rng' :
  can_eval qa s n net ->
  dev_pass qa (net_weights net) (torch_rng (world s)) (dataloader (self s)) = Ok (tr, rng') ->
  eval s = (Ok tt, after_pass s n tr rng'
              (dev_lines (print_every (self s)) 0 tr.*1 ++ dev_summary tr.*1)).
Proof.
  intros Hs Hp. unfold eval. unfold get_self at 1, exn_gets, exn_bind at 1.
  rewrite py_enumerate_from. unfold exn_bind at 1.
  destruct (eval_fold_pass qa _ 0 (mkEval no_locals [] []) s n net tr rng' Hs Hp) as [loc ->].
  unfold _print_info, print, after_pass, dev_summary, set_console, set_torch_rng, set_calls.
  tr_unfold. tr_simpl. cbn [dev_losses dev_perplexities app]. by rewrite <- !app_assoc.
Qed.

Lemma eval_fold_fail qa items k st s n net e :
  can_eval qa s n net ->
  dev_pass qa (net_weights net) (torch_rng (world s)) items = Raise e ->
  fst (exn_fold (enum_from k items) eval_step st s) = Raise e.
Proof.
  revert k st s. induction items as [|item items IH]; intros k st s Hs; [done|].
  cbn [dev_pass]. rewrite enum_from_cons. cbn [exn_fold]. unfold exn_bind at 1.
  destruct (dev_batch _ _ _ item) as [[[d args] rng1]|e1] eqn:Hb.
  - destruct (eval_step_pass qa st k item s n net d args rng1 Hs Hb) as [loc ->].
    cbn [res_bind snd]. destruct (dev_pass _ _ rng1 items) as [p|e1] eqn:Hp; [done|].
    intros [= <-]. by eapply IH; [apply can_eval_after|].
  - intros [= <-]. pose proof (eval_step_fail qa st k item s n net _ Hs Hb) as Hf.
    destruct (eval_step st (k, item) s) as [r s1]. cbn [fst] in Hf. by subst r.
Qed.

Lemma eval_pass_fail qa s n net e :
  can_eval qa s n net ->
  dev_pass qa (net_weights net) (torch_rng (world s)) (dataloader (self s)) = Raise e ->
  fst (eval s) = Raise e.
Proof.
  intros Hs Hp. unfold eval. unfold get_self at 1, exn_gets, exn_bind at 1.
  rewrite py_enumerate_from. unfold exn_bind at 1.
  pose proof (eval_fold_fail qa _ 0 (mkEval no_locals [] []) s n net e Hs Hp) as Hf.
  destruct (exn_fold _ _ _ _) as [r s1]. cbn [fst] in Hf. by subst r.
Qed.

End PassRuns.

(** C14: [eval] computes the pass of the design. For a model that is a
    network of the store and equals [LM_ANSWERS], or equals
    [LM_QUESTION_ANSWERS] and not [LM_ANSWERS] (the pass with questions),
    and a cadence that is not zero: when the pass succeeds on every batch of
    the loader, [eval] returns after one forward call per batch, in loader
    order, on the answers and on the questions if the variant has them,
    without reviews and without teacher forcing, each from the generator the
    call before left; it has printed the progress lines of the batches whose
    index the cadence divides and then the means of the losses and of their
    perplexities; nothing else has changed. When the pass fails, [eval]
    raises its exception. *)
Theorem eval_computes_pass `{Env} `{Backend} (qa : bool) (s : State) n net :
  can_eval qa s n net ->
  match dev_pass qa (net_weights net) (torch_rng (world s)) (dataloader (self s)) with
  | Ok (tr, rng') =>
      eval s = (Ok tt, after_pass s n tr rng'
                  (dev_lines (print_every (self s)) 0 tr.*1 ++ dev_summary tr.*1))
  | Raise e => fst (eval s) = Raise e
  end.
Proof.
  intros Hs. destruct (dev_pass _ _ _ _) as [[tr rng']|e] eqn:Hp.
  - by apply (eval_pass_run qa s n net).
  - by apply (eval_pass_fail qa s n net).
Qed.

(** ** A pass over two batches *)

#[local] Existing Instance toy_env.
#[local] Existing Instance toy_backend.

(** An object that equals [LM_QUESTION_ANSWERS] and can be called. *)
Definition questions_model : PyObj :=
  {| obj_eq := fun v => bool_decide (v = LM_QUESTION_ANSWERS); obj_net := Some 0%nat |}.

(** A loader of two batches with questions, one a tuple and one a list, on a
    trainer that prints every second batch. *)
Definition two_batches : list PyVal :=
  [VTuple [VTuple [toy_a; toy_l]; toy_q]; VList [VList [toy_a; toy_l]; toy_q]].

Definition pass_state : State :=
  mkState (mkTrainer 1 2 (Some toy_params) two_batches None questions_model [] [] None None)
    toy_world.

Lemma pass_state_can_eval : can_eval true pass_state 0%nat (mkNet (Qc_of_Z 1) None false).
Proof. by repeat split. Qed.

Lemma eval_computes_pass_witness :
  fst (eval pass_state) = Ok tt /\
  fst <$> calls (world (snd (eval pass_state))) = [0%nat; 0%nat] /\
  length (console (world (snd (eval pass_state)))) = 4%nat.
Proof.
  pose proof (eval_computes_pass true pass_state _ _ pass_state_can_eval) as Hw.
  match type of Hw with match ?x with _ => _ end => set (p := x) in Hw end.
  vm_compute in p. subst p. cbv beta iota in Hw. rewrite Hw. by vm_compute.
Defined.
