(* ===== verification/Types.v ===== *)
(** * Types

    The two places where the trainer of [src/language_models/trainer.py]
    depends on the type of a value. First the tensors: [_var] gives every
    tensor the float type, so the network and the criterion only see float
    tensors; a criterion that takes its targets from a [LongTensor] only, as
    [nn.NLLLoss] does, refuses every batch. Second the hyper-parameters: a
    type for each key, read off the way the trainer uses it, the stores that
    respect it, and the reads and products that cannot fail on such a store. *)

From Stdlib Require Import ZArith QArith Qcanon.
From stdpp Require Import prelude strings gmap.
From S2P Require Import Prelude Tensor Loss PyData Checkpoint Trainer Toy.
From S2P Require Import Training Batch Evaluation.

(** ** Tensor types *)

Section Strict.
Context `{Env} `{Backend}.

(** A criterion that, like [nn.NLLLoss], takes its targets from a
    [LongTensor] only. *)
Definition strict_criterion : Prop :=
  forall dt rows toks, dt <> LongTensor -> is_ok (criterion dt rows toks) = false.

Lemma strict_no_tensor v t outputs lens x :
  strict_criterion -> _var v = Ok t ->
  _batch_loss (criterion (t_dtype t)) outputs lens (t_rows t) <> Ok (Var x).
Proof.
  intros Hs Hv. apply batch_loss_no_tensor. intros rows toks. apply Hs.
  rewrite (var_dtype _ _ Hv). apply float_dtype_not_long.
Qed.

End Strict.

(** Splits on the loss a strict criterion gave: it is the number zero. *)
Ltac strict_case Hs :=
  match goal with
  | E : _batch_loss _ _ _ _ = Ok ?l |- _ =>
      destruct l as [|?];
      [|exfalso; eapply strict_no_tensor; [exact Hs| |exact E]; eassumption]
  end.

Section StrictRuns.
Context `{Env} `{Backend}.
Implicit Types (s : State).

Lemma train_batch_strict q r a l s :
  strict_criterion -> wp (train_batch q r a l) (fun r _ => is_ok r = false) s.
Proof.
  intros Hs. unfold train_batch, zero_grad, random, call_model.
  tr_run; try done.
  all: strict_case Hs; unfold backward; by tr_run.
Qed.

Lemma eval_step_strict st item s :
  strict_criterion -> wp (eval_step st item) (fun r _ => is_ok r = false) s.
Proof.
  intros Hs. destruct item as [batch_itr inputs]. unfold eval_step, call_model.
  tr_run; try done.
  all: strict_case Hs; done.
Qed.

Lemma eval_strict s :
  strict_criterion -> dataloader (self s) <> [] ->
  wp eval (fun r _ => is_ok r = false) s.
Proof.
  intros Hs Hd. unfold eval. do 3 tr_step.
  destruct (dataloader (self s)) as [|x dl]; [done|].
  cbn [py_enumerate imap exn_fold]. tr_step.
  eapply wp_mono; [by apply eval_step_strict|]. by intros [st|e] s'.
Qed.

End StrictRuns.

(** ** The typed hyper-parameter store *)

(** The types of hyper-parameters: an integer, a number (integer or float),
    a string. *)
Inductive PType : Type := TInt | TNum | TStr.

#[export] Instance PType_eq_dec : EqDecision PType.
Proof. solve_decision. Defined.

Definition has_type (v : PVal) (t : PType) : bool :=
  match t, v with
  | TInt, PInt _ => true
  | TNum, (PInt _ | PFloat _) => true
  | TStr, PStr _ => true
  | _, _ => false
  end.

(** The type the trainer's use of each key asks for. *)
Definition key_type (k : Key) : PType :=
  match k with
  | VOCAB_SIZE | HDIM | OUTPUT_MAX_LEN | H_LAYERS | EPOCHS | DECAY_START_EPOCH => TInt
  | DROPOUT | TEACHER_FORCING_RATIO | LR | LR_DECAY => TNum
  | MODEL_NAME => TStr
  end.

Definition well_typed (p : Params) : Prop :=
  map_Forall (fun k v => has_type v (key_type k) = true) p.

#[export] Instance well_typed_dec p : Decision (well_typed p).
Proof. unfold well_typed. apply _. Defined.

(** [self.params] is well typed when it is [None] or a well-typed store. *)
Definition typed_params (p : option Params) : Prop :=
  match p with
  | Some p => well_typed p
  | None => True
  end.

Section Canonical.
Implicit Types (v : PVal) (p : option Params).

Lemma int_canonical v : has_type v TInt = true -> exists z, v = PInt z.
Proof. destruct v; try done. eauto. Qed.

Lemma num_canonical v :
  has_type v TNum = true -> (exists z, v = PInt z) \/ (exists q, v = PFloat q).
Proof. destruct v; try done; eauto. Qed.

Lemma str_canonical v : has_type v TStr = true -> exists s, v = PStr s.
Proof. destruct v; try done. eauto. Qed.

Lemma params_get_typed p k v :
  typed_params p -> params_get p k = Ok v -> has_type v (key_type k) = true.
Proof.
  destruct p as [p|]; [|done]. cbn. intros Hp Hk.
  destruct (p !! k) as [v'|] eqn:E; simplify_eq/=. by apply (Hp k).
Qed.

Lemma py_mul_num a b :
  has_type a TNum = true -> has_type b TNum = true ->
  exists c, py_mul a b = Ok c /\ has_type c TNum = true.
Proof. intros [[z ->]|[q ->]]%num_canonical [[y ->]|[r ->]]%num_canonical; cbn; eauto. Qed.

Lemma py_mul_typed a b c :
  has_type a TNum = true -> has_type b TNum = true -> py_mul a b = Ok c ->
  has_type c TNum = true.
Proof. intros Ha Hb Hc. destruct (py_mul_num a b Ha Hb) as (c' & ? & ?). congruence. Qed.

Lemma range_arg_int v : has_type v TInt = true -> exists z, range_arg v = Ok z.
Proof. intros [z ->]%int_canonical. by exists z. Qed.

Lemma float_lt_num x v : has_type v TNum = true -> exists b, float_lt x v = Ok b.
Proof. intros [[z ->]|[q ->]]%num_canonical; cbn; eauto. Qed.

End Canonical.

#[export] Hint Resolve params_get_typed py_mul_num range_arg_int float_lt_num : py.

Lemma toy_typed : well_typed toy_params.
Proof. apply (bool_decide_unpack _). by vm_compute. Qed.


(** ** Typed states *)

Section TypedState.
Context `{Env} `{Backend}.
Implicit Types (s : State) (d : PVal).

(** The store of the trainer is well typed and the learning rate of its
    optimiser is a number. *)
Definition typed_state s : Prop :=
  typed_params (params (self s)) /\
  forall o, optimizer (self s) = Some o -> has_type (opt_lr o) TNum = true.

Lemma typed_state_self s s' : self s' = self s -> typed_state s -> typed_state s'.
Proof. unfold typed_state. by intros ->. Qed.

Lemma set_optimizer_typed d s :
  has_type d TNum = true -> typed_state s ->
  wp (_set_optimizer d) (fun _ s' => typed_state s') s.
Proof.
  intros Hd [Hp Ho]. unfold _set_optimizer. tr_run; try done.
  split; [done|]. intros o [= <-].
  eapply py_mul_typed; [|exact Hd|eassumption].
  by eapply (params_get_typed _ LR).
Qed.

Lemma set_optimizer_progress d s p n :
  has_type d TNum = true -> typed_state s ->
  params (self s) = Some p -> is_Some (p !! LR) -> model (self s) = py_module n ->
  exists lr, has_type lr TNum = true /\
    _set_optimizer d s = (Ok tt, mkState (set_optimizer (Some (mkOpt n lr)) (self s)) (world s)).
Proof.
  intros Hd [Hp _] Hs [lr0 Hlr] Hm. rewrite Hs in Hp.
  destruct (py_mul_num lr0 d) as (lr & Hmul & Hty); [by apply (Hp LR)|done|].
  exists lr. split; [done|].
  unfold _set_optimizer. tr_unfold. rewrite Hm, Hs. cbn. rewrite Hlr. cbn. by rewrite Hmul.
Qed.

Lemma train_typed s : typed_state s -> typed_state (snd (train s)).
Proof.
  intros Hs. pose proof (train_self_wp s) as Hw. unfold wp in Hw.
  eapply typed_state_self; [exact Hw|].
  by apply (set_optimizer_typed (PFloat 1) s).
Qed.

Lemma train_batch_typed q r a l s :
  typed_state s -> typed_state (snd (train_batch q r a l s)).
Proof.
  pose proof (train_batch_calls q r a l s) as Hw. unfold wp in Hw.
  apply typed_state_self, Hw.
Qed.

Lemma eval_typed s : typed_state s -> typed_state (snd (eval s)).
Proof. pose proof (eval_wp s) as Hw. unfold wp in Hw. apply typed_state_self, Hw. Qed.

End TypedState.

(** C10: with a criterion that takes its targets from a [LongTensor] only, as
    [nn.NLLLoss] does, no batch is ever trained on or evaluated: the targets
    come from [_var], which makes them float tensors, so [train_batch] always
    raises, and so does [eval] on a loader that is not empty. *)
Theorem float_targets_rejected `{Env} `{Backend} (s : State) q r a l :
  strict_criterion ->
  is_ok (fst (train_batch q r a l s)) = false /\
  (dataloader (self s) <> [] -> is_ok (fst (eval s)) = false).
Proof.
  intros Hs. split; [exact (train_batch_strict q r a l s Hs)|].
  intros Hd. exact (eval_strict s Hs Hd).
Qed.

(** C20: the types of the hyper-parameters are an invariant of the trainer:
    from a state whose store is well typed and whose optimiser has a number
    for its learning rate, [_set_optimizer] with a numeric decay, [train],
    [train_batch], [eval] and [save_model] all end in such a state, whether
    they return or raise. *)
Theorem typed_state_preserved `{Env} `{Backend} (s : State) d q r a l :
  typed_state s -> has_type d TNum = true ->
  typed_state (snd (_set_optimizer d s)) /\
  typed_state (snd (train s)) /\
  typed_state (snd (train_batch q r a l s)) /\
  typed_state (snd (eval s)) /\
  typed_state (snd (save_model s)).
Proof.
  intros Hs Hd. split; [exact (set_optimizer_typed d s Hd Hs)|].
  split; [by apply train_typed|]. split; [by apply train_batch_typed|].
  split; [by apply eval_typed|]. eapply typed_state_self; [apply save_model_self|done].
Qed.

(** On a well-typed state [_set_optimizer] cannot fail on a type: when the
    store has a learning rate and the model is a network, it returns, and the
    optimiser it installs is for that network with a number for its learning
    rate. *)
Theorem set_optimizer_typed_runs `{Env} `{Backend} (s : State) d p n :
  has_type d TNum = true -> typed_state s ->
  params (self s) = Some p -> is_Some (p !! LR) -> model (self s) = py_module n ->
  exists lr, has_type lr TNum = true /\
    _set_optimizer d s = (Ok tt, mkState (set_optimizer (Some (mkOpt n lr)) (self s)) (world s)).
Proof. apply set_optimizer_progress. Qed.

(** ** On the small instance *)

(** The small instance with a criterion that refuses targets not taken from
    a [LongTensor]. *)
Definition strict_backend : Backend := {|
  Num := Sym; Row := Z; Weights := Qc; Grad := Qc; Vocab := list string;
  lm_new := @lm_new toy_backend;
  np_random := @np_random toy_backend;
  long_tensor_of_var := fun t => Ok t;
  forward := toy_forward;
  criterion := fun dt rows toks =>
    if decide (dt = LongTensor) then score_sum rows toks else Raise TypeError;
  loss_grad := @loss_grad toy_backend;
  grad_zero := Qc_of_Z 0;
  grad_add := Qcplus;
  sgd_step := toy_sgd;
|}.

Lemma strict_backend_strict : @strict_criterion strict_backend.
Proof. intros dt rows toks Hdt. cbn. by destruct (decide (dt = LongTensor)). Qed.

Section StrictInstance.
#[local] Existing Instance toy_env.
#[local] Existing Instance strict_backend.

Definition strict_state : State :=
  mkState
    (mkTrainer 1 1 (Some toy_params) toy_loader None (py_module 0) [] []
       (Some (mkOpt 0%nat (PFloat (Q2Qc (1 # 2))))) None)
    (mkWorld {[0%nat := mkNet (Qc_of_Z 1) None false]} (mkRng 1 0) (mkRng 1 0)
       (mkTime 2018 3 7 9 5 0) fs_empty [] []).

Lemma float_targets_rejected_witness :
  is_ok (fst (train_batch toy_q VNone toy_a toy_l strict_state)) = false.
Proof.
  exact (proj1 (float_targets_rejected strict_state toy_q VNone toy_a toy_l
                  strict_backend_strict)).
Defined.

End StrictInstance.

#[local] Existing Instance toy_env.
#[local] Existing Instance toy_backend.

Lemma toy_typed_state : typed_state toy_state.
Proof. split; [exact toy_typed|]. by intros o [= <-]. Qed.

Lemma typed_state_preserved_witness : typed_state (snd (train toy_state)).
Proof.
  exact (proj1 (proj2 (typed_state_preserved toy_state (PFloat 1) toy_q VNone toy_a toy_l
                         toy_typed_state eq_refl))).
Defined.

Lemma set_optimizer_typed_runs_witness :
  exists lr, has_type lr TNum = true /\
    _set_optimizer (PFloat 1) toy_state
    = (Ok tt, mkState (set_optimizer (Some (mkOpt 0%nat lr)) toy_trainer) toy_world).
Proof.
  apply (set_optimizer_typed_runs toy_state (PFloat 1) toy_params 0%nat eq_refl
           toy_typed_state eq_refl); [|done].
  by eexists.
Defined.
