(* ===== verification/Construction.v ===== *)
(** * Construction

    What [Trainer.__init__] of [src/language_models/trainer.py] does: it
    seeds the generators, builds a network at a fresh address, and returns a
    trainer whose [model], [optimizer] and [params] are [None]. *)

From Stdlib Require Import ZArith QArith Qcanon.
From stdpp Require Import prelude strings gmap.
From S2P Require Import Prelude Tensor Loss PyData Checkpoint Trainer Evaluation Toy.

(** ** Construction *)

Section InitFacts.
Context `{Env} `{Backend}.
(** The trainer [__init__] returns. *)
Definition fresh_trainer (dl : list PyVal) (sme pe : Z) (v : option Vocab) : Trainer :=
  mkTrainer sme pe None dl v py_none [] [] None None.

(** The world [__init__] leaves: the generators seeded, torch's advanced to
    [r] by the initialisation of the weights [wts], the network at a fresh
    address. *)
Definition init_world (seed : Z) (wts : Weights) (r : Rng) (w : World) : World :=
  mkWorld (<[fresh (dom (nets w)) := mkNet wts None USE_CUDA]> (nets w))
    (mkRng seed 0) r (now w) (fs w) (console w) (calls w).

Lemma init_inv dl p seed sme pe dev v w t w' :
  __init__ dl p seed sme pe dev v w = (Ok t, w') ->
  t = fresh_trainer dl sme pe v /\ np_rng w' = mkRng seed 0 /\
  exists n wts, (n ∉ dom (nets w)) /\
    nets w' = <[n := mkNet wts None USE_CUDA]> (nets w).
Proof.
  unfold __init__, _set_random_seeds, lm_alloc, cuda.
  cbv [exn_bind exn_ret exn_modify exn_lift].
  do 5 (destruct (params_get p _); [|done]).
  cbn [torch_rng set_torch_rng set_np_rng nets np_rng].
  destruct (lm_new _ _ _ _ _ _) as [[wts|e] r]; [|done].
  destruct USE_CUDA eqn:Hc; intros [= <- <-]; (split; [done|split; [done|]]);
    exists (fresh (dom (nets w))), wts; (split; [apply is_fresh|]); cbn.
  - by rewrite (alter_Some _ _ _ _ (lookup_insert_eq _ _ _)), insert_insert_eq.
  - done.
Qed.

Lemma init_ok dl p seed sme pe dev v w vs hd oml hl dr wts r :
  params_get p VOCAB_SIZE = Ok vs -> params_get p HDIM = Ok hd ->
  params_get p OUTPUT_MAX_LEN = Ok oml -> params_get p H_LAYERS = Ok hl ->
  params_get p DROPOUT = Ok dr ->
  lm_new vs hd oml hl dr (mkRng seed 0) = (Ok wts, r) ->
  __init__ dl p seed sme pe dev v w
  = (Ok (fresh_trainer dl sme pe v), init_world seed wts r w).
Proof.
  intros Hv Hh Ho Hl Hd Hn. unfold __init__, _set_random_seeds, lm_alloc, cuda, init_world.
  cbv [exn_bind exn_ret exn_modify exn_lift]. rewrite Hv, Hh, Ho, Hl, Hd.
  cbn [torch_rng set_torch_rng set_np_rng nets np_rng]. rewrite Hn.
  destruct USE_CUDA; [|done]. cbn.
  by rewrite (alter_Some _ _ _ _ (lookup_insert_eq _ _ _)), insert_insert_eq.
Qed.

Lemma fresh_trainer_train dl sme pe v w :
  train (mkState (fresh_trainer dl sme pe v) w)
  = (Raise AttributeError, mkState (fresh_trainer dl sme pe v) w).
Proof. done. Qed.

Lemma fresh_trainer_train_batch dl sme pe v w q r a l :
  train_batch q r a l (mkState (fresh_trainer dl sme pe v) w)
  = (Raise AttributeError, mkState (fresh_trainer dl sme pe v) w).
Proof. done. Qed.

Lemma fresh_trainer_save_model dl sme pe v w :
  save_model (mkState (fresh_trainer dl sme pe v) w)
  = (Raise TypeError, mkState (fresh_trainer dl sme pe v) w).
Proof. done. Qed.


End InitFacts.

(** C8: the trainer [__init__] returns is [fresh_trainer], which has no
    model, no parameters and no optimiser, so [train], [train_batch] and
    [save_model] raise on it, and [eval] raises unless the loader is
    empty. *)
Theorem init_unusable `{Env} `{Backend} dl p seed sme pe dev v w t w' q r a l :
  __init__ dl p seed sme pe dev v w = (Ok t, w') ->
  t = fresh_trainer dl sme pe v /\
  fst (train (mkState t w')) = Raise AttributeError /\
  fst (train_batch q r a l (mkState t w')) = Raise AttributeError /\
  fst (save_model (mkState t w')) = Raise TypeError /\
  (dl <> [] -> is_ok (fst (eval (mkState t w'))) = false).
Proof.
  intros (-> & _)%init_inv. repeat split; try done.
  intros Hd. by apply eval_stuck.
Qed.

(** When the five network hyper-parameters are present and the
    constructor of the network returns, [__init__] returns the bare trainer:
    both generators are seeded (torch's is then advanced by the network's
    initialisation), one network sits at a fresh address, on the GPU when
    [USE_CUDA], and nothing else of the world changes. *)
Theorem init_allocates `{Env} `{Backend} dl p seed sme pe dev v w vs hd oml hl dr wts r :
  params_get p VOCAB_SIZE = Ok vs -> params_get p HDIM = Ok hd ->
  params_get p OUTPUT_MAX_LEN = Ok oml -> params_get p H_LAYERS = Ok hl ->
  params_get p DROPOUT = Ok dr ->
  lm_new vs hd oml hl dr (mkRng seed 0) = (Ok wts, r) ->
  __init__ dl p seed sme pe dev v w
  = (Ok (fresh_trainer dl sme pe v), init_world seed wts r w).
Proof. apply init_ok. Qed.

Lemma lookup_fresh_net `{Env} `{Backend} (ns : gmap NetId Net) :
  ns !! fresh (dom ns) = None.
Proof. apply not_elem_of_dom, is_fresh. Qed.

(** Construction is reproducible: what [__init__] does depends on the
    world only through the addresses in use. From two worlds it ends the same
    way, leaves the same generators, and the network it adds has the same
    parameters. *)
Theorem init_reproducible `{Env} `{Backend} dl p seed sme pe dev v (w1 w2 : World) :
  let r1 := __init__ dl p seed sme pe dev v w1 in
  let r2 := __init__ dl p seed sme pe dev v w2 in
  fst r1 = fst r2 /\ np_rng (snd r1) = np_rng (snd r2) /\
  torch_rng (snd r1) = torch_rng (snd r2) /\
  nets (snd r1) !! fresh (dom (nets w1)) = nets (snd r2) !! fresh (dom (nets w2)).
Proof.
  unfold __init__, _set_random_seeds, lm_alloc, cuda.
  cbv [exn_bind exn_ret exn_modify exn_lift].
  do 5 (destruct (params_get p _);
        [|cbn; by rewrite !lookup_fresh_net]).
  cbn [torch_rng set_torch_rng set_np_rng nets np_rng].
  destruct (lm_new _ _ _ _ _ _) as [[wts|e] r]; [|cbn; by rewrite !lookup_fresh_net].
  destruct USE_CUDA; cbn; [|by rewrite !lookup_insert_eq].
  by rewrite !lookup_alter_eq, !lookup_insert_eq.
Qed.


(** ** On the small instance *)

#[local] Existing Instance toy_env.
#[local] Existing Instance toy_backend.

Lemma init_allocates_witness :
  __init__ toy_loader (Some toy_params) 7 1 1 None None toy_world
  = (Ok (fresh_trainer toy_loader 1 1 None),
     init_world 7 (Qc_of_Z 0) (mkRng 7 1) toy_world).
Proof. by eapply (init_allocates _ (Some toy_params)). Defined.

Lemma init_unusable_witness :
  fst (train (mkState (fresh_trainer toy_loader 1 1 None)
                (init_world 7 (Qc_of_Z 0) (mkRng 7 1) toy_world)))
  = Raise AttributeError.
Proof.
  refine (proj1 (proj2
    (init_unusable toy_loader (Some toy_params) 7 1 1 None None toy_world _ _
       VNone VNone VNone VNone _))).
  by eapply (init_ok _ (Some toy_params)).
Defined.
