(* ===== verification/Invariants.v ===== *)
(** * Invariants of the trainer

    Two properties of the state that every method of [Trainer] keeps,
    however it ends: the perplexity history is the image of the loss history
    ([history_ok]), and the networks the trainer refers to are in the store
    ([wf_state]). *)

From Stdlib Require Import ZArith QArith Qcanon.
From stdpp Require Import prelude strings gmap.
From S2P Require Import Prelude Tensor Loss PyData Checkpoint Trainer Training Batch Evaluation Construction Toy.

(** ** The histories *)

Section History.
Context `{Env} `{Backend}.
Implicit Types (s : State).

(** Every recorded perplexity is two to the power of the recorded loss at the
    same position. *)
Definition history_ok s : Prop :=
  perplexity (self s) = _perplexity_from_loss <$> loss (self s).

Lemma train_step_history_wp loc item s :
  history_ok s -> wp (train_step loc item) (fun _ s' => history_ok s') s.
Proof.
  intros Hh. destruct item as [batch_itr inputs]. unfold train_step.
  tr_run; try done.
  eapply wp_mono; [apply train_batch_calls|].
  intros [loss0|e] s1 [Hs1 _]; [|by unfold history_ok; rewrite Hs1].
  assert (history_ok (mkState (set_perplexity (perplexity (self s1) ++ [_perplexity_from_loss loss0])
            (set_loss (loss (self s1) ++ [loss0]) (self s1))) (world s1))) as Hh1.
  { unfold history_ok in *. cbn. by rewrite Hs1, Hh, fmap_app. }
  tr_run; try done.
  eapply wp_mono; [apply (print_progress_calls (fun _ => True))|].
  intros [[]|e] s2 [Hs2 _]; tr_run; unfold history_ok; by rewrite Hs2.
Qed.

End History.

(** The two histories stay aligned: if every recorded perplexity is two
    to the power of the loss recorded at its position, this still holds after
    an iteration of the training loop from any local variables, and after
    [train], [train_batch], [eval] and [save_model], however they end. *)
Theorem history_invariant `{Env} `{Backend} (s : State) :
  history_ok s ->
  (forall loc item, history_ok (snd (train_step loc item s))) /\
  (forall q r a l, history_ok (snd (train_batch q r a l s))) /\
  history_ok (snd (train s)) /\ history_ok (snd (eval s)) /\
  history_ok (snd (save_model s)).
Proof.
  intros Hh. unfold history_ok in *. repeat split.
  - intros loc item. apply (train_step_history_wp loc item s Hh).
  - intros q r a l. destruct (train_batch_calls q r a l s) as [Hs _]. by rewrite Hs.
  - destruct (untrained_loss s _ (proj1 (train_wp s))) as [-> ->]. done.
  - destruct (eval_wp s) as [Hs _]. by rewrite Hs.
  - by rewrite save_model_self.
Qed.


(** ** Well-formed states *)

Section WellFormed.
Context `{Env} `{Backend}.
Implicit Types (s : State).

(** The networks the trainer refers to exist: the one the optimiser was
    built from and the one [self.model] denotes. *)
Definition wf_state s : Prop :=
  (forall o, optimizer (self s) = Some o -> opt_net o ∈ dom (nets (world s))) /\
  (forall n, obj_net (model (self s)) = Some n -> n ∈ dom (nets (world s))).

Lemma untrained_wf s s' : untrained s s' -> wf_state s -> wf_state s'.
Proof.
  intros (Hs & Hn & _ & _ & _ & _ & Ho) [Hwo Hwm].
  pose proof (f_equal model Hs : model (self s') = model (self s)) as Hm.
  split; rewrite Hn.
  - intros o Hso. destruct Ho as [Ho|(o' & Ho & Hmo)]; [apply Hwo; congruence|].
    apply Hwm. congruence.
  - intros n. rewrite Hm. apply Hwm.
Qed.

Lemma calls_since_wf P s s' : calls_since P s s' -> wf_state s -> wf_state s'.
Proof. intros (Hs & Hd & _) Hwf. unfold wf_state. by rewrite Hs, Hd. Qed.

Lemma init_wf dl p seed sme pe dev v w t w' :
  __init__ dl p seed sme pe dev v w = (Ok t, w') -> wf_state (mkState t w').
Proof. intros [-> _]%init_inv. by split. Qed.

End WellFormed.

(** Every method keeps the state well formed: if the network of the
    optimiser and the network in [self.model] are in the store, they still
    are after [train], [train_batch], [eval], [save_model] and
    [_set_optimizer], however these end. *)
Theorem wf_preserved `{Env} `{Backend} (s : State) :
  wf_state s ->
  wf_state (snd (train s)) /\
  (forall q r a l, wf_state (snd (train_batch q r a l s))) /\
  wf_state (snd (eval s)) /\ wf_state (snd (save_model s)) /\
  (forall d, wf_state (snd (_set_optimizer d s))).
Proof.
  intros Hwf. split; [|split; [|split; [|split]]].
  - eapply untrained_wf; [apply (train_wp s)|done].
  - intros q r a l. eapply calls_since_wf; [apply (train_batch_calls q r a l s)|done].
  - eapply calls_since_wf; [apply (eval_calls s)|done].
  - eapply untrained_wf; [apply (save_model_stuck s)|done].
  - intros d. eapply untrained_wf; [apply (set_optimizer_untrained d s)|done].
Qed.

(** ** On the small instance *)

#[local] Existing Instance toy_env.
#[local] Existing Instance toy_backend.

Lemma history_invariant_witness : history_ok (snd (train toy_state)).
Proof. by apply history_invariant. Defined.

Lemma wf_preserved_witness : wf_state (snd (train toy_state)).
Proof.
  apply wf_preserved. split.
  - intros o [= <-]. by apply elem_of_dom.
  - intros n [= <-]. by apply elem_of_dom.
Defined.
