(* ===== verification/Session.v ===== *)
(** * Sessions: the methods of a trainer called in any order

    A program that holds a [Trainer] of [src/language_models/trainer.py]
    calls its methods one after the other, and may catch what they raise.
    [Call] names a method with its arguments, [call] runs it, [run] runs a
    list of calls and [call_step] is the relation of one call; the states a
    program can reach are those of its closure, [reachable]. The file lifts what the other
    files show of one call to every sequence of calls, by induction on the
    relation: the frame every call keeps ([session_frame]), the invariants
    of [Invariants] and [Types], and that a trainer as [__init__] returns
    it stays as it is, whatever is called on it. *)

From Stdlib Require Import ZArith QArith Qcanon.
From stdpp Require Import prelude strings gmap.
From S2P Require Import Prelude Tensor Loss PyData Checkpoint Trainer Toy Console Training Batch.
From S2P Require Import Evaluation Types Construction Invariants.

Section Calls.
Context `{Env} `{Backend}.
Implicit Types (s : State) (d : PVal).

(** ** Calls *)

(** A call of a method of [Trainer], with its arguments. *)
Inductive Call : Type :=
  | CTrain
  | CEval
  | CSaveModel
  | CTrainBatch (quesion_seqs review_seqs answer_seqs answer_lengths : PyVal)
  | CSetOptimizer (lr_decay : PVal).

(** The method a call runs; the loss [train_batch] returns is dropped. *)
Definition call (c : Call) : Exn State unit :=
  match c with
  | CTrain => train
  | CEval => eval
  | CSaveModel => save_model
  | CTrainBatch q r a l => _ <~ train_batch q r a l ;; exn_ret tt
  | CSetOptimizer d => _set_optimizer d
  end.

(** The state a call leaves, whether it returned or raised. *)
Definition after (c : Call) s : State := snd (call c s).

(** A program: its calls in order, each from the state the one before left. *)
Fixpoint run (cs : list Call) s : State :=
  match cs with
  | [] => s
  | c :: cs' => run cs' (after c s)
  end.

(** One call whose arguments satisfy [P]. *)
Inductive call_step (P : Call -> Prop) : relation State :=
  | step_call c s : P c -> call_step P s (after c s).

Definition reachable (P : Call -> Prop) : relation State := rtc (call_step P).

(** The decay given to [_set_optimizer] is a number. *)
Definition typed_call (c : Call) : Prop :=
  match c with
  | CSetOptimizer d => has_type d TNum = true
  | _ => True
  end.

Definition any_call (c : Call) : Prop := True.

(** ** Programs and the relation *)

Lemma run_app cs1 cs2 s : run (cs1 ++ cs2) s = run cs2 (run cs1 s).
Proof. revert s. induction cs1 as [|c cs1 IH]; intros s; [done|apply IH]. Qed.

Lemma run_reachable P cs s : Forall P cs -> reachable P s (run cs s).
Proof.
  intros Hcs. revert s. induction Hcs as [|c cs Hc _ IH]; intros s; [reflexivity|].
  eapply rtc_l; [by apply step_call|apply IH].
Qed.

Lemma reachable_run P s s' : reachable P s s' -> exists cs, Forall P cs /\ s' = run cs s.
Proof.
  induction 1 as [s|s1 s2 s3 [c ? Hc] _ (cs & Hcs & ->)]; [by exists []|].
  exists (c :: cs). by split; [constructor|].
Qed.

(** A property every call keeps holds in every state a program reaches. *)
Lemma reachable_invariant P (I : State -> Prop) s s' :
  (forall c s1, P c -> I s1 -> I (after c s1)) -> reachable P s s' -> I s -> I s'.
Proof. intros Hstep. induction 1 as [|s1 s2 s3 [c ? Hc] _ IH]; eauto. Qed.

(** The same for a relation to the first state. *)
Lemma reachable_frame P (R : relation State) `{!PreOrder R} s s' :
  (forall c s1, P c -> R s1 (after c s1)) -> reachable P s s' -> R s s'.
Proof.
  intros Hstep. induction 1 as [|s1 s2 s3 [c ? Hc] _ IH]; [reflexivity|].
  etrans; [by apply Hstep|exact IH].
Qed.

Lemma after_train_batch q r a l s :
  after (CTrainBatch q r a l) s = snd (train_batch q r a l s).
Proof. unfold after, call, exn_bind. by destruct (train_batch q r a l s) as [[v|e] s']. Qed.

(** ** What every call keeps *)

(** [s'] has the attributes of [s] but for the optimiser, which, if it is
    another, was built on the network of [self.model]; the addresses of the
    networks and the files are those of [s]; the calls of the network [s]
    records are the first of those [s'] records. *)
Definition session_frame s s' : Prop :=
  set_optimizer None (self s') = set_optimizer None (self s) /\
  (optimizer (self s') = optimizer (self s) \/
   exists o, optimizer (self s') = Some o /\ obj_net (model (self s)) = Some (opt_net o)) /\
  dom (nets (world s')) = dom (nets (world s)) /\
  fs_files (fs (world s')) = fs_files (fs (world s)) /\
  calls (world s) `prefix_of` calls (world s').

Lemma session_frame_refl s : session_frame s s.
Proof. unfold session_frame. by repeat split; try left. Qed.

Lemma session_frame_trans s1 s2 s3 :
  session_frame s1 s2 -> session_frame s2 s3 -> session_frame s1 s3.
Proof.
  intros (Hs & Ho & Hd & Hf & Hc) (Hs' & Ho' & Hd' & Hf' & Hc').
  pose proof (f_equal model Hs : model (self s2) = model (self s1)) as Hm.
  split; [congruence|]. split; [|split; [congruence|split; [congruence|by etrans]]].
  destruct Ho' as [Ho'|(o & Ho' & Hn)]; [by rewrite Ho'|].
  right. exists o. by rewrite <- Hm.
Qed.

#[export] Instance session_frame_preorder : PreOrder session_frame.
Proof. split; [exact session_frame_refl|exact session_frame_trans]. Qed.

Lemma untrained_session s s' : untrained s s' -> session_frame s s'.
Proof.
  intros (Hs & Hn & Hc & _ & _ & Hf & Ho). unfold session_frame.
  by rewrite Hs, Hn, Hc, Hf.
Qed.

Lemma calls_since_session Q s s' :
  calls_since Q s s' -> fs (world s') = fs (world s) -> session_frame s s'.
Proof.
  intros (Hs & Hd & extra & Hc & _) Hf. unfold session_frame.
  rewrite Hs, Hd, Hf, Hc. repeat split; [by left|by apply prefix_app_r].
Qed.

Lemma call_frame c s : session_frame s (after c s).
Proof.
  destruct c as [| | |q r a l|d]; [| | |rewrite after_train_batch|]; unfold after, call.
  - apply untrained_session, (train_wp s).
  - eapply calls_since_session; [apply (eval_calls s)|apply (eval_wp s)].
  - apply untrained_session, (save_model_stuck s).
  - eapply calls_since_session; [apply (train_batch_calls q r a l s)|].
    apply (train_batch_frame q r a l s).
  - apply untrained_session, (set_optimizer_untrained d s).
Qed.

(** ** The invariants *)

Lemma session_frame_wf s s' : session_frame s s' -> wf_state s -> wf_state s'.
Proof.
  intros (Hs & Ho & Hd & _) [Hwo Hwm].
  pose proof (f_equal model Hs : model (self s') = model (self s)) as Hm.
  split; rewrite Hd; [|by rewrite Hm].
  intros o Hso. destruct Ho as [Ho|(o' & Ho & Hmo)]; [apply Hwo; congruence|].
  apply Hwm. congruence.
Qed.

Lemma session_frame_history s s' : session_frame s s' -> history_ok s -> history_ok s'.
Proof.
  intros (Hs & _). unfold history_ok.
  by rewrite (f_equal loss Hs : loss (self s') = loss (self s)),
    (f_equal perplexity Hs : perplexity (self s') = perplexity (self s)).
Qed.

Lemma call_typed c s : typed_call c -> typed_state s -> typed_state (after c s).
Proof.
  destruct c as [| | |q r a l|d]; [| | |rewrite after_train_batch|]; unfold after, call;
    intros Hc Hs.
  - by apply train_typed.
  - by apply eval_typed.
  - eapply typed_state_self; [apply save_model_self|done].
  - by apply train_batch_typed.
  - by apply (set_optimizer_typed d s).
Qed.

(** ** A trainer as constructed *)

(** Any call on the trainer [__init__] returns leaves it as it is, and the
    world too, but for the console. *)
Lemma fresh_after c dl sme pe v w :
  alike state_rest (after c (mkState (fresh_trainer dl sme pe v) w))
    (mkState (fresh_trainer dl sme pe v) w).
Proof.
  destruct c as [| | |q r a l|d]; [| | |rewrite after_train_batch|]; unfold after, call.
  - by rewrite fresh_trainer_train.
  - destruct dl as [|x dl]; [|done]. by rewrite eval_empty_run.
  - by rewrite fresh_trainer_save_model.
  - by rewrite fresh_trainer_train_batch.
  - done.
Qed.

(** What a call on it returns. *)
Lemma fresh_result c dl sme pe v w :
  c <> CEval \/ dl <> [] ->
  is_ok (fst (call c (mkState (fresh_trainer dl sme pe v) w))) = false.
Proof.
  intros Hc. destruct c as [| | |q r a l|d]; try done.
  destruct Hc as [?|Hd]; [done|]. by apply eval_stuck.
Qed.

#[export] Instance blind_call c : BlindS (call c).
Proof. destruct c; apply _. Qed.

(** States that differ in the console only are left so by a call. *)
Lemma after_alike c s1 s2 :
  alike state_rest s1 s2 -> alike state_rest (after c s1) (after c s2).
Proof. intros Hs. by destruct (blind_call c s1 s2 Hs) as (_ & Ha & _). Qed.

Lemma fresh_reachable P dl sme pe v w s' :
  reachable P (mkState (fresh_trainer dl sme pe v) w) s' ->
  alike state_rest s' (mkState (fresh_trainer dl sme pe v) w).
Proof.
  set (s0 := mkState _ w). intros Hr.
  apply (reachable_invariant P (fun s => alike state_rest s s0) s0 s'); [|done..].
  intros c s1 _ Hs1. etrans; [by apply after_alike|apply fresh_after].
Qed.

(** What a trainer as constructed gives in a state a program reached. *)
Lemma fresh_reachable_result P dl sme pe v w s' c :
  reachable P (mkState (fresh_trainer dl sme pe v) w) s' ->
  c <> CEval \/ dl <> [] -> is_ok (fst (call c s')) = false.
Proof.
  intros Hr%fresh_reachable Hc. destruct (blind_call c _ _ Hr) as (-> & _).
  by apply fresh_result.
Qed.

Lemma session_typed P s s' :
  (forall c, P c -> typed_call c) -> reachable P s s' -> typed_state s -> typed_state s'.
Proof. intros HP. apply reachable_invariant. intros c s1 Hc. by apply call_typed, HP. Qed.

Lemma session_frame_reachable P s s' : reachable P s s' -> session_frame s s'.
Proof. apply (reachable_frame P session_frame). intros c s1 _. apply call_frame. Qed.

End Calls.

(** C21: what no program changes. In every state a sequence of calls of
    [train], [eval], [save_model], [train_batch] and [_set_optimizer]
    reaches, whatever the calls raised: the attributes of the trainer other
    than the optimiser are those of the first state, so nothing was appended
    to the histories of losses and perplexities; an optimiser that is not
    the first one was built on the network of [self.model]; the addresses of
    the networks are the same; no file was written; the forward calls
    recorded at first are the first ones recorded. The state is well formed
    if the first one was, the histories are aligned if they were, and it is
    well typed if the first one was and every decay the program gave to
    [_set_optimizer] was a number. *)
Theorem session_invariants `{Env} `{Backend} (P : Call -> Prop) (s s' : State) :
  reachable P s s' ->
  session_frame s s' /\
  (wf_state s -> wf_state s') /\
  (history_ok s -> history_ok s') /\
  ((forall c, P c -> typed_call c) -> typed_state s -> typed_state s').
Proof.
  intros Hr. pose proof (session_frame_reachable P s s' Hr) as Hf.
  split; [done|]. split; [by apply session_frame_wf|].
  split; [by apply session_frame_history|]. intros HP. by apply (session_typed P).
Qed.

(** C9: a trainer as [__init__] returns it cannot be used by any program.
    In every state a sequence of method calls reaches from the state
    [__init__] left, the trainer is the one [__init__] returned, and the
    networks, the recorded forward calls, the files and the two generators
    are as [__init__] left them; every further call raises, but [eval] on a
    loader without batches. *)
Theorem constructed_trainer_inert `{Env} `{Backend} (P : Call -> Prop)
    dl p seed sme pe dev v w t w' (s' : State) :
  __init__ dl p seed sme pe dev v w = (Ok t, w') ->
  reachable P (mkState t w') s' ->
  self s' = t /\ nets (world s') = nets w' /\ calls (world s') = calls w' /\
  fs (world s') = fs w' /\ np_rng (world s') = np_rng w' /\
  torch_rng (world s') = torch_rng w' /\
  forall c, c <> CEval \/ dl <> [] -> is_ok (fst (call c s')) = false.
Proof.
  intros (-> & _)%init_inv Hr.
  pose proof (fresh_reachable _ _ _ _ _ _ _ Hr) as [Hs Hw]%state_alike.
  apply world_rest_eq in Hw as (Hn & Hnp & Ht & _ & Hfs & Hc).
  repeat (split; [done|]). intros c. by apply (fresh_reachable_result P dl sme pe v w').
Qed.

(** ** On the small instance *)

#[local] Existing Instance toy_env.
#[local] Existing Instance toy_backend.

(** A program that trains, takes a batch, evaluates and saves. *)
Definition toy_program : list Call :=
  [CSetOptimizer (PFloat (Q2Qc (1 # 2))); CTrain; CTrainBatch toy_q VNone toy_a toy_l;
   CEval; CSaveModel].

Lemma toy_program_typed : Forall typed_call toy_program.
Proof. by repeat constructor. Qed.

Lemma session_invariants_witness :
  fs_files (fs (world (run toy_program toy_state))) = fs_files (fs (world toy_state)) /\
  typed_state (run toy_program toy_state).
Proof.
  destruct (session_invariants typed_call toy_state _
              (run_reachable _ _ _ toy_program_typed)) as ((_ & _ & _ & Hf & _) & _ & _ & Ht).
  split; [exact Hf|]. apply Ht; [done|]. split; [apply toy_typed|]. by intros o [= <-].
Defined.

Lemma constructed_trainer_inert_witness :
  calls (world (run toy_program
    (mkState (fresh_trainer toy_loader 1 1 None)
       (init_world 7 (Qc_of_Z 0) (mkRng 7 1) toy_world)))) = [].
Proof.
  refine (proj1 (proj2 (proj2
    (constructed_trainer_inert typed_call toy_loader (Some toy_params) 7 1 1 None None
       toy_world _ _ _ _ (run_reachable _ _ _ toy_program_typed))))).
  by eapply (init_ok _ (Some toy_params)).
Defined.
