(* ===== verification/Descent.v ===== *)
(** * A loop of batch steps

    [Trainer.train] of [src/language_models/trainer.py] never reaches
    [train_batch], so the only way to train with the module is to call
    [train_batch] on each batch in turn. This file says what such a loop
    computes: [sgd_batch] is one step of stochastic gradient descent as the
    design describes it (conversion, one random draw for teacher forcing,
    forward call, loss, gradient of the batch, update of the parameters),
    [sgd_pass] is the steps on a list of batches, each from the network and
    the generators the one before left. A program that calls [train_batch]
    on the batches in order ([batch_call], run by [run] of [Session]) is
    shown to compute [sgd_pass]. *)

From Stdlib Require Import ZArith QArith Qcanon.
From stdpp Require Import prelude strings gmap.
From S2P Require Import Prelude Tensor Loss PyData Checkpoint Trainer Toy Batch Session.

Section Steps.
Context `{Env} `{Backend}.
Implicit Types (s : State) (net : Net) (np rng : Rng) (lr ratio : PVal) (n : NetId).

(** The arguments of one call of [train_batch]. *)
Record BatchArgs : Type := mkBatch {
  b_questions : PyVal;
  b_reviews : PyVal;
  b_answers : PyVal;
  b_lengths : PyVal;
}.
Implicit Types (b : BatchArgs) (bs : list BatchArgs) (tr : list (Num * ForwardArgs)).

Definition batch_call b : Call :=
  CTrainBatch (b_questions b) (b_reviews b) (b_answers b) (b_lengths b).

(** numpy's generator after one draw. *)
Definition drawn np : Rng := mkRng (rng_seed np) (S (rng_draws np)).

(** One step of descent on the batch [b]: the loss, the arguments of the
    forward call, the network after the update and torch's generator. *)
Definition sgd_batch lr ratio net np rng b : Res (Num * ForwardArgs * Net * Rng) :=
  a' <- _var (Data (b_answers b)) ;;
  q' <- _var (Data (b_questions b)) ;;
  tg <- _var (VarOf a') ;;
  tf <- float_lt (np_random np) ratio ;;
  let args := mkArgs (Some q') None a' tf in
  outputs <- fst (forward (net_weights net) args rng) ;;
  lens <- as_int_list (b_lengths b) ;;
  loss <- _batch_loss (criterion (t_dtype tg)) outputs lens (t_rows tg) ;;
  v <- loss_data loss ;;
  let g := batch_grad (net_grad net) (loss_grad (net_weights net) args lens tg) in
  w' <- sgd_step lr (net_weights net) g ;;
  Ok (v, args, mkNet w' (Some g) (net_cuda net), snd (forward (net_weights net) args rng)).

(** The steps on the batches in order. *)
Fixpoint sgd_pass lr ratio net np rng bs
  : Res (list (Num * ForwardArgs) * Net * Rng * Rng) :=
  match bs with
  | [] => Ok ([], net, np, rng)
  | b :: bs' =>
      r <- sgd_batch lr ratio net np rng b ;;
      let '(v, args, net1, rng1) := r in
      p <- sgd_pass lr ratio net1 (drawn np) rng1 bs' ;;
      let '(tr, net2, np2, rng2) := p in
      Ok ((v, args) :: tr, net2, np2, rng2)
  end.

(** The state after the steps: the network [n] replaced, the generators
    advanced, the forward calls recorded. *)
Definition descended s n net np rng tr : State :=
  mkState (self s)
    (mkWorld (<[n := net]> (nets (world s))) np rng (now (world s)) (fs (world s))
       (console (world s)) (calls (world s) ++ ((fun x => (n, x.2)) <$> tr))).

(** A trainer that can take a batch: its model is the network [n], its
    optimiser was built on it with the rate [lr], and the ratio of teacher
    forcing is [ratio]. *)
Definition ready s n lr ratio : Prop :=
  model (self s) = py_module n /\
  optimizer (self s) = Some (mkOpt n lr) /\
  params_get (params (self s)) TEACHER_FORCING_RATIO = Ok ratio.

Lemma ready_descended s n lr ratio net np rng tr :
  ready s n lr ratio -> ready (descended s n net np rng tr) n lr ratio.
Proof. done. Qed.

Lemma descended_nil s n net :
  nets (world s) !! n = Some net ->
  descended s n net (np_rng (world s)) (torch_rng (world s)) [] = s.
Proof.
  intros Hn. destruct s as [t []]. unfold descended. cbn in *.
  by rewrite insert_id, app_nil_r.
Qed.

Lemma descended_cons s n net1 np1 rng1 x net2 np2 rng2 tr :
  descended (descended s n net1 np1 rng1 [x]) n net2 np2 rng2 tr
  = descended s n net2 np2 rng2 (x :: tr).
Proof.
  unfold descended. cbn. by rewrite insert_insert_eq, <- app_assoc.
Qed.

Lemma sgd_batch_step s n lr ratio net b v args net1 rng1 :
  ready s n lr ratio -> nets (world s) !! n = Some net ->
  sgd_batch lr ratio net (np_rng (world s)) (torch_rng (world s)) b = Ok (v, args, net1, rng1) ->
  train_batch (b_questions b) (b_reviews b) (b_answers b) (b_lengths b) s
  = (Ok v, descended s n net1 (drawn (np_rng (world s))) rng1 [(v, args)]).
Proof.
  intros (Hm & Ho & Hr) Hn. destruct net as [w g0 c]. unfold sgd_batch.
  intros (a' & Ha & (q' & Hq & (tg & Htg & (tf & Htf & (outputs & Hf & (lens & Hl &
    (loss & Hloss & (v' & Hv & (w' & Hw & [= <- <- <- <-])%res_bind_ok)%res_bind_ok)
    %res_bind_ok)%res_bind_ok)%res_bind_ok)%res_bind_ok)%res_bind_ok)%res_bind_ok)%res_bind_ok.
  cbn [net_weights net_grad net_cuda] in *.
  destruct loss as [|x]; simplify_eq/=.
  destruct (forward w _ _) as [o rng'] eqn:Hfw. cbn [fst snd] in *. subst o.
  by erewrite train_batch_run.
Qed.

Lemma sgd_pass_run bs s n lr ratio net tr net' np' rng' :
  ready s n lr ratio -> nets (world s) !! n = Some net ->
  sgd_pass lr ratio net (np_rng (world s)) (torch_rng (world s)) bs = Ok (tr, net', np', rng') ->
  run (batch_call <$> bs) s = descended s n net' np' rng' tr.
Proof.
  revert s net tr. induction bs as [|b bs IH]; intros s net tr Hs Hn.
  - intros [= <- <- <- <-]. by rewrite descended_nil.
  - cbn [sgd_pass]. intros ([[[v args] net1] rng1] & Hb &
      ([[[tr' net2] np2] rng2] & Hp & [= <- <- <- <-])%res_bind_ok)%res_bind_ok.
    rewrite fmap_cons. cbn [run]. unfold batch_call at 2. rewrite after_train_batch.
    rewrite (sgd_batch_step s n lr ratio net b v args net1 rng1 Hs Hn Hb). cbn [snd].
    erewrite IH; [apply descended_cons|by apply ready_descended|apply lookup_insert_eq|exact Hp].
Qed.

(** A step that fails makes [train_batch] raise the same exception. *)
Lemma sgd_batch_fail s n lr ratio net b e :
  ready s n lr ratio -> nets (world s) !! n = Some net ->
  sgd_batch lr ratio net (np_rng (world s)) (torch_rng (world s)) b = Raise e ->
  fst (train_batch (b_questions b) (b_reviews b) (b_answers b) (b_lengths b) s) = Raise e.
Proof.
  intros (Hm & Ho & Hr) Hn. destruct net as [w g0 c]. unfold sgd_batch.
  unfold train_batch, zero_grad, random, call_model, backward, step, loss_data. tr_unfold.
  cbn [net_weights net_grad net_cuda].
  repeat (progress (tr_simpl; rewrite ?Ho, ?Hm, ?Hr, ?lookup_alter_eq, ?Hn)).
  destruct (_var (Data (b_answers b))) as [a'|e1]; [|by intros [= <-]]. cbn [res_bind].
  destruct (_var (Data (b_questions b))) as [q'|e1]; [|by intros [= <-]]. cbn [res_bind res_map].
  destruct (_var (VarOf a')) as [tg|e1]; [|by intros [= <-]]. cbn [res_bind].
  destruct (float_lt _ ratio) as [tf|e1]; [|by intros [= <-]]. cbn [res_bind].
  destruct (forward w _ _) as [[outputs|e1] rng1]; [|by intros [= <-]]. tr_simpl.
  destruct (as_int_list _) as [lens|e1]; [|by intros [= <-]]. tr_simpl.
  destruct (_batch_loss _ _ _ _) as [[|x]|e1]; [by intros [= <-]| |by intros [= <-]].
  repeat (progress (tr_simpl; rewrite ?lookup_alter_eq, ?Hn)).
  rewrite zeroed_grad. by destruct (sgd_step _ _ _) as [w'|e1]; [|intros [= <-]].
Qed.

(** The state a program of batch calls has reached when the steps before the
    one that fails are done, and what the call of that batch gives. *)
Lemma sgd_pass_fail bs s n lr ratio net e :
  ready s n lr ratio -> nets (world s) !! n = Some net ->
  sgd_pass lr ratio net (np_rng (world s)) (torch_rng (world s)) bs = Raise e ->
  exists k b, bs !! k = Some b /\
    fst (call (batch_call b) (run (batch_call <$> take k bs) s)) = Raise e.
Proof.
  revert s net. induction bs as [|b bs IH]; intros s net Hs Hn; [done|].
  cbn [sgd_pass]. destruct (sgd_batch _ _ _ _ _ b) as [[[[v args] net1] rng1]|e1] eqn:Hb.
  - cbn [res_bind]. destruct (sgd_pass _ _ net1 _ _ bs) as [[[[tr net2] np2] rng2]|e1] eqn:Hp; [done|].
    intros [= <-].
    pose proof (sgd_batch_step s n lr ratio net b v args net1 rng1 Hs Hn Hb) as Hstep.
    destruct (IH (descended s n net1 (drawn (np_rng (world s))) rng1 [(v, args)]) net1)
      as (k & b' & Hk & Hr); [by apply ready_descended|apply lookup_insert_eq|exact Hp|].
    exists (S k), b'. split; [done|].
    cbn [take]. rewrite fmap_cons. cbn [run]. unfold batch_call at 3.
    by rewrite after_train_batch, Hstep.
  - intros [= <-]. exists 0%nat, b. split; [done|]. cbn [take fmap list_fmap run].
    unfold batch_call, call, exn_bind.
    pose proof (sgd_batch_fail s n lr ratio net b _ Hs Hn Hb) as Hf.
    destruct (train_batch _ _ _ _ s) as [r s1]. cbn [fst] in Hf. by subst r.
Qed.

End Steps.

(** C15: a loop of batch steps is stochastic gradient descent. On a trainer
    whose model is the network [n] and whose optimiser was built on it, a
    program that calls [train_batch] on the batches in order computes the
    steps of the design: when every step succeeds, each batch is converted
    and passed to the network once, in order, with teacher forcing drawn
    once per batch from numpy's generator; the parameters of [n] are the
    result of one update per batch, each along the gradient of that batch at
    the parameters the update before left; nothing else of the state has
    changed. When a step fails, the call of [train_batch] on that batch,
    after the calls on the batches before it, raises the exception of the
    step. *)
Theorem batch_loop_descends `{Env} `{Backend} (s : State) n lr ratio net bs :
  ready s n lr ratio -> nets (world s) !! n = Some net ->
  match sgd_pass lr ratio net (np_rng (world s)) (torch_rng (world s)) bs with
  | Ok (tr, net', np', rng') => run (batch_call <$> bs) s = descended s n net' np' rng' tr
  | Raise e =>
      exists k b, bs !! k = Some b /\
        fst (call (batch_call b) (run (batch_call <$> take k bs) s)) = Raise e
  end.
Proof.
  intros Hs Hn. destruct (sgd_pass _ _ _ _ _ _) as [[[[tr net'] np'] rng']|e] eqn:Hp.
  - by apply (sgd_pass_run bs s n lr ratio net).
  - by apply (sgd_pass_fail bs s n lr ratio net).
Qed.

(** ** On the small instance *)

#[local] Existing Instance toy_env.
#[local] Existing Instance toy_backend.

Definition toy_batches : list BatchArgs :=
  [mkBatch toy_q VNone toy_a toy_l; mkBatch toy_q VNone toy_a toy_l].

Lemma toy_ready : ready toy_state 0%nat (PFloat (Q2Qc (1 # 2))) (PFloat (Q2Qc (3 # 4))).
Proof. by repeat split. Qed.

Lemma toy_net : nets (world toy_state) !! 0%nat = Some (mkNet (Qc_of_Z 1) None false).
Proof. done. Qed.

Lemma batch_loop_descends_witness :
  fst <$> calls (world (run (batch_call <$> toy_batches) toy_state)) = [0%nat; 0%nat] /\
  net_weights <$> nets (world (run (batch_call <$> toy_batches) toy_state)) !! 0%nat
  = Some (Qc_of_Z (-1)).
Proof.
  pose proof (batch_loop_descends toy_state _ _ _ _ toy_batches toy_ready toy_net) as Hw.
  match type of Hw with match ?x with _ => _ end => set (p := x) in Hw end.
  vm_compute in p. subst p. cbv beta iota in Hw.
  rewrite Hw. unfold descended. cbn [world nets calls]. rewrite lookup_insert_eq.
  split; [by vm_compute|].
  cbn [fmap option_fmap option_map net_weights]. f_equal. by apply Qc_is_canon.
Defined.
