(* ===== verification/Loop.v ===== *)
(** * The epoch loop as a state machine

    The run of [Trainer.train] of [src/language_models/trainer.py] as the
    machine [Idle -> Training -> Done] of the design: a transition is the
    setup before the loop ([start]) or one epoch ([train_epoch]), and an
    exception ends the run in [Failed]. The machine is deterministic and
    [train] computes its only complete run; by induction on the runs, no
    reachable configuration has completed an epoch. Every run ends: a
    measure decreases at each transition and only [Done] and [Failed] have
    none; a run from [Idle] has at most two. *)

From Stdlib Require Import ZArith QArith Qcanon.
From stdpp Require Import prelude strings gmap relations.
From S2P Require Import Prelude Tensor Loss PyData Checkpoint Trainer Toy Training.

Section Loop.
Context `{Env} `{Backend}.
Implicit Types (s : State) (loc : Locals) (todo : list Z).

(** The control state of a run: before the loop, inside it with the epochs
    still to run and the local variables, after it, or stopped by an
    exception. *)
Inductive Phase : Type :=
| Idle
| Training (todo : list Z) (loc : Locals)
| Done
| Failed (e : PyError).

Definition Config : Type := Phase * State.

(** What [train] does before its loop: the optimiser, then the range of
    epochs. *)
Definition start : Exn State (list Z) :=
  _set_optimizer (PFloat 1) ;;;
  p <~ get_self params ;;
  e <~ exn_lift (params_get p EPOCHS) ;;
  epochs <~ exn_lift (range_arg e) ;;
  exn_ret (py_range epochs).

Inductive loop_step : Config -> Config -> Prop :=
| step_start s todo s' :
    start s = (Ok todo, s') -> loop_step (Idle, s) (Training todo no_locals, s')
| step_start_fail s e s' :
    start s = (Raise e, s') -> loop_step (Idle, s) (Failed e, s')
| step_epoch epoch todo loc s loc' s' :
    train_epoch loc epoch s = (Ok loc', s') ->
    loop_step (Training (epoch :: todo) loc, s) (Training todo loc', s')
| step_epoch_fail epoch todo loc s e s' :
    train_epoch loc epoch s = (Raise e, s') ->
    loop_step (Training (epoch :: todo) loc, s) (Failed e, s')
| step_done loc s :
    loop_step (Training [] loc, s) (Done, s).

(** The phase in which a call that ended with [r] leaves the machine. *)
Definition outcome {A} (r : Res A) : Phase :=
  match r with
  | Ok _ => Done
  | Raise e => Failed e
  end.

Definition final (ph : Phase) : bool :=
  match ph with
  | Done | Failed _ => true
  | _ => false
  end.

(** The loop of [train] from inside: the epochs [todo] from the locals
    [loc]. *)
Definition run_epochs todo loc : Exn State Locals := exn_fold todo train_epoch loc.

(** ** The machine runs [train] *)

Lemma train_start s :
  train s = (todo <~ start ;; run_epochs todo no_locals ;;; exn_ret tt) s.
Proof.
  unfold train, start, run_epochs. tr_unfold.
  destruct (_set_optimizer _ s) as [[[]|e] s1]; [|done].
  destruct (params_get _ _) as [v|e]; [|done]. cbn.
  by destruct (range_arg v).
Qed.

Lemma run_epochs_cons epoch todo loc s :
  run_epochs (epoch :: todo) loc s
  = match train_epoch loc epoch s with
    | (Ok loc', s') => run_epochs todo loc' s'
    | (Raise e, s') => (Raise e, s')
    end.
Proof.
  unfold run_epochs. cbn [exn_fold]. unfold exn_bind.
  by destruct (train_epoch loc epoch s) as [[loc'|e] s'].
Qed.

Lemma run_epochs_steps todo loc s :
  rtc loop_step (Training todo loc, s)
    (outcome (fst (run_epochs todo loc s)), snd (run_epochs todo loc s)).
Proof.
  revert loc s. induction todo as [|epoch todo IH]; intros loc s.
  { apply rtc_once. constructor. }
  rewrite run_epochs_cons.
  destruct (train_epoch loc epoch s) as [[loc'|e] s'] eqn:E.
  - eapply rtc_l; [exact (step_epoch _ _ _ _ _ _ E)|apply IH].
  - apply rtc_once. exact (step_epoch_fail _ _ _ _ _ _ E).
Qed.

Lemma train_steps s :
  rtc loop_step (Idle, s) (outcome (fst (train s)), snd (train s)).
Proof.
  rewrite train_start. unfold exn_bind, exn_ret.
  destruct (start s) as [[todo|e] s1] eqn:E.
  - eapply rtc_l; [exact (step_start _ _ _ E)|].
    pose proof (run_epochs_steps todo no_locals s1) as Hr.
    destruct (run_epochs todo no_locals s1) as [[loc|e] s2]; exact Hr.
  - apply rtc_once. exact (step_start_fail _ _ _ E).
Qed.

Lemma step_deterministic (c c1 c2 : Config) :
  loop_step c c1 -> loop_step c c2 -> c1 = c2.
Proof. intros H1 H2. destruct H1; inversion H2; congruence. Qed.

Lemma final_stuck ph s (c : Config) : final ph = true -> ~ loop_step (ph, s) c.
Proof. intros Hf Hs. inversion Hs; subst; done. Qed.

(** A deterministic machine has one complete run. *)
Lemma complete_run_unique (c c1 c2 : Config) :
  rtc loop_step c c1 -> rtc loop_step c c2 ->
  final (fst c1) = true -> final (fst c2) = true -> c1 = c2.
Proof.
  intros H1. revert c2.
  induction H1 as [[ph s]|c c' c1 Hs _ IH]; intros c2 H2 Hf1 Hf2;
    inversion H2 as [|? c'' ? Hs' H2']; subst; try done.
  - by apply final_stuck in Hs'.
  - destruct c2 as [ph s]. by apply final_stuck in Hs.
  - rewrite <- (step_deterministic _ _ _ Hs Hs') in H2'. by apply IH.
Qed.

(** ** No reachable configuration has completed an epoch *)

(** What holds of every configuration a run from [(Idle, s)] reaches: the
    state is [s] up to the optimiser, the console and directories, and
    inside the loop the epochs to run are still all of them. *)
Definition reach_inv s (c : Config) : Prop :=
  untrained s (snd c) /\
  match fst c with
  | Training todo loc =>
      review_seqs loc = None /\
      exists p n, params (self s) = Some p /\ p !! EPOCHS = Some (PInt n) /\
        todo = py_range n
  | Done =>
      exists p n, params (self s) = Some p /\ p !! EPOCHS = Some (PInt n) /\ (n <= 0)%Z
  | _ => True
  end.

Lemma start_inv s :
  wp start (fun r s' => untrained s s' /\
    forall todo, r = Ok todo ->
      exists p n, params (self s) = Some p /\ p !! EPOCHS = Some (PInt n) /\
        todo = py_range n) s.
Proof.
  unfold start. tr_step. eapply wp_mono; [apply set_optimizer_untrained|].
  intros [[]|e] s1 Hu1; [|done]. cbn beta.
  pose proof (untrained_params _ _ Hu1) as Hp.
  tr_run; try done. split; [done|]. intros todo [= <-].
  destruct (params (self s1)) as [p|] eqn:Ep; [|done].
  destruct a as [n| |]; try done. simplify_eq/=.
  destruct (p !! EPOCHS) as [v|] eqn:Ev; simplify_eq/=.
  exists p, a0. by rewrite <- Hp.
Qed.

Lemma py_range_cons n epoch todo : py_range n = epoch :: todo -> epoch = 0%Z.
Proof.
  destruct (decide (0 < n)%Z) as [Hn|Hn].
  - destruct (py_range_pos n Hn) as [l ->]. congruence.
  - by rewrite py_range_nonpos by lia.
Qed.

Lemma py_range_nil n : py_range n = [] -> (n <= 0)%Z.
Proof.
  intros Hr. destruct (decide (0 < n)%Z) as [Hn|Hn]; [|lia].
  destruct (py_range_pos n Hn) as [l Hl]. congruence.
Qed.

Lemma step_inv s (c c' : Config) : reach_inv s c -> loop_step c c' -> reach_inv s c'.
Proof.
  intros [Hu Hph] Hs.
  destruct Hs as [s0 todo s' E|s0 e s' E|ep todo loc s0 loc' s' E
                 |ep todo loc s0 e s' E|loc s0]; cbn [fst snd] in *.
  - pose proof (start_inv s0) as Hw. unfold wp in Hw. rewrite E in Hw.
    destruct Hw as [Hu' (p & n & Hp & Hn & ->)%(fun H => H todo eq_refl)].
    split; [by etrans|]. split; [done|]. exists p, n.
    by rewrite <- (untrained_params _ _ Hu).
  - pose proof (start_inv s0) as Hw. unfold wp in Hw. rewrite E in Hw.
    split; [|done]. etrans; [done|apply Hw].
  - destruct Hph as (Hr & p & n & _ & _ & ->%eq_sym%py_range_cons).
    pose proof (train_epoch_0 loc s0 Hr) as Hw. unfold wp in Hw. rewrite E in Hw.
    by destruct Hw.
  - destruct Hph as (Hr & p & n & _ & _ & ->%eq_sym%py_range_cons).
    pose proof (train_epoch_0 loc s0 Hr) as Hw. unfold wp in Hw. rewrite E in Hw.
    split; [|done]. etrans; [done|apply Hw].
  - destruct Hph as (_ & p & n & Hp & Hn & Hr%eq_sym%py_range_nil).
    split; [done|]. by exists p, n.
Qed.

Lemma reachable_inv s (c : Config) : rtc loop_step (Idle, s) c -> reach_inv s c.
Proof.
  intros Hr.
  apply (rtc_ind_r (R := loop_step) (reach_inv s) (Idle, s)); [by split| |done].
  intros c0 c1 _ Hs IH. by eapply step_inv.
Qed.

(** ** Every run ends *)

(** The number of epochs the setup of [train] schedules from [s]. *)
Definition epochs_of s : nat :=
  match fst (start s) with
  | Ok todo => length todo
  | Raise _ => 0
  end.

(** An upper bound on the transitions left from a configuration. *)
Definition fuel (c : Config) : nat :=
  match fst c with
  | Idle => 2 + epochs_of (snd c)
  | Training todo _ => 1 + length todo
  | Done | Failed _ => 0
  end.

Lemma step_fuel (c c' : Config) : loop_step c c' -> fuel c' < fuel c.
Proof.
  intros Hs.
  destruct Hs as [s todo s' E|s e s' E|epoch todo loc s loc' s' E
                 |epoch todo loc s e s' E|loc s];
    unfold fuel, epochs_of; cbn [fst snd length]; rewrite ?E; cbn [fst length]; lia.
Qed.

(** A configuration that is not final has a transition. *)
Lemma step_progress (c : Config) : final (fst c) = false -> exists c', loop_step c c'.
Proof.
  destruct c as [[|[|epoch todo] loc| |e] s]; intros Hf; try done.
  - destruct (start s) as [[todo|e] s'] eqn:E; eexists; by econstructor.
  - eexists. constructor.
  - destruct (train_epoch loc epoch s) as [[loc'|e] s'] eqn:E; eexists; by econstructor.
Qed.

Lemma final_nf (c : Config) : final (fst c) = true <-> nf loop_step c.
Proof.
  split.
  - intros Hf [c' Hs]. destruct c. by eapply final_stuck.
  - intros Hnf. destruct (final (fst c)) eqn:Hf; [done|].
    destruct Hnf. by apply step_progress.
Qed.

Lemma step_sn (c : Config) : sn loop_step c.
Proof.
  apply (wf_projected (R1 := flip loop_step) lt fuel); [|apply lt_wf].
  intros c1 c2. apply step_fuel.
Qed.

Lemma run_ends (c : Config) : exists c', rtc loop_step c c' /\ final (fst c') = true.
Proof.
  induction (step_sn c) as [c _ IH].
  destruct (final (fst c)) eqn:Hf; [by exists c|].
  destruct (step_progress c Hf) as [c1 Hs].
  destruct (IH c1 Hs) as (c' & Hr & Hf'). exists c'. split; [by eapply rtc_l|done].
Qed.

Lemma nsteps_fuel n (c c' : Config) : nsteps loop_step n c c' -> n + fuel c' <= fuel c.
Proof.
  induction 1 as [|n c c1 c' Hs _ IH]; [done|]. apply step_fuel in Hs. lia.
Qed.

Lemma epochs_of_params s :
  epochs_of s <= match params (self s) with
                 | Some p => match p !! EPOCHS with
                             | Some (PInt n) => Z.to_nat n
                             | _ => 0
                             end
                 | None => 0
                 end.
Proof.
  pose proof (start_inv s) as Hw. unfold wp in Hw. unfold epochs_of.
  destruct (start s) as [[todo|e] s']; cbn [fst snd] in *; [|lia].
  destruct Hw as [_ (p & n & -> & -> & ->)%(fun H => H todo eq_refl)].
  by rewrite py_range_length.
Qed.

(** The second transition of a run from [Idle] is its last: the loop is
    entered with all of [range(EPOCHS)] to run, and epoch 0 raises. *)
Lemma second_step_final s (c1 c2 : Config) :
  loop_step (Idle, s) c1 -> loop_step c1 c2 -> final (fst c2) = true.
Proof.
  intros H1 H2. pose proof (reachable_inv s c1 (rtc_once _ _ H1)) as [_ Hph].
  destruct H2 as [| |epoch todo loc s1 loc' s2 E| |]; try done; [inversion H1|].
  cbn [fst] in Hph. destruct Hph as (Hr & p & n & _ & _ & ->%eq_sym%py_range_cons).
  pose proof (train_epoch_0 loc s1 Hr) as Hw. unfold wp in Hw. rewrite E in Hw.
  by destruct Hw.
Qed.

Lemma idle_run_short s n (c : Config) : nsteps loop_step n (Idle, s) c -> n <= 2.
Proof.
  intros Hn. destruct n as [|[|[|n]]]; try lia. exfalso.
  inversion Hn as [|? ? c1 ? H1 Hn1]; subst.
  inversion Hn1 as [|? ? c2 ? H2 Hn2]; subst.
  inversion Hn2 as [|? ? c3 ? H3 _]; subst.
  destruct c2 as [ph2 s2]. eapply final_stuck; [|exact H3].
  exact (second_step_final s c1 (ph2, s2) H1 H2).
Qed.

End Loop.



(** C16: no reachable configuration has completed an epoch. Along every run
    from [Idle] the networks, the record of forward calls, the histories, the
    generators and the files stay those of the initial state; inside the
    loop the epochs still to run are all of [range(EPOCHS)] and [review_seqs]
    is unbound; [Done] is reached only when [EPOCHS] is not positive. *)
Theorem reachable_no_epoch `{Env} `{Backend} (s : State) (c : Config) :
  rtc loop_step (Idle, s) c -> reach_inv s c.
Proof. apply reachable_inv. Qed.


(** The length of a run is bounded by the epochs left: [n] transitions
    use up [n] of the bound [fuel], which from [Idle] is at most two more
    than the number [EPOCHS] of the store. *)
Theorem run_length_bounded `{Env} `{Backend} (n : nat) (c c' : Config) :
  nsteps loop_step n c c' ->
  n + fuel c' <= fuel c /\
  (fst c = Idle ->
   n <= 2 + match params (self (snd c)) with
            | Some p => match p !! EPOCHS with
                        | Some (PInt e) => Z.to_nat e
                        | _ => 0
                        end
            | None => 0
            end).
Proof.
  intros Hn%nsteps_fuel. split; [done|]. intros Hc.
  pose proof (epochs_of_params (snd c)). unfold fuel in Hn at 2. rewrite Hc in Hn. lia.
Qed.

(** A run from [Idle] has at most two transitions, whatever [EPOCHS] is:
    the setup, then the exception of the first epoch or the end of an empty
    loop. *)
Theorem run_at_most_two_steps `{Env} `{Backend} (s : State) (n : nat) (c : Config) :
  nsteps loop_step n (Idle, s) c -> n <= 2.
Proof. apply idle_run_short. Qed.

(** ** On the small instance *)

#[local] Existing Instance toy_env.
#[local] Existing Instance toy_backend.


Lemma reachable_no_epoch_witness :
  reach_inv toy_state (Failed TypeError, snd (train toy_state)).
Proof.
  apply reachable_no_epoch.
  change (Failed TypeError) with (outcome (fst (train toy_state))).
  apply train_steps.
Defined.

Lemma toy_run :
  nsteps loop_step 2 (Idle, toy_state) (Failed TypeError, snd (train toy_state)).
Proof.
  eapply nsteps_l; [by apply step_start|].
  eapply nsteps_l; [|apply nsteps_O]. by apply step_epoch_fail.
Qed.

Lemma run_length_bounded_witness :
  2 + fuel (Failed TypeError, snd (train toy_state)) <= fuel (Idle, toy_state).
Proof. exact (proj1 (run_length_bounded 2 _ _ toy_run)). Defined.

Lemma run_at_most_two_steps_witness : 2 <= 2.
Proof. exact (run_at_most_two_steps toy_state 2 _ toy_run). Defined.
